(** * UniEventry: the event-management REST API, embedded in Rocq

    The route handlers of [src/routes] and the identity guard of
    [src/middleware/auth.js] are modelled as state transformers over the
    relational store.  A table is the list of its rows in insertion order;
    a parameterised SQL statement is a function on those lists; an [async]
    handler body is a computation in a small monad that threads the store
    and can leave early, either because a response was sent
    ([return res.status(..).json(..)]) or because [db.execute] threw.

    Conventions of the embedding:
    - SQL [INT] columns are [Z], nullable columns are [option], with
      [None] for [NULL]; [BOOLEAN] columns are nullable [TINYINT]s.
    - Request values that the validators declare as integers are [Z]; the
      implicit string/number casts of MySQL are outside the model.
    - The columns of a table are the union of those the routes read or
      write ([max_participants] and [qr_secret] on events, [status] and
      [waitlist_position] on registrations).
    - The [UNIQUE KEY unique_registration (event_id, student_id)] of the
      registrations table is enforced on insert.  FOREIGN KEY checks are
      not modelled: every handler inserts ids it has just read back from
      rows that reference them. *)

From Stdlib Require Import ZArith String List Bool Lia.
Import ListNotations.

Local Open Scope Z_scope.

(** ** JavaScript coercions used by the handlers *)

Module Js.

(** Truthiness of a number-or-null value: [null] and [0] are falsy. *)
Definition truthy (v : option Z) : bool :=
  match v with
  | Some n => negb (n =? 0)
  | None => false
  end.

(** [ToNumber]: [null] becomes [+0]. *)
Definition to_number (v : option Z) : Z :=
  match v with
  | Some n => n
  | None => 0
  end.

(** [a >= b] where [a] is a number and [b] a number or [null]. *)
Definition ge (a : Z) (b : option Z) : bool := to_number b <=? a.

(** [v || 0]. *)
Definition or_zero (v : option Z) : Z :=
  if truthy v then to_number v else 0.

End Js.

(** ** SQL aggregates *)

Module Sql.

(** [COUNT( * )] of the rows that satisfy the [WHERE] clause. *)
Definition count {A : Type} (p : A -> bool) (rows : list A) : Z :=
  Z.of_nat (length (filter p rows)).

(** [MAX(col)]: [NULL]s are skipped, and the result is [NULL] when no
    non-[NULL] value is left. *)
Fixpoint max_of (vs : list (option Z)) : option Z :=
  match vs with
  | [] => None
  | None :: rest => max_of rest
  | Some x :: rest =>
      match max_of rest with
      | None => Some x
      | Some y => Some (Z.max x y)
      end
  end.

(** The non-[NULL] values of a column. *)
Fixpoint values (vs : list (option Z)) : list Z :=
  match vs with
  | [] => []
  | None :: rest => values rest
  | Some x :: rest => x :: values rest
  end.

(** [AUTO_INCREMENT]: one more than the largest id handed out so far. *)
Definition next_id (ids : list Z) : Z :=
  fold_right Z.max 0 ids + 1.

End Sql.

(** ** Tables *)

Inductive reg_status := registered | waitlisted | cancelled.

Definition status_name (s : reg_status) : string :=
  match s with
  | registered => "registered"
  | waitlisted => "waitlisted"
  | cancelled => "cancelled"
  end.

Definition status_eqb (a b : reg_status) : bool :=
  match a, b with
  | registered, registered | waitlisted, waitlisted | cancelled, cancelled => true
  | _, _ => false
  end.

Record student := {
  s_id : Z;
  s_college_id : Z;
  s_email : string;
  s_password_hash : string;
  s_first_name : string;
  s_last_name : string;
  s_is_active : option Z
}.

Record admin := {
  a_id : Z;
  a_college_id : Z;
  a_email : string;
  a_password_hash : string;
  a_role : string;
  a_is_active : option Z
}.

Record event := {
  e_id : Z;
  e_college_id : Z;
  e_title : string;
  e_max_participants : option Z;
  e_qr_secret : option string
}.

Record registration := {
  r_id : Z;
  r_event_id : Z;
  r_student_id : Z;
  r_college_id : Z;
  r_status : reg_status;
  r_waitlist_position : option Z
}.

Record attendance_row := {
  at_id : Z;
  at_event_id : Z;
  at_student_id : Z;
  at_college_id : Z;
  at_checked_in_at : Z
}.

Record feedback_row := {
  f_id : Z;
  f_event_id : Z;
  f_student_id : Z;
  f_college_id : Z;
  f_rating : Z;
  f_comments : string;
  f_suggestions : string;
  f_anonymous : bool
}.

Record note := {
  n_id : Z;
  n_event_id : Z;
  n_student_id : Z;
  n_content : string;
  n_updated_at : Z
}.

Record database := {
  students : list student;
  admins : list admin;
  events : list event;
  registrations : list registration;
  attendance : list attendance_row;
  feedback : list feedback_row;
  notes : list note
}.

Definition set_registrations (d : database) (rs : list registration) : database :=
  {| students := students d; admins := admins d; events := events d;
     registrations := rs; attendance := attendance d;
     feedback := feedback d; notes := notes d |}.

Definition set_attendance (d : database) (rows : list attendance_row) : database :=
  {| students := students d; admins := admins d; events := events d;
     registrations := registrations d; attendance := rows;
     feedback := feedback d; notes := notes d |}.

Definition set_feedback (d : database) (rows : list feedback_row) : database :=
  {| students := students d; admins := admins d; events := events d;
     registrations := registrations d; attendance := attendance d;
     feedback := rows; notes := notes d |}.

Definition set_notes (d : database) (rows : list note) : database :=
  {| students := students d; admins := admins d; events := events d;
     registrations := registrations d; attendance := attendance d;
     feedback := feedback d; notes := rows |}.

(** ** HTTP responses *)

(** The credential payload that [jwt.sign] receives and [jwt.verify]
    gives back as [req.user]. *)
Record payload := {
  u_id : Z;
  u_college_id : Z;
  u_role : string
}.

(** A signed token: its payload, its expiry (seconds), and whether the
    signature checks against [JWT_SECRET]. *)
Record jwt := {
  jwt_payload : payload;
  jwt_exp : Z;
  jwt_signed : bool
}.

(** A row of the reports: the key columns and the aggregated count. *)
Record event_count := {
  ec_id : Z;
  ec_title : string;
  ec_registrations : Z
}.

Record student_count := {
  sc_id : Z;
  sc_first_name : string;
  sc_last_name : string;
  sc_events_attended : Z
}.

Inductive json :=
| Error (error : string)
| Message (message : string)
| RegistrationMade (message : string) (waitlist_position : option Z)
| Errors (errors : list string)
| FeedbackCreated (message : string) (feedback_id : Z)
| LoggedIn (message : string) (token : jwt) (id : Z) (email : string) (role : string)
| Report (report : list event_count)
| Participation (report : list student_count)
| Leaderboard (leaderboard : list student_count).

Record response := {
  status : Z;
  body : json
}.

Definition respond_with (code : Z) (b : json) : response :=
  {| status := code; body := b |}.

(** The status codes behind the names of the error taxonomy: 403 for
    Forbidden, 500 for Internal, and 400 for a duplicate (Conflict). *)
Module Taxonomy.

Definition forbidden (r : response) : bool := status r =? 403.

Definition conflict (r : response) : bool := status r =? 400.

Definition internal (r : response) : bool := status r =? 500.

End Taxonomy.

(** ** The handler monad *)

Inductive exit :=
| Sent (r : response)
| Thrown.

(** A handler body: it reads and writes the store and either goes on with
    a value or leaves. *)
Definition M (A : Type) : Type := database -> database * (A + exit).

(** A complete middleware or route: the store after, and the one response. *)
Definition Handler : Type := database -> database * response.

Definition ret {A : Type} (a : A) : M A := fun d => (d, inl a).

Definition bind {A B : Type} (m : M A) (k : A -> M B) : M B :=
  fun d =>
    match m d with
    | (d', inl a) => k a d'
    | (d', inr e) => (d', inr e)
    end.

(** [return res.status(code).json(b)] inside a [try] block. *)
Definition send {A : Type} (code : Z) (b : json) : M A :=
  fun d => (d, inr (Sent (respond_with code b))).

(** A [SELECT]: it cannot change the store. *)
Definition query {A : Type} (q : database -> A) : M A :=
  fun d => (d, inl (q d)).

(** An [INSERT] or [UPDATE]: [None] is a rejected statement, which makes
    [db.execute] throw and leaves the store as it was. *)
Definition execute {A : Type} (stmt : database -> option (database * A)) : M A :=
  fun d =>
    match stmt d with
    | Some (d', a) => (d', inl a)
    | None => (d, inr Thrown)
    end.

(** [res.status(code).json(b)] outside any [try] block. *)
Definition reply (code : Z) (b : json) : Handler :=
  fun d => (d, respond_with code b).

(** [try { m; k } catch (error) { res.status(500).json({ error: msg }) }]
    where only [m] can throw. *)
Definition try_then {A : Type} (m : M A) (msg : string) (k : A -> Handler) : Handler :=
  fun d =>
    match m d with
    | (d', inl a) => k a d'
    | (d', inr (Sent r)) => (d', r)
    | (d', inr Thrown) => (d', respond_with 500 (Error msg))
    end.

(** [try { m } catch (error) { res.status(500).json({ error: msg }) }] where
    the value of [m] is the body sent by the closing [res.json]. *)
Definition try_catch (m : M response) (msg : string) : Handler :=
  try_then m msg (fun r d => (d, r)).

Declare Scope handler_scope.
Delimit Scope handler_scope with handler.

Notation "x <- m ;; k" := (bind m (fun x => k))
  (at level 100, m at next level, right associativity) : handler_scope.

Notation "' p <- m ;; k" := (bind m (fun x => let p := x in k))
  (at level 100, p pattern, m at next level, right associativity) : handler_scope.

Local Open Scope handler_scope.

(** ** middleware/auth.js *)

(** [jwt.verify(token, JWT_SECRET)] at time [now]: the decoded payload, or
    [None] when it throws (bad signature, or expired). *)
Definition jwt_verify (now : Z) (t : jwt) : option payload :=
  if jwt_signed t && (now <? jwt_exp t) then Some (jwt_payload t) else None.

(** [jwt.sign(payload, JWT_SECRET, { expiresIn: '1d' })] at time [now]. *)
Definition jwt_sign (now : Z) (p : payload) : jwt :=
  {| jwt_payload := p; jwt_exp := now + 86400; jwt_signed := true |}.

(** [token] is what [authHeader && authHeader.split(' ')[1]] leaves:
    [None] when the header is missing or has no second word. *)
Definition authenticateToken (now : Z) (token : option jwt)
    (next : payload -> Handler) : Handler :=
  match token with
  | None => reply 401 (Error "Access token required")
  | Some t =>
      match jwt_verify now t with
      | Some decoded => next decoded
      | None => reply 403 (Error "Invalid or expired token")
      end
  end.

Definition includes (roles : list string) (r : string) : bool :=
  existsb (String.eqb r) roles.

(** [req_user] is [req.user], which is unset when no earlier middleware
    has authenticated the request. *)
Definition requireRole (roles : list string) (req_user : option payload)
    (next : payload -> Handler) : Handler :=
  match req_user with
  | None => reply 401 (Error "Authentication required")
  | Some user =>
      if negb (includes roles (u_role user))
      then reply 403 (Error "Insufficient permissions")
      else next user
  end.

Definition with_college (user : payload) (c : Z) : payload :=
  {| u_id := u_id user; u_college_id := c; u_role := u_role user |}.

(** [SELECT college_id, is_active FROM admins WHERE id = ?]. *)
Definition select_admin (id : Z) (d : database) : list admin :=
  filter (fun a => a_id a =? id) (admins d).

(** [SELECT college_id, is_active FROM students WHERE id = ?]. *)
Definition select_student (id : Z) (d : database) : list student :=
  filter (fun s => s_id s =? id) (students d).

(** The admin branch of the guard. *)
Definition check_admin (user : payload) : M payload :=
  if String.eqb (u_role user) "admin" || String.eqb (u_role user) "super_admin" then
    admin <- query (select_admin (u_id user)) ;;
    match admin with
    | [] => send 403 (Error "Admin account not found or inactive")
    | a :: _ =>
        if negb (Js.truthy (a_is_active a))
        then send 403 (Error "Admin account not found or inactive")
        else ret (with_college user (a_college_id a))
    end
  else ret user.

(** The student branch of the guard. *)
Definition check_student (user : payload) : M payload :=
  if String.eqb (u_role user) "student" then
    student <- query (select_student (u_id user)) ;;
    match student with
    | [] => send 403 (Error "Student account not found or inactive")
    | s :: _ =>
        if negb (Js.truthy (s_is_active s))
        then send 403 (Error "Student account not found or inactive")
        else ret (with_college user (s_college_id s))
    end
  else ret user.

Definition requireSameCollege (req_user : option payload)
    (next : payload -> Handler) : Handler :=
  match req_user with
  | None => reply 401 (Error "Authentication required")
  | Some user =>
      try_then (u1 <- check_admin user ;; check_student u1)
               "Internal server error" next
  end.

(** The account record of a credential, as the guard reads it: the
    [college_id] and [is_active] columns of the first row with the
    credential's id, in the table of the credential's role. *)
Definition account_row (user : payload) (d : database) : option (Z * option Z) :=
  if String.eqb (u_role user) "admin" || String.eqb (u_role user) "super_admin" then
    match select_admin (u_id user) d with
    | [] => None
    | a :: _ => Some (a_college_id a, a_is_active a)
    end
  else if String.eqb (u_role user) "student" then
    match select_student (u_id user) d with
    | [] => None
    | s :: _ => Some (s_college_id s, s_is_active s)
    end
  else None.

(** The message of the guard's 403, by role. *)
Definition inactive_message (role : string) : string :=
  if String.eqb role "student"
  then "Student account not found or inactive"
  else "Admin account not found or inactive".

(** The roles that have an account table. *)
Definition known_role (role : string) : Prop :=
  role = "admin"%string \/ role = "super_admin"%string \/ role = "student"%string.

(** ** routes/registration.js *)

Module Registration.

Definition event_in_college (event_id college : Z) (e : event) : bool :=
  (e_id e =? event_id) && (e_college_id e =? college).

Definition for_event (event_id : Z) (st : reg_status) (r : registration) : bool :=
  (r_event_id r =? event_id) && status_eqb (r_status r) st.

Definition same_pair (event_id student_id : Z) (r : registration) : bool :=
  (r_event_id r =? event_id) && (r_student_id r =? student_id).

(** The row an insert adds, with the next [AUTO_INCREMENT] id. *)
Definition new_registration (d : database) (college event_id student_id : Z)
    (st : reg_status) (pos : option Z) : registration :=
  {| r_id := Sql.next_id (map r_id (registrations d));
     r_event_id := event_id; r_student_id := student_id;
     r_college_id := college; r_status := st;
     r_waitlist_position := pos |}.

(** [INSERT INTO registrations (college_id, event_id, student_id, status,
    waitlist_position)]: rejected by [unique_registration] when the pair
    is already in the table, whatever the status of its row. *)
Definition insert_registration (college event_id student_id : Z)
    (st : reg_status) (pos : option Z) (d : database) : option (database * unit) :=
  if existsb (same_pair event_id student_id) (registrations d) then None
  else
    let row := new_registration d college event_id student_id st pos in
    Some (set_registrations d (registrations d ++ [row]), tt).

(** Lines 33-42: the status and the position the handler settles on. *)
Definition decide (event_id : Z) (capacity : option Z) : M (reg_status * option Z) :=
  registeredCount <- query (fun d =>
    Sql.count (for_event event_id registered) (registrations d)) ;;
  if Js.ge registeredCount capacity then
    maxPosition <- query (fun d =>
      Sql.max_of (map r_waitlist_position
                      (filter (for_event event_id waitlisted) (registrations d)))) ;;
    ret (waitlisted, Some (Js.or_zero maxPosition + 1))
  else ret (registered, None).

(** The body of [router.post('/')] after the two guards. *)
Definition post_registration (user : payload) (event_id : Z) : Handler :=
  if negb (String.eqb (u_role user) "student")
  then reply 403 (Error "Only students can register")
  else
    try_catch (
      evs <- query (fun d =>
        filter (event_in_college event_id (u_college_id user)) (events d)) ;;
      match evs with
      | [] => send 404 (Error "Event not found")
      | ev :: _ =>
          let capacity := e_max_participants ev in
          ' (st, waitlist_position) <- decide event_id capacity ;;
          _ <- execute (insert_registration (u_college_id user) event_id
                          (u_id user) st waitlist_position) ;;
          ret (respond_with 200
                 (RegistrationMade (String.append "Registration " (status_name st))
                             waitlist_position))
      end)
      "Failed to register".

(** [POST /api/registrations]. *)
Definition route (now : Z) (token : option jwt) (event_id : Z) : Handler :=
  authenticateToken now token (fun decoded =>
    requireSameCollege (Some decoded) (fun user =>
      post_registration user event_id)).

(** *** Sequential runs of the endpoint *)

(** One request: its arrival time, its bearer token and [req.body.event_id]. *)
Definition request : Type := Z * option jwt * Z.

Definition requested_event (rq : request) : Z := snd rq.

(** The requests are served one after the other, each on the store the
    previous one left. *)
Fixpoint serve (reqs : list request) (d : database) : database * list response :=
  match reqs with
  | [] => (d, [])
  | (now, token, event_id) :: rest =>
      let (d1, r) := route now token event_id d in
      let (d2, rs) := serve rest d1 in
      (d2, r :: rs)
  end.

(** The [waitlist_position] column of the waitlisted rows of an event, in
    insertion order. *)
Definition waitlist_of (d : database) (event_id : Z) : list (option Z) :=
  map r_waitlist_position
      (filter (for_event event_id waitlisted) (registrations d)).

(** The position announced by a response that says "Registration
    waitlisted"; any other response announces none. *)
Definition reported_position (r : response) : option Z :=
  match body r with
  | RegistrationMade message pos =>
      if String.eqb message "Registration waitlisted" then pos else None
  | _ => None
  end.

(** The positions announced, in arrival order, to the requests for one
    event. *)
Fixpoint reported (event_id : Z) (reqs : list request) (resps : list response)
    : list Z :=
  match reqs, resps with
  | rq :: reqs', r :: resps' =>
      match reported_position r with
      | Some p =>
          if requested_event rq =? event_id
          then p :: reported event_id reqs' resps'
          else reported event_id reqs' resps'
      | None => reported event_id reqs' resps'
      end
  | _, _ => []
  end.

(** [start; start + 1; ...], [n] numbers. *)
Fixpoint zseq (start : Z) (n : nat) : list Z :=
  match n with
  | O => []
  | S n' => start :: zseq (start + 1) n'
  end.

(** The stored capacity of event [e] is 0 or [NULL]. *)
Definition no_capacity (e : Z) (d : database) : Prop :=
  forall ev, In ev (events d) -> e_id ev = e ->
    e_max_participants ev = None \/ e_max_participants ev = Some 0.

End Registration.

(** ** routes/attendance.js *)

Module Attendance.

(** The object the student presents, [{ event_id, secret, college_id }]. *)
Record qr_payload := {
  qr_event_id : Z;
  qr_secret : string;
  qr_college_id : Z
}.

(** [WHERE id = ? AND qr_secret = ? AND college_id = ?]: a [NULL] secret
    equals nothing. *)
Definition qr_matches (qr : qr_payload) (e : event) : bool :=
  (e_id e =? qr_event_id qr)
  && match e_qr_secret e with
     | Some s => String.eqb s (qr_secret qr)
     | None => false
     end
  && (e_college_id e =? qr_college_id qr).

Definition attended (event_id student_id : Z) (a : attendance_row) : bool :=
  (at_event_id a =? event_id) && (at_student_id a =? student_id).

(** [INSERT INTO attendance (college_id, event_id, student_id)], with
    [checked_in_at] defaulting to the current time. *)
Definition insert_attendance (now college event_id student_id : Z)
    (d : database) : option (database * unit) :=
  let row := {| at_id := Sql.next_id (map at_id (attendance d));
                at_event_id := event_id; at_student_id := student_id;
                at_college_id := college; at_checked_in_at := now |} in
  Some (set_attendance d (attendance d ++ [row]), tt).

Section QrCheckin.

(** [JSON.parse] followed by the reads of the three properties: [None]
    when it throws, or when a property is missing (binding [undefined]
    makes [db.execute] throw). *)
Variable JSON_parse : string -> option qr_payload.

Definition parse (qr_data : string) : M qr_payload :=
  fun d =>
    match JSON_parse qr_data with
    | Some qr => (d, inl qr)
    | None => (d, inr Thrown)
    end.

(** The body of [router.post('/qr-checkin')] after the two guards. *)
Definition post_qr_checkin (now : Z) (user : payload) (qr_data : string) : Handler :=
  if negb (String.eqb (u_role user) "student")
  then reply 403 (Error "Only students can check in")
  else
    try_catch (
      qr <- parse qr_data ;;
      evs <- query (fun d => filter (qr_matches qr) (events d)) ;;
      match evs with
      | [] => send 400 (Error "Invalid QR code")
      | _ :: _ =>
          existing <- query (fun d =>
            filter (attended (qr_event_id qr) (u_id user)) (attendance d)) ;;
          match existing with
          | _ :: _ => send 400 (Error "Already checked in")
          | [] =>
              _ <- execute (insert_attendance now (u_college_id user)
                              (qr_event_id qr) (u_id user)) ;;
              ret (respond_with 200 (Message "Checked in successfully"))
          end
      end)
      "Failed to check in".

(** [POST /api/attendance/qr-checkin]. *)
Definition route (now : Z) (token : option jwt) (qr_data : string) : Handler :=
  authenticateToken now token (fun decoded =>
    requireSameCollege (Some decoded) (fun user =>
      post_qr_checkin now user qr_data)).

End QrCheckin.

End Attendance.

(** ** routes/feedback.js *)

Module Feedback.

(** [req.body]; [None] is a property that was left out. *)
Record feedback_body := {
  fb_event_id : Z;
  fb_rating : Z;
  fb_comments : option string;
  fb_suggestions : option string;
  fb_anonymous : option bool
}.

Definition short_enough (limit : nat) (v : option string) : bool :=
  match v with
  | Some s => Nat.leb (String.length s) limit
  | None => true
  end.

(** The fields the validator chain complains about. *)
Definition validation_errors (b : feedback_body) : list string :=
  (if (1 <=? fb_rating b) && (fb_rating b <=? 5) then [] else ["rating"%string])
  ++ (if short_enough 1000 (fb_comments b) then [] else ["comments"%string])
  ++ (if short_enough 1000 (fb_suggestions b) then [] else ["suggestions"%string]).

Definition attended_in (event_id student_id college : Z) (a : attendance_row) : bool :=
  (at_event_id a =? event_id) && (at_student_id a =? student_id)
  && (at_college_id a =? college).

Definition feedback_of (event_id student_id : Z) (f : feedback_row) : bool :=
  (f_event_id f =? event_id) && (f_student_id f =? student_id).

(** [INSERT INTO feedback (college_id, event_id, student_id, rating,
    comments, suggestions, anonymous)]: [db.execute] throws on a bind
    parameter that is [undefined].  The value is [result.insertId]. *)
Definition insert_feedback (college event_id student_id rating : Z)
    (comments suggestions : option string) (anonymous : bool)
    (d : database) : option (database * Z) :=
  match comments, suggestions with
  | Some c, Some s =>
      let new_id := Sql.next_id (map f_id (feedback d)) in
      let row := {| f_id := new_id; f_event_id := event_id;
                    f_student_id := student_id; f_college_id := college;
                    f_rating := rating; f_comments := c;
                    f_suggestions := s; f_anonymous := anonymous |} in
      Some (set_feedback d (feedback d ++ [row]), new_id)
  | _, _ => None
  end.

(** The body of [router.post('/')] after the two guards. *)
Definition post_feedback (user : payload) (b : feedback_body) : Handler :=
  if negb (String.eqb (u_role user) "student")
  then reply 403 (Error "Only students can submit feedback")
  else
    try_catch (
      match validation_errors b with
      | (_ :: _) as errors => send 400 (Errors errors)
      | [] =>
          let anonymous := match fb_anonymous b with Some a => a | None => false end in
          att <- query (fun d =>
            filter (attended_in (fb_event_id b) (u_id user) (u_college_id user))
                   (attendance d)) ;;
          match att with
          | [] => send 400 (Error "Can only provide feedback for events you attended")
          | _ :: _ =>
              existing <- query (fun d =>
                filter (feedback_of (fb_event_id b) (u_id user)) (feedback d)) ;;
              match existing with
              | _ :: _ => send 400 (Error "Feedback already submitted for this event")
              | [] =>
                  insertId <- execute (insert_feedback (u_college_id user)
                                (fb_event_id b) (u_id user) (fb_rating b)
                                (fb_comments b) (fb_suggestions b) anonymous) ;;
                  ret (respond_with 201
                         (FeedbackCreated "Feedback submitted successfully" insertId))
              end
          end
      end)
      "Failed to submit feedback".

End Feedback.

(** ** routes/notes.js *)

Module Notes.

Definition validation_errors (content : string) : list string :=
  if negb (String.eqb content "") && Nat.leb (String.length content) 5000
  then [] else ["content"%string].

Definition registered_in (event_id student_id college : Z) (r : registration) : bool :=
  (r_event_id r =? event_id) && (r_student_id r =? student_id)
  && (r_college_id r =? college).

Definition note_of (event_id student_id : Z) (n : note) : bool :=
  (n_event_id n =? event_id) && (n_student_id n =? student_id).

(** [UPDATE notes SET content = ?, updated_at = NOW() WHERE event_id = ?
    AND student_id = ?]. *)
Definition update_note (now : Z) (content : string) (event_id student_id : Z)
    (d : database) : option (database * unit) :=
  let upd n :=
    if note_of event_id student_id n
    then {| n_id := n_id n; n_event_id := n_event_id n;
            n_student_id := n_student_id n; n_content := content;
            n_updated_at := now |}
    else n in
  Some (set_notes d (map upd (notes d)), tt).

(** [INSERT INTO notes (event_id, student_id, content)]. *)
Definition insert_note (now : Z) (event_id student_id : Z) (content : string)
    (d : database) : option (database * unit) :=
  let row := {| n_id := Sql.next_id (map n_id (notes d));
                n_event_id := event_id; n_student_id := student_id;
                n_content := content; n_updated_at := now |} in
  Some (set_notes d (notes d ++ [row]), tt).

(** The body of [router.post('/')] after the two guards. *)
Definition post_note (now : Z) (user : payload) (event_id : Z) (content : string)
    : Handler :=
  if negb (String.eqb (u_role user) "student")
  then reply 403 (Error "Only students can create notes")
  else
    try_catch (
      match validation_errors content with
      | (_ :: _) as errors => send 400 (Errors errors)
      | [] =>
          reg <- query (fun d =>
            filter (registered_in event_id (u_id user) (u_college_id user))
                   (registrations d)) ;;
          match reg with
          | [] => send 400
                    (Error "Can only create notes for events you are registered for")
          | _ :: _ =>
              existing <- query (fun d =>
                filter (note_of event_id (u_id user)) (notes d)) ;;
              match existing with
              | _ :: _ =>
                  _ <- execute (update_note now content event_id (u_id user)) ;;
                  ret (respond_with 200 (Message "Note updated successfully"))
              | [] =>
                  _ <- execute (insert_note now event_id (u_id user) content) ;;
                  ret (respond_with 200 (Message "Note created successfully"))
              end
          end
      end)
      "Internal server error".

End Notes.

(** ** routes/report.js *)

Module Reports.

(** [ORDER BY key DESC]: a stable insertion sort, so that ties keep the
    order of the underlying rows. *)
Fixpoint insert_desc {A : Type} (key : A -> Z) (x : A) (l : list A) : list A :=
  match l with
  | [] => [x]
  | y :: rest =>
      if key y <=? key x then x :: l else y :: insert_desc key x rest
  end.

Definition order_by_desc {A : Type} (key : A -> Z) (l : list A) : list A :=
  fold_right (insert_desc key) [] l.

(** [LEFT JOIN registrations r ON e.id = r.event_id AND r.status =
    "registered"], counted per event. *)
Definition registered_for (e : event) (r : registration) : bool :=
  (e_id e =? r_event_id r) && status_eqb (r_status r) registered.

Definition popularity_row (d : database) (e : event) : event_count :=
  {| ec_id := e_id e; ec_title := e_title e;
     ec_registrations := Sql.count (registered_for e) (registrations d) |}.

(** [SELECT e.id, e.title, COUNT(r.id) ... WHERE e.college_id = ? GROUP BY
    e.id ORDER BY registrations DESC]. *)
Definition event_popularity (college : Z) (d : database) : list event_count :=
  order_by_desc ec_registrations
    (map (popularity_row d)
         (filter (fun e => e_college_id e =? college) (events d))).

Definition get_event_popularity (user : payload) : Handler :=
  try_catch (
    evs <- query (event_popularity (u_college_id user)) ;;
    ret (respond_with 200 (Report evs)))
    "Failed to generate report".

(** [LEFT JOIN attendance a ON s.id = a.student_id AND s.college_id =
    a.college_id]: the matching rows, or one all-[NULL] row. *)
Definition joins (s : student) (a : attendance_row) : bool :=
  (s_id s =? at_student_id a) && (s_college_id s =? at_college_id a).

Definition left_join (d : database) (s : student) : list (option attendance_row) :=
  match filter (joins s) (attendance d) with
  | [] => [None]
  | rows => map Some rows
  end.

(** [a.checked_in_at >= ?] and [a.checked_in_at <= ?]: a comparison with
    [NULL] is not true. *)
Definition not_before (t : Z) (a : option attendance_row) : bool :=
  match a with
  | Some row => t <=? at_checked_in_at row
  | None => false
  end.

Definition not_after (t : Z) (a : option attendance_row) : bool :=
  match a with
  | Some row => at_checked_in_at row <=? t
  | None => false
  end.

(** [req.query] of the participation report; a bound that is absent or
    empty adds no condition. *)
Record period := {
  start_date : option Z;
  end_date : option Z
}.

Definition in_period (q : period) (a : option attendance_row) : bool :=
  match start_date q with Some t => not_before t a | None => true end
  && match end_date q with Some t => not_after t a | None => true end.

(** [COUNT(a.id)]: the joined rows that are not the all-[NULL] one. *)
Definition count_ids (rows : list (option attendance_row)) : Z :=
  Sql.count (fun a => match a with Some _ => true | None => false end) rows.

(** One group of [GROUP BY s.id], if a joined row is left after [WHERE]. *)
Definition participation_group (q : period) (d : database) (s : student)
    : list student_count :=
  match filter (in_period q) (left_join d s) with
  | [] => []
  | rows => [{| sc_id := s_id s; sc_first_name := s_first_name s;
                sc_last_name := s_last_name s;
                sc_events_attended := count_ids rows |}]
  end.

Definition student_participation (college : Z) (q : period) (d : database)
    : list student_count :=
  order_by_desc sc_events_attended
    (flat_map (participation_group q d)
              (filter (fun s => s_college_id s =? college) (students d))).

Definition get_student_participation (user : payload) (q : period) : Handler :=
  try_catch (
    rows <- query (student_participation (u_college_id user) q) ;;
    ret (respond_with 200 (Participation rows)))
    "Failed to generate report".

Definition no_period : period := {| start_date := None; end_date := None |}.

(** [parseInt(req.query.limit) || 10], with [None] for [NaN]. *)
Definition limit_of (parsed : option Z) : Z :=
  if Js.truthy parsed then Js.to_number parsed else 10.

(** The leaderboard statement; a negative [LIMIT] is rejected. *)
Definition leaderboard (college limit : Z) (d : database)
    : option (database * list student_count) :=
  if limit <? 0 then None
  else Some (d, firstn (Z.to_nat limit) (student_participation college no_period d)).

Definition get_leaderboard (user : payload) (parsed_limit : option Z) : Handler :=
  try_catch (
    let limit := limit_of parsed_limit in
    rows <- execute (leaderboard (u_college_id user) limit) ;;
    ret (respond_with 200 (Leaderboard rows)))
    "Failed to generate leaderboard".

(** The three report endpoints and what each reads from the request (the
    [format] parameter of the popularity report is validated and never
    read). *)
Inductive endpoint :=
| EventPopularity
| StudentParticipation (q : period)
| LeaderboardTop (parsed_limit : option Z).

Definition handler (ep : endpoint) (user : payload) : Handler :=
  match ep with
  | EventPopularity => get_event_popularity user
  | StudentParticipation q => get_student_participation user q
  | LeaderboardTop l => get_leaderboard user l
  end.

(** [GET /api/reports/...]: [authenticateToken, requireRole(['admin']),
    requireSameCollege], then the handler. *)
Definition route (ep : endpoint) (now : Z) (token : option jwt) : Handler :=
  authenticateToken now token (fun decoded =>
    requireRole ["admin"%string] (Some decoded) (fun u =>
      requireSameCollege (Some u) (handler ep))).

(** The same token with another college written into its payload. *)
Definition with_claimed_college (t : jwt) (c : Z) : jwt :=
  {| jwt_payload := with_college (jwt_payload t) c;
     jwt_exp := jwt_exp t; jwt_signed := jwt_signed t |}.

(** The period an endpoint restricts the attendance to. *)
Definition period_of (ep : endpoint) : period :=
  match ep with
  | StudentParticipation q => q
  | _ => no_period
  end.

End Reports.

(** ** routes/auth.js *)

Module Login.

(** The columns of [SELECT *] that the handler reads, whichever table the
    row came from. *)
Record user_row := {
  row_id : Z;
  row_college_id : Z;
  row_email : string;
  row_password_hash : string
}.

Definition of_admin (a : admin) : user_row :=
  {| row_id := a_id a; row_college_id := a_college_id a;
     row_email := a_email a; row_password_hash := a_password_hash a |}.

Definition of_student (s : student) : user_row :=
  {| row_id := s_id s; row_college_id := s_college_id s;
     row_email := s_email s; row_password_hash := s_password_hash s |}.

Definition admins_by_email (email : string) (d : database) : list user_row :=
  map of_admin (filter (fun a => String.eqb (a_email a) email) (admins d)).

Definition students_by_email (email : string) (d : database) : list user_row :=
  map of_student (filter (fun s => String.eqb (s_email s) email) (students d)).

Section PostLogin.

(** [bcrypt.compare(password, hash)] and the [isEmail] validator. *)
Variable bcrypt_compare : string -> string -> bool.
Variable isEmail : string -> bool.

Definition validation_errors (email password : string) : list string :=
  (if isEmail email then [] else ["email"%string])
  ++ (if negb (String.eqb password "") then [] else ["password"%string]).

(** Lines 81-89: the admins table first, the students table only when
    that gave nothing. *)
Definition find_user (email : string) : M (list user_row * string) :=
  userRows <- query (admins_by_email email) ;;
  match userRows with
  | [] =>
      userRows <- query (students_by_email email) ;;
      ret (userRows, "student"%string)
  | _ :: _ => ret (userRows, "admin"%string)
  end.

(** [router.post('/login')]. *)
Definition post_login (now : Z) (email password : string) : Handler :=
  match validation_errors email password with
  | (_ :: _) as errors => reply 400 (Errors errors)
  | [] =>
      try_catch (
        ' (userRows, userRole) <- find_user email ;;
        match userRows with
        | [] => send 401 (Error "Invalid credentials")
        | user :: _ =>
            if negb (bcrypt_compare password (row_password_hash user))
            then send 401 (Error "Invalid credentials")
            else
              let p := {| u_id := row_id user;
                          u_college_id := row_college_id user;
                          u_role := userRole |} in
              let token := jwt_sign now p in
              ret (respond_with 200
                     (LoggedIn "Login successful" token (row_id user)
                               (row_email user) userRole))
        end)
        "Login failed"
  end.

End PostLogin.

End Login.

(** ** A small campus, used to exercise the handlers *)

Module Sample.

Definition a_student (i college : Z) (email : string) (active : option Z) : student :=
  {| s_id := i; s_college_id := college; s_email := email;
     s_password_hash := "hash-s"; s_first_name := "Asha"; s_last_name := "Rao";
     s_is_active := active |}.

Definition an_admin (i college : Z) (email : string) (active : option Z) : admin :=
  {| a_id := i; a_college_id := college; a_email := email;
     a_password_hash := "hash-a"; a_role := "admin"; a_is_active := active |}.

Definition an_event (i college : Z) (cap : option Z) (secret : option string) : event :=
  {| e_id := i; e_college_id := college; e_title := "Hackathon";
     e_max_participants := cap; e_qr_secret := secret |}.

Definition a_registration (i ev st college : Z) (s : reg_status) (pos : option Z)
    : registration :=
  {| r_id := i; r_event_id := ev; r_student_id := st; r_college_id := college;
     r_status := s; r_waitlist_position := pos |}.

(** College 1 has four active students, the deactivated student 6, one
    admin and event 10 with two places; college 2 has one student, one
    admin and event 20. *)
Definition campus : database :=
  {| students := [a_student 1 1 "a@c1.edu" (Some 1); a_student 2 1 "b@c1.edu" (Some 1);
                  a_student 3 1 "c@c1.edu" (Some 1); a_student 4 1 "d@c1.edu" (Some 1);
                  a_student 5 2 "e@c2.edu" (Some 1); a_student 6 1 "f@c1.edu" (Some 0)];
     admins := [an_admin 1 1 "root@c1.edu" (Some 1); an_admin 2 2 "root@c2.edu" (Some 1)];
     events := [an_event 10 1 (Some 2) (Some "s3cret"%string);
                an_event 20 2 (Some 5) (Some "other"%string)];
     registrations := [];
     attendance := [];
     feedback := [];
     notes := [] |}.

Definition as_student (i college : Z) : payload :=
  {| u_id := i; u_college_id := college; u_role := "student" |}.

Definition as_admin (i college : Z) : payload :=
  {| u_id := i; u_college_id := college; u_role := "admin" |}.

(** Student 1 already holds a place in event 10. *)
Definition campus_registered : database :=
  set_registrations campus [a_registration 1 10 1 1 registered None].

(** Event 10 is full and student 3 waits. *)
Definition campus_full : database :=
  set_registrations campus
    [a_registration 1 10 1 1 registered None;
     a_registration 2 10 2 1 registered None;
     a_registration 3 10 3 1 waitlisted (Some 1)].


(** A day-long token issued at time 0; the college it carries is stale. *)
Definition token_of (user : payload) : option jwt :=
  Some (jwt_sign 0 (with_college user 99)).

(** Students 1 to 4 ask for event 10 at times 100, 101, ...; in between,
    student 5 of the other college and the deactivated student 6 try. *)
Definition queue : list Registration.request :=
  [(100, token_of (as_student 1 1), 10); (101, token_of (as_student 2 1), 10);
   (102, token_of (as_student 5 2), 10); (103, token_of (as_student 3 1), 10);
   (104, token_of (as_student 6 1), 10); (105, token_of (as_student 4 1), 10)].

(** The QR code of event 10, and codes that differ from it in one field. *)
Definition qr_of (qr_data : string) : option Attendance.qr_payload :=
  if String.eqb qr_data "good" then
    Some {| Attendance.qr_event_id := 10; Attendance.qr_secret := "s3cret";
            Attendance.qr_college_id := 1 |}
  else if String.eqb qr_data "wrong-event" then
    Some {| Attendance.qr_event_id := 11; Attendance.qr_secret := "s3cret";
            Attendance.qr_college_id := 1 |}
  else if String.eqb qr_data "wrong-secret" then
    Some {| Attendance.qr_event_id := 10; Attendance.qr_secret := "guess";
            Attendance.qr_college_id := 1 |}
  else if String.eqb qr_data "wrong-college" then
    Some {| Attendance.qr_event_id := 10; Attendance.qr_secret := "s3cret";
            Attendance.qr_college_id := 2 |}
  else None.

(** Student 1 is registered for event 10, has checked in, has rated it 3
    and has written a note. *)
Definition campus_attended : database :=
  {| students := students campus; admins := admins campus; events := events campus;
     registrations := [a_registration 1 10 1 1 registered None];
     attendance := [{| at_id := 1; at_event_id := 10; at_student_id := 1;
                       at_college_id := 1; at_checked_in_at := 50 |}];
     feedback := [{| f_id := 1; f_event_id := 10; f_student_id := 1;
                     f_college_id := 1; f_rating := 3; f_comments := "fine";
                     f_suggestions := "none"; f_anonymous := false |}];
     notes := [{| n_id := 1; n_event_id := 10; n_student_id := 1;
                  n_content := "bring laptop"; n_updated_at := 60 |}] |}.

(** The second rating student 1 tries to submit. *)
Definition five_stars : Feedback.feedback_body :=
  {| Feedback.fb_event_id := 10; Feedback.fb_rating := 5;
     Feedback.fb_comments := Some "great"%string;
     Feedback.fb_suggestions := Some "more"%string;
     Feedback.fb_anonymous := None |}.

(** The address root@c1.edu is in both account tables. *)
Definition campus_shared_email : database :=
  {| students := students campus ++ [a_student 7 1 "root@c1.edu" (Some 1)];
     admins := admins campus; events := events campus;
     registrations := []; attendance := []; feedback := []; notes := [] |}.

(** A stand-in for [bcrypt.compare]: the hash of [pw] is ["hash-" ++ pw]. *)
Definition compare_hash (password hash : string) : bool :=
  String.eqb (String.append "hash-" password) hash.

Definition has_at_sign (email : string) : bool :=
  match index 0 "@" email with
  | Some _ => true
  | None => false
  end.

End Sample.

(** * The other endpoints *)

From Stdlib Require Import Permutation Sorted.

(** ** Endpoints that answer with rows *)

(** The answer of an endpoint whose success body is typed: an error
    response of the shapes above, or the status and the body sent by the
    closing [res.json]. *)
Inductive answer (A : Type) :=
| Refused (r : response)
| Served (code : Z) (a : A).

Arguments Refused {A} r.
Arguments Served {A} code a.

Definition Endpoint (A : Type) : Type := database -> database * answer A.

(** [return res.status(code).json(b)] outside any [try] block. *)
Definition refuse {A : Type} (code : Z) (b : json) : Endpoint A :=
  fun d => (d, Refused (respond_with code b)).

(** [try { m } catch (error) { res.status(500).json({ error: msg }) }] where
    the value of [m] is the status and the body of the closing [res.json]. *)
Definition try_serve {A : Type} (m : M (Z * A)) (msg : string) : Endpoint A :=
  fun d =>
    match m d with
    | (d', inl (code, a)) => (d', Served code a)
    | (d', inr (Sent r)) => (d', Refused r)
    | (d', inr Thrown) => (d', Refused (respond_with 500 (Error msg)))
    end.

(** [ORDER BY key ASC], stable like its descending twin. *)
Definition order_by_asc {A : Type} (key : A -> Z) (l : list A) : list A :=
  Reports.order_by_desc (fun x => - key x) l.

Definition set_admins (d : database) (rows : list admin) : database :=
  {| students := students d; admins := rows; events := events d;
     registrations := registrations d; attendance := attendance d;
     feedback := feedback d; notes := notes d |}.

(** ** routes/registration.js, [GET /my] *)

Module MyRegistrations.

Section Columns.

(** The [event_date] column of an event row, which the record leaves out. *)
Variable event_date : event -> Z.

Definition mine (user : payload) (r : registration) : bool :=
  (r_student_id r =? u_id user) && (r_college_id r =? u_college_id user).

(** [JOIN events e ON r.event_id = e.id]. *)
Definition with_event (d : database) (r : registration) : list (registration * event) :=
  map (pair r) (filter (fun e => r_event_id r =? e_id e) (events d)).

(** [SELECT r.*, e.title, e.event_date, e.venue FROM registrations r JOIN
    events e ... WHERE r.student_id = ? AND r.college_id = ? ORDER BY
    e.event_date ASC]; a row is kept as the registration and the event it
    joins. *)
Definition my_registrations (user : payload) (d : database)
    : list (registration * event) :=
  order_by_asc (fun p => event_date (snd p))
    (flat_map (with_event d) (filter (mine user) (registrations d))).

(** The body of [router.get('/my')] after the two guards. *)
Definition get_my_registrations (user : payload)
    : Endpoint (list (registration * event)) :=
  if negb (String.eqb (u_role user) "student")
  then refuse 403 (Error "Only students can view their registrations")
  else
    try_serve (
      rows <- query (my_registrations user) ;;
      ret (200, rows))
      "Failed to fetch registrations".

End Columns.

End MyRegistrations.

(** ** routes/attendance.js, [POST /manual] and [GET /event/:eventId] *)

Module Marking.

Definition registered_pair (event_id student_id : Z) (r : registration) : bool :=
  (r_event_id r =? event_id) && (r_student_id r =? student_id)
  && status_eqb (r_status r) registered.

(** The body of [router.post('/manual')] after the three guards; the two
    ids are integers, so the validators have nothing to report. *)
Definition post_manual (now : Z) (user : payload) (event_id student_id : Z) : Handler :=
  try_catch (
    reg <- query (fun d =>
      filter (registered_pair event_id student_id) (registrations d)) ;;
    match reg with
    | [] => send 400 (Error "Student not registered for event")
    | _ :: _ =>
        _ <- execute (Attendance.insert_attendance now (u_college_id user)
                        event_id student_id) ;;
        ret (respond_with 200 (Message "Attendance marked successfully"))
    end)
    "Failed to mark attendance".

(** [POST /api/attendance/manual]. *)
Definition route_manual (now : Z) (token : option jwt) (event_id student_id : Z)
    : Handler :=
  authenticateToken now token (fun decoded =>
    requireRole ["admin"%string] (Some decoded) (fun u =>
      requireSameCollege (Some u) (fun user =>
        post_manual now user event_id student_id))).

(** [JOIN students s ON a.student_id = s.id]. *)
Definition with_student (d : database) (a : attendance_row)
    : list (attendance_row * student) :=
  map (pair a) (filter (fun s => at_student_id a =? s_id s) (students d)).

(** [SELECT a.id, s.first_name, s.last_name, s.student_id, a.checked_in_at
    FROM attendance a JOIN students s ... WHERE a.event_id = ? AND
    a.college_id = ? ORDER BY a.checked_in_at ASC]; a row is kept as the
    attendance row and the student it joins. *)
Definition event_attendance (event_id college : Z) (d : database)
    : list (attendance_row * student) :=
  order_by_asc (fun p => at_checked_in_at (fst p))
    (flat_map (with_student d)
       (filter (fun a => (at_event_id a =? event_id) && (at_college_id a =? college))
               (attendance d))).

(** The body of [router.get('/event/:eventId')] after the three guards. *)
Definition get_event_attendance (user : payload) (event_id : Z)
    : Endpoint (list (attendance_row * student)) :=
  try_serve (
    rows <- query (event_attendance event_id (u_college_id user)) ;;
    ret (200, rows))
    "Failed to fetch attendance".

End Marking.

(** ** routes/feedback.js, [PUT /:id] *)

Module FeedbackUpdate.

(** [req.body]; [None] is a property that was left out. *)
Record patch := {
  p_rating : option Z;
  p_comments : option string;
  p_suggestions : option string;
  p_anonymous : option bool
}.

Definition validation_errors (p : patch) : list string :=
  (match p_rating p with
   | Some r => if (1 <=? r) && (r <=? 5) then [] else ["rating"%string]
   | None => []
   end)
  ++ (if Feedback.short_enough 1000 (p_comments p) then [] else ["comments"%string])
  ++ (if Feedback.short_enough 1000 (p_suggestions p) then [] else ["suggestions"%string]).

(** [SELECT id FROM feedback WHERE id = ? AND student_id = ? AND
    college_id = ?]. *)
Definition owned (id student_id college : Z) (f : feedback_row) : bool :=
  (f_id f =? id) && (f_student_id f =? student_id) && (f_college_id f =? college).

(** [updates.length === 0]: none of the four allowed fields is there. *)
Definition no_updates (p : patch) : bool :=
  match p_rating p, p_comments p, p_suggestions p, p_anonymous p with
  | None, None, None, None => true
  | _, _, _, _ => false
  end.

Definition or_keep {A : Type} (v : option A) (old : A) : A :=
  match v with
  | Some x => x
  | None => old
  end.

(** [SET field = ?] for the fields that are there. *)
Definition apply_patch (p : patch) (f : feedback_row) : feedback_row :=
  {| f_id := f_id f; f_event_id := f_event_id f; f_student_id := f_student_id f;
     f_college_id := f_college_id f;
     f_rating := or_keep (p_rating p) (f_rating f);
     f_comments := or_keep (p_comments p) (f_comments f);
     f_suggestions := or_keep (p_suggestions p) (f_suggestions f);
     f_anonymous := or_keep (p_anonymous p) (f_anonymous f) |}.

(** [UPDATE feedback SET ... WHERE id = ?]. *)
Definition update_feedback (id : Z) (p : patch) (d : database)
    : option (database * unit) :=
  Some (set_feedback d
          (map (fun f => if f_id f =? id then apply_patch p f else f) (feedback d)),
        tt).

(** The body of [router.put('/:id')] after the two guards. *)
Definition put_feedback (user : payload) (id : Z) (p : patch) : Handler :=
  if negb (String.eqb (u_role user) "student")
  then reply 403 (Error "Only students can update feedback")
  else
    try_catch (
      match validation_errors p with
      | (_ :: _) as errors => send 400 (Errors errors)
      | [] =>
          existing <- query (fun d =>
            filter (owned id (u_id user) (u_college_id user)) (feedback d)) ;;
          match existing with
          | [] => send 404 (Error "Feedback not found")
          | _ :: _ =>
              if no_updates p
              then send 400 (Error "No valid fields to update")
              else
                _ <- execute (update_feedback id p) ;;
                ret (respond_with 200 (Message "Feedback updated successfully"))
          end
      end)
      "Failed to update feedback".

End FeedbackUpdate.

(** ** routes/notes.js, [GET /event/:eventId] *)

Module NotesRead.

(** The body of [router.get('/event/:eventId')] after the two guards:
    [notes[0] || null], kept as the row whose [content], [created_at] and
    [updated_at] are sent. *)
Definition get_note (user : payload) (event_id : Z) : Endpoint (option note) :=
  if negb (String.eqb (u_role user) "student")
  then refuse 403 (Error "Only students can view notes")
  else
    try_serve (
      rows <- query (fun d => filter (Notes.note_of event_id (u_id user)) (notes d)) ;;
      ret (200, hd_error rows))
      "Internal server error".

End NotesRead.

(** ** routes/auth.js, [POST /register/admin] *)

Module Registering.

Section RegisterAdmin.

(** [bcrypt.hash(password, SALT_ROUNDS)], the [isEmail] validator, and the
    ids of the colleges table, which no route writes. *)
Variable bcrypt_hash : string -> string.
Variable isEmail : string -> bool.
Variable colleges : list Z.

Definition validation_errors (email password first_name last_name : string)
    : list string :=
  (if isEmail email then [] else ["email"%string])
  ++ (if Nat.leb 6 (String.length password) then [] else ["password"%string])
  ++ (if negb (String.eqb first_name "") then [] else ["first_name"%string])
  ++ (if negb (String.eqb last_name "") then [] else ["last_name"%string]).

(** [INSERT INTO admins (email, password_hash, first_name, last_name,
    college_id, role)]: rejected when the email is taken ([UNIQUE]) or the
    college does not exist ([FOREIGN KEY]); [is_active] defaults to true.
    The value is [result.insertId]. *)
Definition insert_admin (email password_hash : string) (college : Z) (role : string)
    (d : database) : option (database * Z) :=
  if existsb (fun a => String.eqb (a_email a) email) (admins d) then None
  else if negb (existsb (Z.eqb college) colleges) then None
  else
    let new_id := Sql.next_id (map a_id (admins d)) in
    let row := {| a_id := new_id; a_college_id := college; a_email := email;
                  a_password_hash := password_hash; a_role := role;
                  a_is_active := Some 1 |} in
    Some (set_admins d (admins d ++ [row]), new_id).

(** [router.post('/register/admin')]: no guard in front of it.  The body
    sent is the message and [adminId]. *)
Definition post_register_admin (email password first_name last_name : string)
    (college_id : Z) : Endpoint (string * Z) :=
  match validation_errors email password first_name last_name with
  | (_ :: _) as errors => refuse 400 (Errors errors)
  | [] =>
      try_serve (
        let password_hash := bcrypt_hash password in
        insertId <- execute (insert_admin email password_hash college_id "admin") ;;
        ret (201, ("Admin registered successfully"%string, insertId)))
        "Failed to register admin"
  end.

End RegisterAdmin.

End Registering.

(** ** routes/events.js, [GET /attendance-percentage] *)

Module EventReports.

(** A quotient of two counts as MySQL computes it: [NULL] for a zero
    divisor, else a decimal with four places, rounded half up; the value
    is in ten-thousandths. *)
Definition sql_div (a b : Z) : option Z :=
  if b =? 0 then None else Some ((2 * a * 10000 + b) / (2 * b)).

Record percentage_row := {
  pr_id : Z;
  pr_title : string;
  pr_registered_count : Z;
  pr_attended_count : Z;
  pr_attendance_percentage : option Z
}.

(** [LEFT JOIN]: the matching rows, or one all-[NULL] row. *)
Definition left_rows {A : Type} (rows : list A) : list (option A) :=
  match rows with
  | [] => [None]
  | _ :: _ => map Some rows
  end.

(** [FROM events e LEFT JOIN registrations r ON e.id = r.event_id AND
    r.status = 'registered' LEFT JOIN attendance a ON e.id = a.event_id]:
    the joined rows of one event. *)
Definition joined (d : database) (e : event)
    : list (option registration * option attendance_row) :=
  flat_map
    (fun r => map (pair r)
                  (left_rows (filter (fun a => e_id e =? at_event_id a)
                                     (attendance d))))
    (left_rows (filter (Reports.registered_for e) (registrations d))).

Definition is_some {A : Type} (v : option A) : bool :=
  match v with
  | Some _ => true
  | None => false
  end.

(** One group of [GROUP BY e.id]: [COUNT(r.id)], [COUNT(a.id)] and
    [(COUNT(a.id) / COUNT(r.id)) * 100]. *)
Definition percentage_row_of (d : database) (e : event) : percentage_row :=
  let rows := joined d e in
  let registered_count := Sql.count (fun p => is_some (fst p)) rows in
  let attended_count := Sql.count (fun p => is_some (snd p)) rows in
  {| pr_id := e_id e; pr_title := e_title e;
     pr_registered_count := registered_count;
     pr_attended_count := attended_count;
     pr_attendance_percentage :=
       option_map (fun q => q * 100) (sql_div attended_count registered_count) |}.

(** [ORDER BY attendance_percentage DESC]: [NULL] sorts below every
    value, and the values are not negative. *)
Definition percentage_key (row : percentage_row) : Z :=
  match pr_attendance_percentage row with
  | Some p => p
  | None => -1
  end.

Definition attendance_percentage (college : Z) (d : database) : list percentage_row :=
  Reports.order_by_desc percentage_key
    (map (percentage_row_of d)
         (filter (fun e => e_college_id e =? college) (events d))).

(** The body of [router.get('/attendance-percentage')] after the guards. *)
Definition get_attendance_percentage (user : payload) : Endpoint (list percentage_row) :=
  try_serve (
    report <- query (attendance_percentage (u_college_id user)) ;;
    ret (200, report))
    "Failed to generate report".

End EventReports.

(** ** The two answers of a login *)

Module LoginAnswers.

(** [res.status(401).json({ error: 'Invalid credentials' })]. *)
Definition invalid_credentials : response :=
  respond_with 401 (Error "Invalid credentials").

(** The answer to a login that went through for [row] under [role]. *)
Definition logged_in (now : Z) (row : Login.user_row) (role : string) : response :=
  respond_with 200
    (LoggedIn "Login successful"
       (jwt_sign now {| u_id := Login.row_id row;
                        u_college_id := Login.row_college_id row;
                        u_role := role |})
       (Login.row_id row) (Login.row_email row) role).

End LoginAnswers.

(** ** What a store can be asked to keep *)

Module Invariant.

(** At most one registration row per (event, student). *)
Definition unique_pairs (d : database) : Prop :=
  NoDup (map (fun r => (r_event_id r, r_student_id r)) (registrations d)).

(** Every registration row carries the college of an event row with its
    event id. *)
Definition colleges_agree (d : database) : Prop :=
  forall r, In r (registrations d) ->
    exists e, In e (events d) /\ e_id e = r_event_id r
              /\ e_college_id e = r_college_id r.

(** The stored capacity of event [e] is [C]. *)
Definition capacity_is (e C : Z) (d : database) : Prop :=
  forall ev, In ev (events d) -> e_id ev = e -> e_max_participants ev = Some C.

(** [COUNT( * )] of the registered rows of an event. *)
Definition registered_count (e : Z) (d : database) : Z :=
  Sql.count (Registration.for_event e registered) (registrations d).

(** Every stored rating is one of 1, ..., 5. *)
Definition ratings_in_range (d : database) : Prop :=
  forall f, In f (feedback d) -> 1 <= f_rating f <= 5.

(** At most one note per (event, student). *)
Definition one_note_per_pair (d : database) : Prop :=
  NoDup (map (fun n => (n_event_id n, n_student_id n)) (notes d)).

End Invariant.

(** * Properties *)

(** ** Coercions and aggregates *)

Lemma or_zero_succ (v : option Z) :
  Js.or_zero v + 1 = match v with Some m => m + 1 | None => 1 end.
Proof.
  destruct v as [m|]; [|reflexivity].
  unfold Js.or_zero, Js.truthy, Js.to_number.
  destruct (Z.eqb_spec m 0) as [->|]; reflexivity.
Qed.

Lemma max_of_values (vs : list (option Z)) :
  match Sql.max_of vs with
  | None => Sql.values vs = []
  | Some m => In m (Sql.values vs) /\ forall x, In x (Sql.values vs) -> x <= m
  end.
Proof.
  induction vs as [|[x|] vs IH]; simpl; auto.
  destruct (Sql.max_of vs) as [y|].
  - destruct IH as [Hin Hmax]. split.
    + destruct (Z.max_spec x y) as [[_ ->]|[_ ->]]; auto.
    + intros z [<-|Hz]; [lia|]. specialize (Hmax z Hz). lia.
  - rewrite IH. split; [now left|]. intros z [<-|[]]. lia.
Qed.

Lemma filter_app_one {A : Type} (p : A -> bool) (l : list A) (x : A) :
  filter p (l ++ [x]) = filter p l ++ (if p x then [x] else []).
Proof. rewrite filter_app. reflexivity. Qed.

Lemma count_app_one {A : Type} (p : A -> bool) (l : list A) (x : A) :
  Sql.count p (l ++ [x]) = Sql.count p l + (if p x then 1 else 0).
Proof.
  unfold Sql.count. rewrite filter_app_one, length_app.
  destruct (p x); simpl; lia.
Qed.

Lemma existsb_filter_nonempty {A : Type} (p : A -> bool) (l : list A) :
  existsb p l = match filter p l with [] => false | _ :: _ => true end.
Proof.
  induction l as [|x l IH]; simpl; [reflexivity|].
  destruct (p x); simpl; [reflexivity | exact IH].
Qed.

Lemma count_nonneg {A : Type} (p : A -> bool) (l : list A) : 0 <= Sql.count p l.
Proof. unfold Sql.count. lia. Qed.

(** ** The handler monad *)

Ltac run_handler :=
  unfold try_catch, try_then, bind, query, execute, send, ret, reply; simpl.

(** ** The identity guard *)

Module GuardFacts.

Lemma requireSameCollege_known (user : payload) (next : payload -> Handler)
    (d : database) :
  known_role (u_role user) ->
  requireSameCollege (Some user) next d =
    match account_row user d with
    | Some (c, active) =>
        if Js.truthy active then next (with_college user c) d
        else (d, respond_with 403 (Error (inactive_message (u_role user))))
    | None => (d, respond_with 403 (Error (inactive_message (u_role user))))
    end.
Proof.
  intros [H | [H | H]];
    unfold requireSameCollege, check_admin, check_student, account_row,
           inactive_message;
    rewrite H; run_handler.
  - destruct (select_admin (u_id user) d) as [|a l]; [reflexivity|].
    destruct (Js.truthy (a_is_active a)); simpl; [|reflexivity].
    rewrite H. reflexivity.
  - destruct (select_admin (u_id user) d) as [|a l]; [reflexivity|].
    destruct (Js.truthy (a_is_active a)); simpl; [|reflexivity].
    rewrite H. reflexivity.
  - rewrite H. simpl.
    destruct (select_student (u_id user) d) as [|st l]; [reflexivity|].
    destruct (Js.truthy (s_is_active st)); reflexivity.
Qed.

(** A role without an account table goes through unchecked.  [login]
    never issues one. *)
Lemma requireSameCollege_other_role (user : payload) (next : payload -> Handler)
    (d : database) :
  ~ known_role (u_role user) ->
  requireSameCollege (Some user) next d = next user d.
Proof.
  intros H. unfold requireSameCollege, check_admin, check_student.
  destruct (String.eqb_spec (u_role user) "admin") as [E|_];
    [exfalso; apply H; left; exact E|].
  destruct (String.eqb_spec (u_role user) "super_admin") as [E|_];
    [exfalso; apply H; right; left; exact E|].
  run_handler.
  destruct (String.eqb_spec (u_role user) "student") as [E|_];
    [exfalso; apply H; right; right; exact E|].
  reflexivity.
Qed.

Lemma known_role_dec (role : string) : known_role role \/ ~ known_role role.
Proof.
  unfold known_role.
  destruct (String.eqb_spec role "admin"); [now left; left|].
  destruct (String.eqb_spec role "super_admin"); [now left; right; left|].
  destruct (String.eqb_spec role "student"); [now left; right; right|].
  right. intros [H | [H | H]]; contradiction.
Qed.

(** Whatever the credential, the guard either hands a user with the same
    id and role to the handler, on the same store, or answers 403. *)
Lemma requireSameCollege_cases (user : payload) (next : payload -> Handler)
    (d : database) :
  (exists u, requireSameCollege (Some user) next d = next u d
             /\ u_id u = u_id user /\ u_role u = u_role user)
  \/ requireSameCollege (Some user) next d =
       (d, respond_with 403 (Error (inactive_message (u_role user)))).
Proof.
  destruct (known_role_dec (u_role user)) as [K | K].
  - rewrite (requireSameCollege_known user next d K).
    destruct (account_row user d) as [[c active]|]; [|now right].
    destruct (Js.truthy active); [|now right].
    left. exists (with_college user c). auto.
  - left. exists user. rewrite (requireSameCollege_other_role user next d K). auto.
Qed.

(** An active student with a verified token reaches the handler, with
    the college of the students table. *)
Lemma guards_pass_student (now : Z) (t : jwt) (next : payload -> Handler)
    (d : database) (user : payload) (s : student) (rest : list student) :
  jwt_verify now t = Some user ->
  u_role user = "student"%string ->
  select_student (u_id user) d = s :: rest ->
  Js.truthy (s_is_active s) = true ->
  authenticateToken now (Some t)
    (fun decoded => requireSameCollege (Some decoded) next) d
  = next (with_college user (s_college_id s)) d.
Proof.
  intros Hverify Hrole Hrow Hactive. unfold authenticateToken. rewrite Hverify.
  rewrite requireSameCollege_known by (right; right; exact Hrole).
  unfold account_row. rewrite Hrole, Hrow. simpl. now rewrite Hactive.
Qed.

(** C6: a genuine, unexpired credential of a known role whose account
    row is missing or not active is answered 403 by the guard and the
    handler is not run; when the row is there and active, the handler
    gets the college of that row, whatever college the credential
    carries. *)
Theorem inactive_account_is_forbidden
    (now : Z) (t : jwt) (next : payload -> Handler) (d : database) :
  let user := jwt_payload t in
  let guarded :=
    authenticateToken now (Some t)
      (fun decoded => requireSameCollege (Some decoded) next) in
  jwt_signed t = true ->
  now < jwt_exp t ->
  known_role (u_role user) ->
  ((account_row user d = None
    \/ exists c active, account_row user d = Some (c, active)
                        /\ Js.truthy active = false) ->
   guarded d = (d, respond_with 403 (Error (inactive_message (u_role user)))))
  /\ (forall c active,
        account_row user d = Some (c, active) ->
        Js.truthy active = true ->
        guarded d =
          next {| u_id := u_id user; u_college_id := c; u_role := u_role user |} d).
Proof.
  intros user guarded Hsig Hexp Hrole.
  assert (Hrun : guarded d = requireSameCollege (Some user) next d).
  { unfold guarded, authenticateToken, jwt_verify.
    rewrite Hsig. apply Z.ltb_lt in Hexp. rewrite Hexp. reflexivity. }
  rewrite Hrun, (requireSameCollege_known user next d Hrole).
  split.
  - intros [-> | (c & active & -> & ->)]; reflexivity.
  - intros c active -> ->. reflexivity.
Qed.

(** At time 100 the deactivated student 6 is turned away although the
    token runs until 86400, and student 1 is let in with college 1 of the
    students table, not the 99 of the token. *)
Lemma inactive_account_is_forbidden_witness :
  Registration.route 100 (Sample.token_of (Sample.as_student 6 1)) 10 Sample.campus
    = (Sample.campus,
       respond_with 403 (Error "Student account not found or inactive"))
  /\ Registration.route 100 (Sample.token_of (Sample.as_student 1 1)) 10 Sample.campus
     = Registration.post_registration (Sample.as_student 1 1) 10 Sample.campus.
Proof.
  split.
  - apply (inactive_account_is_forbidden 100
             (jwt_sign 0 (with_college (Sample.as_student 6 1) 99))
             (fun user => Registration.post_registration user 10) Sample.campus).
    + reflexivity.
    + simpl. lia.
    + right. right. reflexivity.
    + right. exists 1, (Some 0). split; reflexivity.
  - apply (inactive_account_is_forbidden 100
             (jwt_sign 0 (with_college (Sample.as_student 1 1) 99))
             (fun user => Registration.post_registration user 10) Sample.campus)
      with (active := Some 1).
    + reflexivity.
    + simpl. lia.
    + right. right. reflexivity.
    + reflexivity.
    + reflexivity.
Defined.

End GuardFacts.

(** ** Registration *)

Module RegistrationFacts.

Import Registration.

Lemma decide_registered (event_id : Z) (capacity : option Z) (d : database) :
  Js.ge (Sql.count (for_event event_id registered) (registrations d)) capacity = false ->
  decide event_id capacity d = (d, inl (registered, None)).
Proof. intros H. unfold decide. run_handler. now rewrite H. Qed.

Lemma decide_waitlisted (event_id : Z) (capacity : option Z) (d : database) :
  Js.ge (Sql.count (for_event event_id registered) (registrations d)) capacity = true ->
  decide event_id capacity d =
    (d, inl (waitlisted, Some (Js.or_zero (Sql.max_of (waitlist_of d event_id)) + 1))).
Proof. intros H. unfold decide. run_handler. now rewrite H. Qed.

(** What the handler does once the event row is found and the decision
    is known: the insert either goes through or hits the unique key. *)
Lemma post_registration_run (user : payload) (event_id : Z) (d : database)
    (ev : event) (rest : list event) (st : reg_status) (pos : option Z) :
  u_role user = "student"%string ->
  filter (event_in_college event_id (u_college_id user)) (events d) = ev :: rest ->
  decide event_id (e_max_participants ev) d = (d, inl (st, pos)) ->
  post_registration user event_id d =
    if existsb (same_pair event_id (u_id user)) (registrations d)
    then (d, respond_with 500 (Error "Failed to register"))
    else (set_registrations d
            (registrations d ++
               [new_registration d (u_college_id user) event_id (u_id user) st pos]),
          respond_with 200
            (RegistrationMade (String.append "Registration " (status_name st)) pos)).
Proof.
  intros Hrole Hev Hdec. unfold post_registration. rewrite Hrole. simpl.
  run_handler. rewrite Hev. unfold bind. rewrite Hdec.
  unfold execute, insert_registration.
  destruct (existsb _ _); reflexivity.
Qed.

(** The comparison of line 35, [registeredCount[0].count >= capacity], in
    terms of the stored capacity. *)
Lemma ge_capacity (R : Z) (capacity : option Z) :
  0 <= R ->
  Js.ge R capacity = false <-> exists C, capacity = Some C /\ R < C.
Proof.
  intros HR. unfold Js.ge, Js.to_number. split.
  - destruct capacity as [C|]; intros H.
    + exists C. split; [reflexivity|]. apply Z.leb_gt in H. exact H.
    + apply Z.leb_gt in H. lia.
  - intros [C [-> H]]. apply Z.leb_gt. exact H.
Qed.

(** C1, as amended: a student who has no registration row yet for an
    event of the own college gets one.  With fewer registered rows than
    the capacity the row is registered with a null position; otherwise it
    is waitlisted at one more than the largest waitlist position of the
    event, or at 1 when there is none; the response reports both. *)
Theorem registration_outcome
    (user : payload) (event_id : Z) (d : database) (ev : event) (rest : list event) :
  u_role user = "student"%string ->
  filter (event_in_college event_id (u_college_id user)) (events d) = ev :: rest ->
  existsb (same_pair event_id (u_id user)) (registrations d) = false ->
  let R := Sql.count (for_event event_id registered) (registrations d) in
  let W := Sql.values (waitlist_of d event_id) in
  let room := exists C, e_max_participants ev = Some C /\ R < C in
  exists st pos,
    post_registration user event_id d =
      (set_registrations d
         (registrations d ++
            [new_registration d (u_college_id user) event_id (u_id user) st pos]),
       respond_with 200
         (RegistrationMade (String.append "Registration " (status_name st)) pos))
    /\ (room -> st = registered /\ pos = None)
    /\ (~ room ->
        st = waitlisted /\
        ((W = [] /\ pos = Some 1) \/
         (exists m, In m W /\ (forall x, In x W -> x <= m) /\ pos = Some (m + 1)))).
Proof.
  intros Hrole Hev Hfree R W room.
  destruct (Js.ge R (e_max_participants ev)) eqn:Hge.
  - (* full: waitlisted *)
    assert (Hroom : ~ room).
    { intros Hr. apply (ge_capacity R) in Hr; [congruence | apply count_nonneg]. }
    eexists waitlisted, _. split; [|split].
    + rewrite (post_registration_run user event_id d ev rest _ _ Hrole Hev
                 (decide_waitlisted _ _ _ Hge)).
      rewrite Hfree. reflexivity.
    + intros Hr. contradiction.
    + intros _. split; [reflexivity|].
      rewrite or_zero_succ.
      pose proof (max_of_values (waitlist_of d event_id)) as Hmax.
      destruct (Sql.max_of (waitlist_of d event_id)) as [m|].
      * right. exists m. destruct Hmax as [Hin Hle]. auto.
      * left. auto.
  - (* room left: registered *)
    assert (Hroom : room) by (apply (ge_capacity R); [apply count_nonneg | exact Hge]).
    exists registered, None. split; [|split].
    + rewrite (post_registration_run user event_id d ev rest _ _ Hrole Hev
                 (decide_registered _ _ _ Hge)).
      rewrite Hfree. reflexivity.
    + auto.
    + intros Hn. contradiction.
Qed.

(** The theorem at work: student 4 asks for the full event 10 and is
    waitlisted behind student 3. *)
Lemma registration_outcome_witness :
  exists st pos,
    post_registration (Sample.as_student 4 1) 10 Sample.campus_full =
      (set_registrations Sample.campus_full
         (registrations Sample.campus_full ++
            [new_registration Sample.campus_full 1 10 4 st pos]),
       respond_with 200
         (RegistrationMade (String.append "Registration " (status_name st)) pos))
    /\ st = waitlisted /\ pos = Some 2.
Proof.
  destruct (registration_outcome (Sample.as_student 4 1) 10 Sample.campus_full
              (Sample.an_event 10 1 (Some 2) (Some "s3cret"%string)) [])
    as (st & pos & Hrun & _ & Hfull); try reflexivity.
  exists st, pos. split; [exact Hrun|].
  destruct Hfull as [Hst Hpos].
  - intros (C & HC & Hlt). injection HC as <-. vm_compute in Hlt. discriminate.
  - split; [exact Hst|].
    destruct Hpos as [[Hnil _]|(m & Hin & Hle & ->)].
    + vm_compute in Hnil. discriminate.
    + vm_compute in Hin. destruct Hin as [<-|[]]. reflexivity.
Defined.

(** C1 as stated fails: event 10 exists in the college of student 1 and
    has room (one registered row, two places), yet the request of student
    1, who is registered already, creates no row and is answered 500. *)
Lemma registration_of_registered_student_fails :
  let user := Sample.as_student 1 1 in
  let d := Sample.campus_registered in
  u_role user = "student"%string
  /\ filter (event_in_college 10 (u_college_id user)) (events d)
       = [Sample.an_event 10 1 (Some 2) (Some "s3cret"%string)]
  /\ Sql.count (for_event 10 registered) (registrations d) < 2
  /\ post_registration user 10 d =
       (d, respond_with 500 (Error "Failed to register")).
Proof. vm_compute. repeat split; reflexivity. Qed.

(** C3: a student who already has a row for the event is answered 500
    "Failed to register", not a conflict; no row is added. *)
Theorem duplicate_registration_is_internal_error
    (user : payload) (event_id : Z) (d : database) (ev : event) (rest : list event) :
  u_role user = "student"%string ->
  filter (event_in_college event_id (u_college_id user)) (events d) = ev :: rest ->
  existsb (same_pair event_id (u_id user)) (registrations d) = true ->
  post_registration user event_id d =
    (d, respond_with 500 (Error "Failed to register")).
Proof.
  intros Hrole Hev Hdup.
  destruct (Js.ge (Sql.count (for_event event_id registered) (registrations d))
                  (e_max_participants ev)) eqn:Hge.
  - rewrite (post_registration_run user event_id d ev rest _ _ Hrole Hev
               (decide_waitlisted _ _ _ Hge)).
    now rewrite Hdup.
  - rewrite (post_registration_run user event_id d ev rest _ _ Hrole Hev
               (decide_registered _ _ _ Hge)).
    now rewrite Hdup.
Qed.

(** Student 1, registered for event 10, asks again: the answer is in the
    Internal class, not the Conflict one. *)
Lemma duplicate_registration_is_internal_error_witness :
  let run := post_registration (Sample.as_student 1 1) 10 Sample.campus_registered in
  run = (Sample.campus_registered, respond_with 500 (Error "Failed to register"))
  /\ Taxonomy.conflict (snd run) = false
  /\ Taxonomy.internal (snd run) = true.
Proof.
  intros run. unfold run.
  rewrite (duplicate_registration_is_internal_error (Sample.as_student 1 1) 10
             Sample.campus_registered
             (Sample.an_event 10 1 (Some 2) (Some "s3cret"%string)) []
             eq_refl eq_refl eq_refl).
  repeat split.
Defined.

(** With a capacity of 0 or NULL the comparison of line 35 holds for
    every count. *)
Lemma ge_no_capacity {A : Type} (p : A -> bool) (rows : list A) (capacity : option Z) :
  capacity = None \/ capacity = Some 0 ->
  Js.ge (Sql.count p rows) capacity = true.
Proof.
  intros [-> | ->]; unfold Js.ge; simpl; apply Z.leb_le; apply count_nonneg.
Qed.




(** *** Sequential requests and the waitlist *)

Lemma zseq_snoc (start : Z) (n : nat) :
  zseq start (n + 1) = zseq start n ++ [start + Z.of_nat n].
Proof.
  revert start. induction n as [|n IH]; intros start.
  - simpl. f_equal. lia.
  - cbn [zseq Nat.add app]. rewrite IH. do 3 f_equal. lia.
Qed.

Lemma max_of_zseq (start : Z) (n : nat) :
  Sql.max_of (map Some (zseq start (S n))) = Some (start + Z.of_nat n).
Proof.
  revert start. induction n as [|n IH]; intros start.
  - simpl. f_equal. lia.
  - change (zseq start (S (S n))) with (start :: zseq (start + 1) (S n)).
    cbn [map Sql.max_of]. rewrite IH. f_equal. lia.
Qed.

(** On a gapless waitlist of length [k] the next position is [k + 1]. *)
Lemma next_position_dense (k : nat) :
  Js.or_zero (Sql.max_of (map Some (zseq 1 k))) + 1 = 1 + Z.of_nat k.
Proof.
  rewrite or_zero_succ. destruct k as [|k]; [reflexivity|].
  rewrite max_of_zseq. lia.
Qed.

Lemma waitlist_of_insert (d : database) (row : registration) (e : Z) :
  waitlist_of (set_registrations d (registrations d ++ [row])) e =
    waitlist_of d e ++
      (if for_event e waitlisted row then [r_waitlist_position row] else []).
Proof.
  unfold waitlist_of. simpl. rewrite filter_app_one, map_app.
  destruct (for_event e waitlisted row); reflexivity.
Qed.

(** The three ways a request can end: nothing stored and no position
    announced; a registered row stored and no position announced; or a
    waitlisted row stored at the next position, which is announced. *)
Lemma post_registration_step (user : payload) (event_id : Z) (d : database) :
  let d' := fst (post_registration user event_id d) in
  let r := snd (post_registration user event_id d) in
  (d' = d /\ reported_position r = None)
  \/ exists row,
       d' = set_registrations d (registrations d ++ [row])
       /\ r_event_id row = event_id
       /\ ((r_status row = registered /\ reported_position r = None)
           \/ (r_status row = waitlisted
               /\ r_waitlist_position row =
                    Some (Js.or_zero (Sql.max_of (waitlist_of d event_id)) + 1)
               /\ reported_position r = r_waitlist_position row)).
Proof.
  destruct (String.eqb_spec (u_role user) "student") as [Hrole|Hrole].
  - destruct (filter (event_in_college event_id (u_college_id user)) (events d))
      as [|ev rest] eqn:Hev.
    + left. unfold post_registration. rewrite Hrole. run_handler.
      rewrite Hev. auto.
    + destruct (Js.ge (Sql.count (for_event event_id registered) (registrations d))
                      (e_max_participants ev)) eqn:Hge.
      * rewrite (post_registration_run user event_id d ev rest _ _ Hrole Hev
                   (decide_waitlisted _ _ _ Hge)).
        destruct (existsb _ _); [left; auto|].
        right. eexists. split; [reflexivity|]. split; [reflexivity|].
        right. auto.
      * rewrite (post_registration_run user event_id d ev rest _ _ Hrole Hev
                   (decide_registered _ _ _ Hge)).
        destruct (existsb _ _); [left; auto|].
        right. eexists. split; [reflexivity|]. split; [reflexivity|].
        left. auto.
  - left. unfold post_registration.
    apply String.eqb_neq in Hrole. rewrite Hrole. auto.
Qed.

Lemma route_step (now : Z) (token : option jwt) (event_id : Z) (d : database) :
  let d' := fst (route now token event_id d) in
  let r := snd (route now token event_id d) in
  (d' = d /\ reported_position r = None)
  \/ exists row,
       d' = set_registrations d (registrations d ++ [row])
       /\ r_event_id row = event_id
       /\ ((r_status row = registered /\ reported_position r = None)
           \/ (r_status row = waitlisted
               /\ r_waitlist_position row =
                    Some (Js.or_zero (Sql.max_of (waitlist_of d event_id)) + 1)
               /\ reported_position r = r_waitlist_position row)).
Proof.
  unfold route, authenticateToken.
  destruct token as [t|]; [|left; auto].
  destruct (jwt_verify now t) as [decoded|]; [|left; auto].
  destruct (GuardFacts.requireSameCollege_cases decoded
              (fun user => post_registration user event_id) d)
    as [(u & -> & _) | ->]; [|left; auto].
  apply post_registration_step.
Qed.

Lemma serve_cons (rq : request) (reqs : list request) (d : database) :
  serve (rq :: reqs) d =
    (fst (serve reqs (fst (route (fst (fst rq)) (snd (fst rq)) (snd rq) d))),
     snd (route (fst (fst rq)) (snd (fst rq)) (snd rq) d)
       :: snd (serve reqs (fst (route (fst (fst rq)) (snd (fst rq)) (snd rq) d)))).
Proof.
  destruct rq as [[now token] event_id]. simpl.
  destruct (route now token event_id d) as [d1 r]. simpl.
  destruct (serve reqs d1) as [d2 rs]. reflexivity.
Qed.

(** The invariant behind C2, for a waitlist that already has [k] dense
    positions. *)
Lemma serve_keeps_waitlist_dense (e : Z) (reqs : list request) :
  forall (d : database) (k : nat),
    waitlist_of d e = map Some (zseq 1 k) ->
    let ps := reported e reqs (snd (serve reqs d)) in
    ps = zseq (1 + Z.of_nat k) (length ps)
    /\ waitlist_of (fst (serve reqs d)) e = map Some (zseq 1 (k + length ps)).
Proof.
  induction reqs as [|rq reqs IH]; intros d k Hk.
  - simpl. rewrite Nat.add_0_r. auto.
  - rewrite serve_cons. cbn [fst snd reported].
    destruct rq as [[now token] ev]. cbn [fst snd requested_event].
    destruct (route_step now token ev d)
      as [[Hd Hr] | (row & Hd & Hev & [[Hst Hr] | (Hst & Hpos & Hr)])].
    + (* nothing stored *)
      rewrite Hd, Hr. apply IH. exact Hk.
    + (* a registered row *)
      rewrite Hd, Hr. apply IH.
      rewrite waitlist_of_insert. unfold for_event. rewrite Hst.
      rewrite andb_false_r, app_nil_r. exact Hk.
    + (* a waitlisted row *)
      rewrite Hd, Hr, Hpos.
      destruct (Z.eqb_spec ev e) as [->|Hne].
      * rewrite Hk, next_position_dense.
        assert (Hk' : waitlist_of
                        (set_registrations d (registrations d ++ [row])) e
                      = map Some (zseq 1 (k + 1))).
        { rewrite waitlist_of_insert. unfold for_event.
          rewrite Hev, Hst, Z.eqb_refl. simpl.
          rewrite Hpos, Hk, next_position_dense, zseq_snoc, map_app.
          reflexivity. }
        destruct (IH _ _ Hk') as [Hps Hw].
        cbn [length zseq]. split.
        -- f_equal. rewrite Hps at 1. f_equal. lia.
        -- rewrite Hw. do 2 f_equal. lia.
      * apply IH. rewrite waitlist_of_insert. unfold for_event.
        rewrite Hev. apply Z.eqb_neq in Hne. rewrite Hne.
        simpl. rewrite app_nil_r. exact Hk.
Qed.

(** C2: starting from an event without waitlisted rows, whatever requests
    are then served one after the other, the positions announced to the
    [N] requests for that event that ended waitlisted are 1, 2, ..., [N]
    in arrival order, and they are exactly the positions of its waitlisted
    rows. *)
Theorem waitlist_positions_are_dense (e : Z) (reqs : list request) (d : database) :
  waitlist_of d e = [] ->
  let ps := reported e reqs (snd (serve reqs d)) in
  ps = zseq 1 (length ps)
  /\ waitlist_of (fst (serve reqs d)) e = map Some ps.
Proof.
  intros Hempty ps.
  destruct (serve_keeps_waitlist_dense e reqs d 0 Hempty) as [Hps Hw].
  fold ps in Hps, Hw. simpl in Hps, Hw.
  split; [exact Hps|]. rewrite Hw, <- Hps. reflexivity.
Qed.

(** The sample queue: students 3 and 4 end up at positions 1 and 2. *)
Lemma waitlist_positions_are_dense_witness :
  let ps := reported 10 Sample.queue (snd (serve Sample.queue Sample.campus)) in
  ps = zseq 1 (length ps)
  /\ waitlist_of (fst (serve Sample.queue Sample.campus)) 10 = map Some ps.
Proof. apply waitlist_positions_are_dense. reflexivity. Defined.

Example sample_queue_positions :
  reported 10 Sample.queue (snd (serve Sample.queue Sample.campus)) = [1; 2]
  /\ map status (snd (serve Sample.queue Sample.campus))
     = [200; 200; 404; 200; 403; 200].
Proof. vm_compute. split; reflexivity. Qed.

(** *** Events without capacity, over a whole run *)

Lemma post_registration_keeps_registered (user : payload) (event_id e : Z)
    (d : database) :
  no_capacity e d ->
  events (fst (post_registration user event_id d)) = events d
  /\ Sql.count (for_event e registered)
       (registrations (fst (post_registration user event_id d)))
     = Sql.count (for_event e registered) (registrations d).
Proof.
  intros Hcap.
  destruct (String.eqb_spec (u_role user) "student") as [Hrole|Hrole].
  - destruct (filter (event_in_college event_id (u_college_id user)) (events d))
      as [|ev rest] eqn:Hev.
    + unfold post_registration. rewrite Hrole. run_handler. rewrite Hev. auto.
    + assert (Hin : In ev (events d) /\ e_id ev = event_id).
      { assert (H : In ev (ev :: rest)) by now left.
        rewrite <- Hev in H. apply filter_In in H. destruct H as [H1 H2].
        unfold event_in_college in H2. apply andb_true_iff in H2.
        destruct H2 as [H2 _]. apply Z.eqb_eq in H2. auto. }
      destruct Hin as [Hin Hid].
      destruct (Js.ge (Sql.count (for_event event_id registered) (registrations d))
                      (e_max_participants ev)) eqn:Hge.
      * rewrite (post_registration_run user event_id d ev rest _ _ Hrole Hev
                   (decide_waitlisted _ _ _ Hge)).
        destruct (existsb _ _); [auto|]. simpl. split; [reflexivity|].
        rewrite count_app_one. unfold for_event at 2. simpl.
        rewrite andb_false_r. lia.
      * rewrite (post_registration_run user event_id d ev rest _ _ Hrole Hev
                   (decide_registered _ _ _ Hge)).
        destruct (existsb _ _); [auto|]. simpl. split; [reflexivity|].
        rewrite count_app_one. unfold for_event at 2. simpl.
        destruct (Z.eqb_spec event_id e) as [He|He]; simpl; [|lia].
        rewrite (ge_no_capacity _ _ _ (Hcap ev Hin (eq_trans Hid He))) in Hge.
        discriminate.
  - unfold post_registration.
    apply String.eqb_neq in Hrole. rewrite Hrole. auto.
Qed.

(** However many requests are served, and whoever sends them, an event
    whose rows have capacity 0 or NULL never gains a registered row. *)
Lemma serve_never_registers (e : Z) (reqs : list request) :
  forall d, no_capacity e d ->
    Sql.count (for_event e registered) (registrations (fst (serve reqs d)))
    = Sql.count (for_event e registered) (registrations d).
Proof.
  induction reqs as [|rq reqs IH]; intros d Hcap; [reflexivity|].
  rewrite serve_cons. cbn [fst].
  destruct rq as [[now token] event_id]. cbn [fst snd].
  assert (Hstep : events (fst (route now token event_id d)) = events d
                  /\ Sql.count (for_event e registered)
                       (registrations (fst (route now token event_id d)))
                     = Sql.count (for_event e registered) (registrations d)).
  { unfold route, authenticateToken.
    destruct token as [t|]; [|auto].
    destruct (jwt_verify now t) as [decoded|]; [|auto].
    destruct (GuardFacts.requireSameCollege_cases decoded
                (fun user => post_registration user event_id) d)
      as [(u & -> & _) | ->]; [|auto].
    now apply post_registration_keeps_registered. }
  destruct Hstep as [Hevents Hcount].
  rewrite IH; [exact Hcount|].
  unfold no_capacity. rewrite Hevents. exact Hcap.
Qed.

End RegistrationFacts.

(** ** QR check-in *)

Module AttendanceFacts.

Import Attendance.

Section QrCheckin.

Variable JSON_parse : string -> option qr_payload.

(** The three outcomes once the role check and [JSON.parse] are behind. *)
Lemma post_qr_checkin_run (now : Z) (user : payload) (qr_data : string)
    (qr : qr_payload) (d : database) :
  u_role user = "student"%string ->
  JSON_parse qr_data = Some qr ->
  post_qr_checkin JSON_parse now user qr_data d =
    if existsb (qr_matches qr) (events d) then
      if existsb (attended (qr_event_id qr) (u_id user)) (attendance d)
      then (d, respond_with 400 (Error "Already checked in"))
      else (set_attendance d
              (attendance d ++
                 [{| at_id := Sql.next_id (map at_id (attendance d));
                     at_event_id := qr_event_id qr; at_student_id := u_id user;
                     at_college_id := u_college_id user;
                     at_checked_in_at := now |}]),
            respond_with 200 (Message "Checked in successfully"))
    else (d, respond_with 400 (Error "Invalid QR code")).
Proof.
  intros Hrole Hparse. unfold post_qr_checkin, parse. rewrite Hrole.
  run_handler. rewrite Hparse.
  rewrite !existsb_filter_nonempty.
  destruct (filter (qr_matches qr) (events d)); [reflexivity|]. simpl.
  destruct (filter (attended (qr_event_id qr) (u_id user)) (attendance d));
    reflexivity.
Qed.

(** The [WHERE] clause of the verification, field by field. *)
Lemma qr_matches_fields (qr : qr_payload) (e : event) :
  qr_matches qr e = true <->
  e_id e = qr_event_id qr
  /\ e_qr_secret e = Some (qr_secret qr)
  /\ e_college_id e = qr_college_id qr.
Proof.
  unfold qr_matches. rewrite !andb_true_iff, !Z.eqb_eq.
  destruct (e_qr_secret e) as [s|].
  - rewrite String.eqb_eq. split.
    + intros [[H1 H2] H3]. subst. auto.
    + intros (H1 & H2 & H3). injection H2 as ->. auto.
  - split; [intros [[_ H] _]; discriminate | intros (_ & H & _); discriminate].
Qed.

(** C4, as amended: the check-in of a student succeeds only if an event
    row agrees with the payload on id, secret and college at once; when
    no row does, whichever field is off, the store is left alone and the
    answer is always the same one, status 400 with "Invalid QR code". *)
Theorem qr_checkin_needs_all_three (now : Z) (user : payload) (qr_data : string)
    (qr : qr_payload) (d : database) :
  u_role user = "student"%string ->
  JSON_parse qr_data = Some qr ->
  (status (snd (post_qr_checkin JSON_parse now user qr_data d)) = 200 ->
   exists e, In e (events d)
             /\ e_id e = qr_event_id qr
             /\ e_qr_secret e = Some (qr_secret qr)
             /\ e_college_id e = qr_college_id qr)
  /\ ((forall e, In e (events d) ->
         e_id e <> qr_event_id qr
         \/ e_qr_secret e <> Some (qr_secret qr)
         \/ e_college_id e <> qr_college_id qr) ->
      post_qr_checkin JSON_parse now user qr_data d =
        (d, respond_with 400 (Error "Invalid QR code"))).
Proof.
  intros Hrole Hparse.
  rewrite (post_qr_checkin_run now user qr_data qr d Hrole Hparse).
  destruct (existsb (qr_matches qr) (events d)) eqn:Hex.
  - apply existsb_exists in Hex. destruct Hex as (e & Hin & Hm).
    apply qr_matches_fields in Hm. split.
    + intros _. exists e. tauto.
    + intros Hoff. destruct (Hoff e Hin) as [H | [H | H]]; tauto.
  - split; [simpl; intros H; discriminate | reflexivity].
Qed.

(** C5: when the student already has an attendance row for the event of
    the payload, the store is left as it is, and a valid code is answered
    400 "Already checked in". *)
Theorem second_checkin_is_refused (now : Z) (user : payload) (qr_data : string)
    (qr : qr_payload) (d : database) :
  u_role user = "student"%string ->
  JSON_parse qr_data = Some qr ->
  existsb (attended (qr_event_id qr) (u_id user)) (attendance d) = true ->
  fst (post_qr_checkin JSON_parse now user qr_data d) = d
  /\ (existsb (qr_matches qr) (events d) = true ->
      snd (post_qr_checkin JSON_parse now user qr_data d) =
        respond_with 400 (Error "Already checked in")).
Proof.
  intros Hrole Hparse Hatt.
  rewrite (post_qr_checkin_run now user qr_data qr d Hrole Hparse), Hatt.
  destruct (existsb (qr_matches qr) (events d)).
  - split; [reflexivity | intros _; reflexivity].
  - split; [reflexivity | intros H; discriminate].
Qed.

End QrCheckin.

(** Three codes for event 10, each with one field off: the same answer. *)
Lemma qr_checkin_needs_all_three_witness :
  let run qr_data :=
    post_qr_checkin Sample.qr_of 100 (Sample.as_student 1 1) qr_data Sample.campus in
  run "wrong-event"%string
    = (Sample.campus, respond_with 400 (Error "Invalid QR code"))
  /\ run "wrong-secret"%string = run "wrong-event"%string
  /\ run "wrong-college"%string = run "wrong-event"%string.
Proof.
  assert (H : forall qr_data qr,
             Sample.qr_of qr_data = Some qr ->
             (forall e, In e (events Sample.campus) ->
                 e_id e <> qr_event_id qr
                 \/ e_qr_secret e <> Some (qr_secret qr)
                 \/ e_college_id e <> qr_college_id qr) ->
             post_qr_checkin Sample.qr_of 100 (Sample.as_student 1 1) qr_data
               Sample.campus
             = (Sample.campus, respond_with 400 (Error "Invalid QR code"))).
  { intros qr_data qr Hparse Hoff.
    apply (qr_checkin_needs_all_three Sample.qr_of 100 (Sample.as_student 1 1)
             qr_data qr Sample.campus); [reflexivity | exact Hparse | exact Hoff]. }
  intros run. unfold run.
  rewrite (H "wrong-event"%string _ eq_refl),
          (H "wrong-secret"%string _ eq_refl),
          (H "wrong-college"%string _ eq_refl).
  - auto.
  - intros e [<- | [<- | []]]; simpl; [right; right | left]; discriminate.
  - intros e [<- | [<- | []]]; simpl; [right; left | left]; discriminate.
  - intros e [<- | [<- | []]]; simpl; left; discriminate.
Defined.

(** C4 as stated fails on the status: the wrong secret is answered 400,
    which is not the 403 of Forbidden. *)
Lemma invalid_qr_is_not_forbidden :
  let r := snd (post_qr_checkin Sample.qr_of 100 (Sample.as_student 1 1)
                  "wrong-secret" Sample.campus) in
  u_role (Sample.as_student 1 1) = "student"%string
  /\ r = respond_with 400 (Error "Invalid QR code")
  /\ Taxonomy.forbidden r = false.
Proof. vm_compute. repeat split; reflexivity. Qed.

(** Student 1 has checked in to event 10 and scans the code again: the
    store stays as it is and the answer has the status of a Conflict. *)
Lemma second_checkin_is_refused_witness :
  let run := post_qr_checkin Sample.qr_of 100 (Sample.as_student 1 1) "good"
               Sample.campus_attended in
  run = (Sample.campus_attended, respond_with 400 (Error "Already checked in"))
  /\ Taxonomy.conflict (snd run) = true.
Proof.
  intros run. unfold run.
  pose proof (second_checkin_is_refused Sample.qr_of 100 (Sample.as_student 1 1)
                "good"%string
                {| qr_event_id := 10; qr_secret := "s3cret"; qr_college_id := 1 |}
                Sample.campus_attended eq_refl eq_refl eq_refl) as [Hd Hr].
  specialize (Hr eq_refl).
  rewrite (surjective_pairing
             (post_qr_checkin Sample.qr_of 100 (Sample.as_student 1 1) "good"
                Sample.campus_attended)).
  rewrite Hd, Hr. split; reflexivity.
Defined.

End AttendanceFacts.

(** ** Feedback and notes *)

Module FeedbackNotesFacts.

Import Feedback Notes.

Lemma post_note_run (now : Z) (user : payload) (event_id : Z) (content : string)
    (d : database) :
  u_role user = "student"%string ->
  Notes.validation_errors content = [] ->
  existsb (registered_in event_id (u_id user) (u_college_id user))
          (registrations d) = true ->
  post_note now user event_id content d =
    if existsb (note_of event_id (u_id user)) (notes d)
    then (set_notes d
            (map (fun n =>
                    if note_of event_id (u_id user) n
                    then {| n_id := n_id n; n_event_id := n_event_id n;
                            n_student_id := n_student_id n; n_content := content;
                            n_updated_at := now |}
                    else n)
                 (notes d)),
          respond_with 200 (Message "Note updated successfully"))
    else (set_notes d
            (notes d ++
               [{| n_id := Sql.next_id (map n_id (notes d));
                   n_event_id := event_id; n_student_id := u_id user;
                   n_content := content; n_updated_at := now |}]),
          respond_with 200 (Message "Note created successfully")).
Proof.
  intros Hrole Hvalid Hreg. unfold post_note. rewrite Hrole, Hvalid.
  run_handler. rewrite existsb_filter_nonempty in Hreg.
  destruct (filter (registered_in event_id (u_id user) (u_college_id user))
                   (registrations d)); [discriminate|].
  rewrite existsb_filter_nonempty. simpl.
  destruct (filter (note_of event_id (u_id user)) (notes d)); reflexivity.
Qed.

Lemma post_feedback_run (user : payload) (b : feedback_body) (d : database) :
  u_role user = "student"%string ->
  Feedback.validation_errors b = [] ->
  existsb (attended_in (fb_event_id b) (u_id user) (u_college_id user))
          (attendance d) = true ->
  post_feedback user b d =
    if existsb (feedback_of (fb_event_id b) (u_id user)) (feedback d)
    then (d, respond_with 400 (Error "Feedback already submitted for this event"))
    else
      match fb_comments b, fb_suggestions b with
      | Some c, Some s =>
          (set_feedback d
             (feedback d ++
                [{| f_id := Sql.next_id (map f_id (feedback d));
                    f_event_id := fb_event_id b; f_student_id := u_id user;
                    f_college_id := u_college_id user; f_rating := fb_rating b;
                    f_comments := c; f_suggestions := s;
                    f_anonymous := match fb_anonymous b with
                                   | Some a => a
                                   | None => false
                                   end |}]),
           respond_with 201
             (FeedbackCreated "Feedback submitted successfully"
                (Sql.next_id (map f_id (feedback d)))))
      | _, _ => (d, respond_with 500 (Error "Failed to submit feedback"))
      end.
Proof.
  intros Hrole Hvalid Hatt. unfold post_feedback. rewrite Hrole, Hvalid.
  run_handler. rewrite existsb_filter_nonempty in Hatt.
  destruct (filter (attended_in (fb_event_id b) (u_id user) (u_college_id user))
                   (attendance d)); [discriminate|].
  rewrite existsb_filter_nonempty. simpl.
  destruct (filter (feedback_of (fb_event_id b) (u_id user)) (feedback d));
    [|reflexivity].
  unfold insert_feedback.
  destruct (fb_comments b), (fb_suggestions b); reflexivity.
Qed.

(** C7, as amended.  A note is upserted: a registered student without a
    note for the event gets one stored, and with one gets its content
    replaced in place.  Feedback is not: a student who attended and has
    none gets a row stored, but a second submission is answered 400 and
    the stored row stays as it was. *)
Theorem notes_upsert_feedback_insert_once :
  (forall (now : Z) (user : payload) (event_id : Z) (content : string) (d : database),
      u_role user = "student"%string ->
      Notes.validation_errors content = [] ->
      existsb (registered_in event_id (u_id user) (u_college_id user))
              (registrations d) = true ->
      let d' := fst (post_note now user event_id content d) in
      status (snd (post_note now user event_id content d)) = 200
      /\ (existsb (note_of event_id (u_id user)) (notes d) = false ->
          notes d' = notes d ++
            [{| n_id := Sql.next_id (map n_id (notes d));
                n_event_id := event_id; n_student_id := u_id user;
                n_content := content; n_updated_at := now |}])
      /\ (existsb (note_of event_id (u_id user)) (notes d) = true ->
          length (notes d') = length (notes d)
          /\ map n_id (notes d') = map n_id (notes d)
          /\ forall n, In n (notes d') ->
               if note_of event_id (u_id user) n
               then n_content n = content
               else In n (notes d)))
  /\ (forall (user : payload) (b : feedback_body) (d : database),
      u_role user = "student"%string ->
      Feedback.validation_errors b = [] ->
      existsb (attended_in (fb_event_id b) (u_id user) (u_college_id user))
              (attendance d) = true ->
      (existsb (feedback_of (fb_event_id b) (u_id user)) (feedback d) = false ->
       forall c s, fb_comments b = Some c -> fb_suggestions b = Some s ->
         exists row,
           post_feedback user b d =
             (set_feedback d (feedback d ++ [row]),
              respond_with 201
                (FeedbackCreated "Feedback submitted successfully" (f_id row)))
           /\ f_event_id row = fb_event_id b /\ f_student_id row = u_id user
           /\ f_rating row = fb_rating b /\ f_comments row = c
           /\ f_suggestions row = s)
      /\ (existsb (feedback_of (fb_event_id b) (u_id user)) (feedback d) = true ->
          post_feedback user b d =
            (d, respond_with 400
                  (Error "Feedback already submitted for this event")))).
Proof.
  split.
  - intros now user event_id content d Hrole Hvalid Hreg d'. subst d'.
    rewrite (post_note_run now user event_id content d Hrole Hvalid Hreg).
    destruct (existsb (note_of event_id (u_id user)) (notes d)) eqn:Hex; simpl.
    + split; [reflexivity|]. split; [intros H; discriminate|]. intros _.
      split; [apply length_map|]. split.
      * rewrite map_map. apply map_ext. intros n.
        destruct (note_of event_id (u_id user) n); reflexivity.
      * intros n Hin. apply in_map_iff in Hin. destruct Hin as (n0 & <- & Hin0).
        destruct (note_of event_id (u_id user) n0) eqn:Hn0.
        -- unfold note_of in *. simpl. rewrite Hn0. reflexivity.
        -- rewrite Hn0. exact Hin0.
    + split; [reflexivity|]. split; [intros _; reflexivity|].
      intros H; discriminate.
  - intros user b d Hrole Hvalid Hatt.
    rewrite (post_feedback_run user b d Hrole Hvalid Hatt).
    destruct (existsb (feedback_of (fb_event_id b) (u_id user)) (feedback d)).
    + split; [intros H; discriminate | intros _; reflexivity].
    + split; [|intros H; discriminate].
      intros _ c s -> ->.
      exists {| f_id := Sql.next_id (map f_id (feedback d));
                f_event_id := fb_event_id b; f_student_id := u_id user;
                f_college_id := u_college_id user; f_rating := fb_rating b;
                f_comments := c; f_suggestions := s;
                f_anonymous := match fb_anonymous b with
                               | Some a => a
                               | None => false
                               end |}.
      simpl. auto 10.
Qed.

(** Student 1 rewrites the note on event 10, which replaces its content,
    and resubmits feedback for it, which is refused. *)
Lemma notes_upsert_feedback_insert_once_witness :
  map n_content
      (notes (fst (post_note 100 (Sample.as_student 1 1) 10 "bring charger"
                     Sample.campus_attended)))
    = ["bring charger"%string]
  /\ post_feedback (Sample.as_student 1 1) Sample.five_stars Sample.campus_attended
     = (Sample.campus_attended,
        respond_with 400 (Error "Feedback already submitted for this event")).
Proof.
  destruct notes_upsert_feedback_insert_once as [Hnotes Hfeedback].
  split.
  - destruct (Hnotes 100 (Sample.as_student 1 1) 10 "bring charger"%string
                Sample.campus_attended eq_refl eq_refl eq_refl)
      as (_ & _ & Hupd).
    destruct (Hupd eq_refl) as (Hlen & _ & Hall).
    destruct (notes (fst (post_note 100 (Sample.as_student 1 1) 10
                            "bring charger" Sample.campus_attended)))
      as [|n [|n' l]]; try discriminate Hlen.
    specialize (Hall n (or_introl eq_refl)).
    destruct (note_of 10 (u_id (Sample.as_student 1 1)) n) eqn:Hn.
    + simpl. now rewrite Hall.
    + exfalso. destruct Hall as [<- | []]. discriminate Hn.
  - destruct (Hfeedback (Sample.as_student 1 1) Sample.five_stars
                Sample.campus_attended eq_refl eq_refl eq_refl) as [_ Hdup].
    exact (Hdup eq_refl).
Defined.

(** C7 as stated fails for feedback: student 1 attended event 10 and has
    rated it 3; the valid second submission with rating 5 is answered 400
    and the stored rating is still 3. *)
Lemma second_feedback_is_refused :
  let user := Sample.as_student 1 1 in
  let d := Sample.campus_attended in
  let run := post_feedback user Sample.five_stars d in
  Feedback.validation_errors Sample.five_stars = []
  /\ existsb (feedback_of 10 (u_id user)) (feedback d) = true
  /\ snd run = respond_with 400 (Error "Feedback already submitted for this event")
  /\ map f_rating (feedback (fst run)) = [3].
Proof. vm_compute. repeat split; reflexivity. Qed.

End FeedbackNotesFacts.

(** ** Reports *)

Module ReportsFacts.

Import Reports.

Lemma in_insert_desc {A : Type} (key : A -> Z) (x y : A) (l : list A) :
  In x (insert_desc key y l) <-> x = y \/ In x l.
Proof.
  induction l as [|z l IH]; simpl.
  - intuition auto.
  - destruct (key z <=? key y); simpl; [intuition auto|].
    rewrite IH. intuition auto.
Qed.

(** Sorting neither adds nor drops a row. *)
Lemma in_order_by_desc {A : Type} (key : A -> Z) (x : A) (l : list A) :
  In x (order_by_desc key l) <-> In x l.
Proof.
  induction l as [|y l IH]; simpl; [tauto|].
  rewrite in_insert_desc, IH. intuition auto.
Qed.

Lemma in_firstn {A : Type} (n : nat) (x : A) (l : list A) :
  In x (firstn n l) -> In x l.
Proof.
  revert l. induction n as [|n IH]; intros [|y l]; simpl; try tauto.
  intros [H | H]; [now left | right; now apply IH].
Qed.

Lemma event_popularity_scoped (college : Z) (d : database) (row : event_count) :
  In row (event_popularity college d) ->
  exists e, In e (events d) /\ e_college_id e = college
            /\ row = popularity_row d e.
Proof.
  unfold event_popularity. rewrite in_order_by_desc, in_map_iff.
  intros (e & <- & He). apply filter_In in He. destruct He as [Hin Hc].
  exists e. apply Z.eqb_eq in Hc. auto.
Qed.

(** [COUNT(a.id)] of a group is the number of attendance rows that join
    the student, college included, and fall in the period. *)
Lemma count_ids_joined (q : period) (d : database) (s : student) :
  count_ids (filter (in_period q) (left_join d s)) =
    Sql.count (fun a => joins s a && in_period q (Some a)) (attendance d).
Proof.
  unfold left_join, count_ids, Sql.count. f_equal.
  assert (Hsplit : filter (fun a => joins s a && in_period q (Some a)) (attendance d)
                   = filter (fun a => in_period q (Some a))
                            (filter (joins s) (attendance d))).
  { induction (attendance d) as [|a l IH]; simpl; [reflexivity|].
    destruct (joins s a); simpl; [|exact IH].
    destruct (in_period q (Some a)); simpl; now rewrite IH. }
  rewrite Hsplit.
  destruct (filter (joins s) (attendance d)) as [|a l] eqn:Hj.
  - simpl. destruct (in_period q None); reflexivity.
  - generalize (a :: l). intros rows.
    induction rows as [|b rows IH]; simpl; [reflexivity|].
    destruct (in_period q (Some b)); simpl; now rewrite IH.
Qed.

Lemma student_participation_scoped (college : Z) (q : period) (d : database)
    (row : student_count) :
  In row (student_participation college q d) ->
  exists s, In s (students d) /\ s_college_id s = college
            /\ sc_id row = s_id s
            /\ sc_first_name row = s_first_name s
            /\ sc_last_name row = s_last_name s
            /\ sc_events_attended row =
                 Sql.count (fun a => joins s a && in_period q (Some a))
                           (attendance d).
Proof.
  unfold student_participation. rewrite in_order_by_desc, in_flat_map.
  intros (s & Hs & Hrow). apply filter_In in Hs. destruct Hs as [Hin Hc].
  apply Z.eqb_eq in Hc. exists s. split; [exact Hin|]. split; [exact Hc|].
  unfold participation_group in Hrow.
  pose proof (count_ids_joined q d s) as Hcount.
  destruct (filter (in_period q) (left_join d s)) as [|a l]; [destruct Hrow|].
  destruct Hrow as [<- | []]. simpl. auto.
Qed.

(** What a report handler answers for a user whose college is [c]. *)
Lemma handler_scoped (ep : endpoint) (user : payload) (d : database) :
  fst (handler ep user d) = d
  /\ match body (snd (handler ep user d)) with
     | Report rows =>
         forall row, In row rows ->
           exists e, In e (events d) /\ e_college_id e = u_college_id user
                     /\ row = popularity_row d e
     | Participation rows | Leaderboard rows =>
         forall row, In row rows ->
           exists s, In s (students d) /\ s_college_id s = u_college_id user
                     /\ sc_id row = s_id s
                     /\ sc_first_name row = s_first_name s
                     /\ sc_last_name row = s_last_name s
                     /\ sc_events_attended row =
                          Sql.count
                            (fun a => joins s a && in_period (period_of ep) (Some a))
                            (attendance d)
     | _ => True
     end.
Proof.
  destruct ep as [|q|parsed]; simpl;
    unfold get_event_popularity, get_student_participation, get_leaderboard;
    run_handler.
  - split; [reflexivity|]. intros row. apply event_popularity_scoped.
  - split; [reflexivity|]. intros row. apply student_participation_scoped.
  - unfold leaderboard. destruct (limit_of parsed <? 0); simpl; [auto|].
    split; [reflexivity|]. intros row Hrow. apply in_firstn in Hrow.
    now apply student_participation_scoped.
Qed.

Lemma account_row_with_college (user : payload) (c : Z) (d : database) :
  account_row (with_college user c) d = account_row user d.
Proof. reflexivity. Qed.

(** The route, guard by guard. *)
Lemma route_run (ep : endpoint) (now : Z) (t : jwt) (d : database) :
  route ep now (Some t) d =
    match jwt_verify now t with
    | None => (d, respond_with 403 (Error "Invalid or expired token"))
    | Some user =>
        if String.eqb (u_role user) "admin" then
          match account_row user d with
          | Some (c, active) =>
              if Js.truthy active then handler ep (with_college user c) d
              else (d, respond_with 403 (Error (inactive_message (u_role user))))
          | None => (d, respond_with 403 (Error (inactive_message (u_role user))))
          end
        else (d, respond_with 403 (Error "Insufficient permissions"))
    end.
Proof.
  unfold route, authenticateToken.
  destruct (jwt_verify now t) as [user|]; [|reflexivity].
  unfold requireRole, includes. cbn [existsb]. rewrite orb_false_r.
  destruct (String.eqb_spec (u_role user) "admin") as [Hrole|]; cbn [negb];
    [|reflexivity].
  rewrite GuardFacts.requireSameCollege_known by (left; exact Hrole).
  reflexivity.
Qed.

(** The route does not read the college of the credential. *)
Lemma route_ignores_claimed_college (ep : endpoint) (now : Z) (t : jwt)
    (c' : Z) (d : database) :
  route ep now (Some (with_claimed_college t c')) d = route ep now (Some t) d.
Proof.
  rewrite !route_run. unfold jwt_verify, with_claimed_college.
  cbn [jwt_signed jwt_exp jwt_payload].
  destruct (jwt_signed t && (now <? jwt_exp t)); [|reflexivity].
  rewrite account_row_with_college. cbn [u_role with_college].
  destruct (String.eqb (u_role (jwt_payload t)) "admin"); [|reflexivity].
  destruct (account_row (jwt_payload t) d) as [[c active]|]; reflexivity.
Qed.

(** C8: for a verified credential whose account row gives college [c],
    every row of the three reports is an event, or a student, of college
    [c], with a count taken over that event's registrations, or over the
    attendance rows of that student in college [c]; the store is only
    read; and the answer is the same whatever college the credential
    itself claims, the request having no other place for one. *)
Theorem reports_are_tenant_scoped (ep : endpoint) (now : Z) (t : jwt)
    (d : database) (c : Z) (active : option Z) :
  jwt_verify now t = Some (jwt_payload t) ->
  account_row (jwt_payload t) d = Some (c, active) ->
  fst (route ep now (Some t) d) = d
  /\ match body (snd (route ep now (Some t) d)) with
     | Report rows =>
         forall row, In row rows ->
           exists e, In e (events d) /\ e_college_id e = c
                     /\ row = popularity_row d e
     | Participation rows | Leaderboard rows =>
         forall row, In row rows ->
           exists s, In s (students d) /\ s_college_id s = c
                     /\ sc_id row = s_id s
                     /\ sc_first_name row = s_first_name s
                     /\ sc_last_name row = s_last_name s
                     /\ sc_events_attended row =
                          Sql.count
                            (fun a => joins s a && in_period (period_of ep) (Some a))
                            (attendance d)
     | _ => True
     end
  /\ forall c', route ep now (Some (with_claimed_college t c')) d
                = route ep now (Some t) d.
Proof.
  intros Hverify Hrow.
  split; [|split; [|intros c'; apply route_ignores_claimed_college]];
    rewrite route_run, Hverify;
    (destruct (String.eqb (u_role (jwt_payload t)) "admin"); [|simpl; auto]);
    rewrite Hrow;
    (destruct (Js.truthy active); [|simpl; auto]).
  - apply handler_scoped.
  - apply (handler_scoped ep (with_college (jwt_payload t) c) d).
Qed.

(** The admin of college 1, with a token that claims college 99, asks for
    the popularity report: one row, event 10 of college 1 with its two
    registered students. *)
Lemma reports_are_tenant_scoped_witness :
  let t := jwt_sign 0 (with_college (Sample.as_admin 1 1) 99) in
  body (snd (route EventPopularity 100 (Some t) Sample.campus_full))
    = Report [{| ec_id := 10; ec_title := "Hackathon"; ec_registrations := 2 |}]
  /\ (forall row,
        In row [{| ec_id := 10; ec_title := "Hackathon"; ec_registrations := 2 |}] ->
        exists e, In e (events Sample.campus_full) /\ e_college_id e = 1
                  /\ row = popularity_row Sample.campus_full e)
  /\ route EventPopularity 100 (Some (with_claimed_college t 2)) Sample.campus_full
     = route EventPopularity 100 (Some t) Sample.campus_full.
Proof.
  intros t.
  destruct (reports_are_tenant_scoped EventPopularity 100 t Sample.campus_full
              1 (Some 1) eq_refl eq_refl) as (_ & Hrows & Hsame).
  split; [reflexivity|]. split; [exact Hrows | apply Hsame].
Defined.

End ReportsFacts.

(** ** Login *)

Module LoginFacts.

Import Login.

Section PostLogin.

Variable bcrypt_compare : string -> string -> bool.
Variable isEmail : string -> bool.

(** C9: when the admins table has a row for the address, login is
    decided by that row alone: its hash is the one compared, a success
    carries a token of role admin for that row, and the answer is the same
    whatever the students table holds.  Only when no admins row has the
    address do the student rows decide, with role student. *)
Theorem login_tries_admins_first (now : Z) (email password : string) (d : database) :
  validation_errors isEmail email password = [] ->
  (forall a rest,
      filter (fun a => String.eqb (a_email a) email) (admins d) = a :: rest ->
      post_login bcrypt_compare isEmail now email password d =
        (d, if bcrypt_compare password (a_password_hash a)
            then respond_with 200
                   (LoggedIn "Login successful"
                      (jwt_sign now {| u_id := a_id a;
                                       u_college_id := a_college_id a;
                                       u_role := "admin" |})
                      (a_id a) (a_email a) "admin")
            else respond_with 401 (Error "Invalid credentials"))
      /\ forall d', admins d' = admins d ->
           snd (post_login bcrypt_compare isEmail now email password d')
           = snd (post_login bcrypt_compare isEmail now email password d))
  /\ (filter (fun a => String.eqb (a_email a) email) (admins d) = [] ->
      post_login bcrypt_compare isEmail now email password d =
        (d, match filter (fun s => String.eqb (s_email s) email) (students d) with
            | [] => respond_with 401 (Error "Invalid credentials")
            | s :: _ =>
                if bcrypt_compare password (s_password_hash s)
                then respond_with 200
                       (LoggedIn "Login successful"
                          (jwt_sign now {| u_id := s_id s;
                                           u_college_id := s_college_id s;
                                           u_role := "student" |})
                          (s_id s) (s_email s) "student")
                else respond_with 401 (Error "Invalid credentials")
            end)).
Proof.
  intros Hvalid. split.
  - intros a rest Hadm.
    assert (Hrun : forall d0, admins d0 = admins d ->
              post_login bcrypt_compare isEmail now email password d0 =
                (d0, if bcrypt_compare password (a_password_hash a)
                     then respond_with 200
                            (LoggedIn "Login successful"
                               (jwt_sign now {| u_id := a_id a;
                                                u_college_id := a_college_id a;
                                                u_role := "admin" |})
                               (a_id a) (a_email a) "admin")
                     else respond_with 401 (Error "Invalid credentials"))).
    { intros d0 Hd0. unfold post_login, find_user. rewrite Hvalid.
      run_handler. unfold admins_by_email. rewrite Hd0, Hadm. simpl.
      destruct (bcrypt_compare password (a_password_hash a)); reflexivity. }
    split; [apply Hrun; reflexivity|].
    intros d' Hd'. rewrite (Hrun d' Hd'), (Hrun d eq_refl). reflexivity.
  - intros Hnone. unfold post_login, find_user. rewrite Hvalid.
    run_handler. unfold admins_by_email, students_by_email. rewrite Hnone. simpl.
    destruct (filter (fun s => String.eqb (s_email s) email) (students d))
      as [|s l]; [reflexivity|]. simpl.
    destruct (bcrypt_compare password (s_password_hash s)); reflexivity.
Qed.

(** Every token that login hands out carries the role admin or student,
    matches the user of the response, and verifies for one day. *)
Lemma login_issues_known_role (now : Z) (email password : string) (d : database)
    (message : string) (token : jwt) (i : Z) (em role : string) :
  body (snd (post_login bcrypt_compare isEmail now email password d))
    = LoggedIn message token i em role ->
  known_role (u_role (jwt_payload token))
  /\ u_role (jwt_payload token) = role
  /\ u_id (jwt_payload token) = i
  /\ forall later, later < now + 86400 ->
       jwt_verify later token = Some (jwt_payload token).
Proof.
  unfold post_login, find_user.
  destruct (validation_errors isEmail email password); [|discriminate].
  run_handler.
  assert (Hverify : forall p later, later < now + 86400 ->
            jwt_verify later (jwt_sign now p) = Some p).
  { intros p later Hlt. unfold jwt_verify, jwt_sign. simpl.
    apply Z.ltb_lt in Hlt. now rewrite Hlt. }
  destruct (admins_by_email email d) as [|a l]; simpl.
  - destruct (students_by_email email d) as [|st l]; simpl; [discriminate|].
    destruct (bcrypt_compare password (row_password_hash st)); simpl;
      [|discriminate].
    intros H. injection H as _ <- <- _ <-. simpl.
    repeat split; [right; right; reflexivity | apply Hverify].
  - destruct (bcrypt_compare password (row_password_hash a)); simpl;
      [|discriminate].
    intros H. injection H as _ <- <- _ <-. simpl.
    repeat split; [left; reflexivity | apply Hverify].
Qed.

End PostLogin.

(** root@c1.edu is an admin and a student.  The admin password logs in as
    admin 1; the student password is refused, the student row not being
    looked at. *)
Lemma login_tries_admins_first_witness :
  let login pw :=
    snd (post_login Sample.compare_hash Sample.has_at_sign 100 "root@c1.edu" pw
           Sample.campus_shared_email) in
  login "a"%string
    = respond_with 200
        (LoggedIn "Login successful"
           (jwt_sign 100 {| u_id := 1; u_college_id := 1; u_role := "admin" |})
           1 "root@c1.edu" "admin")
  /\ login "s"%string = respond_with 401 (Error "Invalid credentials").
Proof.
  intros login. unfold login.
  destruct (login_tries_admins_first Sample.compare_hash Sample.has_at_sign 100
              "root@c1.edu" "a" Sample.campus_shared_email eq_refl) as [Ha _].
  destruct (login_tries_admins_first Sample.compare_hash Sample.has_at_sign 100
              "root@c1.edu" "s" Sample.campus_shared_email eq_refl) as [Hs _].
  destruct (Ha (Sample.an_admin 1 1 "root@c1.edu" (Some 1)) [] eq_refl) as [-> _].
  destruct (Hs (Sample.an_admin 1 1 "root@c1.edu" (Some 1)) [] eq_refl) as [-> _].
  split; reflexivity.
Defined.

End LoginFacts.

(** * More properties *)

(** ** Registration over whole runs *)

Module RegistrationRuns.

Import Registration Invariant.

(** A request either leaves the store alone or appends one row: for a
    student, an event found in the student's college, and a pair that had
    no row. *)
Lemma route_outcome (now : Z) (token : option jwt) (e : Z) (d : database) :
  fst (route now token e d) = d
  \/ exists user ev rest st pos,
       u_role user = "student"%string
       /\ filter (event_in_college e (u_college_id user)) (events d) = ev :: rest
       /\ existsb (same_pair e (u_id user)) (registrations d) = false
       /\ (st = registered ->
           Js.ge (registered_count e d) (e_max_participants ev) = false)
       /\ fst (route now token e d) =
            set_registrations d
              (registrations d ++
                 [new_registration d (u_college_id user) e (u_id user) st pos]).
Proof.
  unfold route, authenticateToken.
  destruct token as [t|]; [|now left].
  destruct (jwt_verify now t) as [decoded|]; [|now left].
  destruct (GuardFacts.requireSameCollege_cases decoded
              (fun user => post_registration user e) d)
    as [(user & -> & _) | ->]; [|now left].
  destruct (String.eqb_spec (u_role user) "student") as [Hrole|Hrole].
  - destruct (filter (event_in_college e (u_college_id user)) (events d))
      as [|ev rest] eqn:Hev.
    + left. unfold post_registration. rewrite Hrole. run_handler.
      now rewrite Hev.
    + destruct (Js.ge (registered_count e d) (e_max_participants ev)) eqn:Hge.
      * rewrite (RegistrationFacts.post_registration_run user e d ev rest _ _
                   Hrole Hev (RegistrationFacts.decide_waitlisted _ _ _ Hge)).
        destruct (existsb _ _) eqn:Hdup; [now left|].
        right. exists user, ev, rest, waitlisted. eexists.
        repeat split; try reflexivity; try assumption. discriminate.
      * rewrite (RegistrationFacts.post_registration_run user e d ev rest _ _
                   Hrole Hev (RegistrationFacts.decide_registered _ _ _ Hge)).
        destruct (existsb _ _) eqn:Hdup; [now left|].
        right. exists user, ev, rest, registered, None.
        repeat split; try reflexivity; try assumption. intros _. exact Hge.
  - left. unfold post_registration.
    apply String.eqb_neq in Hrole. now rewrite Hrole.
Qed.

(** What every request keeps, every run keeps. *)
Lemma serve_invariant (P : database -> Prop) :
  (forall now token e d, P d -> P (fst (route now token e d))) ->
  forall reqs d, P d -> P (fst (serve reqs d)).
Proof.
  intros Hstep reqs. induction reqs as [|[[now token] e] reqs IH]; intros d Hd.
  - exact Hd.
  - rewrite RegistrationFacts.serve_cons. cbn [fst snd].
    apply IH, Hstep, Hd.
Qed.

Lemma same_pair_in (e s : Z) (rows : list registration) :
  existsb (same_pair e s) rows = false ->
  ~ In (e, s) (map (fun r => (r_event_id r, r_student_id r)) rows).
Proof.
  intros Hnone Hin. apply in_map_iff in Hin. destruct Hin as (r & Hr & Hin).
  injection Hr as He Hs.
  assert (H : existsb (same_pair e s) rows = true).
  { apply existsb_exists. exists r. split; [exact Hin|].
    unfold same_pair. now rewrite He, Hs, !Z.eqb_refl. }
  congruence.
Qed.

(** X1: however many requests are served, no student ever has two
    registration rows for one event. *)
Theorem serve_keeps_pairs_unique (reqs : list request) (d : database) :
  unique_pairs d -> unique_pairs (fst (serve reqs d)).
Proof.
  apply serve_invariant. clear. intros now token e d Hd.
  destruct (route_outcome now token e d)
    as [-> | (user & ev & rest & st & pos & _ & _ & Hfree & _ & ->)];
    [exact Hd|].
  unfold unique_pairs in *. simpl. rewrite map_app. simpl.
  apply NoDup_app; [exact Hd | constructor; [intros [] | constructor] |].
  intros p Hp [<- | []]. revert Hp. now apply same_pair_in.
Qed.

Lemma serve_keeps_pairs_unique_witness :
  unique_pairs (fst (serve Sample.queue Sample.campus_registered)).
Proof.
  apply serve_keeps_pairs_unique.
  unfold unique_pairs. simpl. constructor; [intros [] | constructor].
Defined.

(** X2: however many requests are served, every registration row keeps
    the college of its event: the route never stores a row for an event
    of another college than the one it writes into the row. *)
Theorem serve_keeps_colleges_agreeing (reqs : list request) (d : database) :
  colleges_agree d -> colleges_agree (fst (serve reqs d)).
Proof.
  apply serve_invariant. clear. intros now token e d Hd.
  destruct (route_outcome now token e d)
    as [-> | (user & ev & rest & st & pos & _ & Hev & _ & _ & ->)];
    [exact Hd|].
  unfold colleges_agree in *. simpl. intros r Hr.
  apply in_app_or in Hr. destruct Hr as [Hr | [<- | []]]; [now apply Hd|].
  assert (Hin : In ev (ev :: rest)) by now left.
  rewrite <- Hev in Hin. apply filter_In in Hin. destruct Hin as [Hin Hm].
  unfold event_in_college in Hm. apply andb_true_iff in Hm.
  destruct Hm as [H1 H2]. apply Z.eqb_eq in H1, H2.
  exists ev. simpl. auto.
Qed.

Lemma serve_keeps_colleges_agreeing_witness :
  colleges_agree (fst (serve Sample.queue Sample.campus_registered)).
Proof.
  apply serve_keeps_colleges_agreeing.
  intros r [<- | []]. exists (Sample.an_event 10 1 (Some 2) (Some "s3cret"%string)).
  simpl. auto.
Defined.

(** X3: served one after the other, requests never take the number of
    registered rows of an event above its capacity. *)
Theorem serve_respects_capacity (e C : Z) (reqs : list request) (d : database) :
  capacity_is e C d ->
  registered_count e d <= C ->
  registered_count e (fst (serve reqs d)) <= C.
Proof.
  intros Hcap Hle.
  assert (H : capacity_is e C (fst (serve reqs d))
              /\ registered_count e (fst (serve reqs d)) <= C).
  { apply (serve_invariant
             (fun d => capacity_is e C d /\ registered_count e d <= C));
      [|auto].
    clear. intros now token e' d [Hcap Hle].
    destruct (route_outcome now token e' d)
      as [-> | (user & ev & rest & st & pos & _ & Hev & _ & Hroom & ->)];
      [auto|].
    split; [exact Hcap|].
    unfold registered_count in *. simpl. rewrite count_app_one.
    unfold for_event at 2. simpl.
    destruct (Z.eqb_spec e' e) as [->|]; simpl; [|lia].
    destruct st; simpl; try lia.
    specialize (Hroom eq_refl).
    assert (Hin : In ev (ev :: rest)) by now left.
    rewrite <- Hev in Hin. apply filter_In in Hin. destruct Hin as [Hin Hm].
    unfold event_in_college in Hm. apply andb_true_iff in Hm.
    destruct Hm as [H1 _]. apply Z.eqb_eq in H1.
    rewrite (Hcap ev Hin H1) in Hroom. unfold Js.ge in Hroom. simpl in Hroom.
    apply Z.leb_gt in Hroom. lia. }
  exact (proj2 H).
Qed.

(** Six requests for the two places of event 10. *)
Lemma serve_respects_capacity_witness :
  registered_count 10 (fst (serve Sample.queue Sample.campus)) <= 2.
Proof.
  apply serve_respects_capacity.
  - intros ev [<- | [<- | []]]; simpl; [reflexivity | discriminate].
  - vm_compute. discriminate.
Defined.

End RegistrationRuns.

(** ** Ordering *)

Module OrderFacts.

Import Reports.

Lemma insert_desc_perm {A : Type} (key : A -> Z) (x : A) (l : list A) :
  Permutation (insert_desc key x l) (x :: l).
Proof.
  induction l as [|y l IH]; simpl; [reflexivity|].
  destruct (key y <=? key x); [reflexivity|].
  rewrite IH. apply perm_swap.
Qed.

(** [ORDER BY] neither drops nor repeats a row. *)
Lemma order_by_desc_perm {A : Type} (key : A -> Z) (l : list A) :
  Permutation (order_by_desc key l) l.
Proof.
  induction l as [|x l IH]; simpl; [reflexivity|].
  rewrite insert_desc_perm. now constructor.
Qed.

Lemma insert_desc_sorted {A : Type} (key : A -> Z) (x : A) (l : list A) :
  StronglySorted (fun a b => key b <= key a) l ->
  StronglySorted (fun a b => key b <= key a) (insert_desc key x l).
Proof.
  induction l as [|y l IH]; intros Hl; simpl.
  - constructor; constructor.
  - apply StronglySorted_inv in Hl. destruct Hl as [Hl Hy].
    destruct (Z.leb_spec (key y) (key x)) as [Hle|Hgt].
    + constructor; [constructor; assumption|].
      constructor; [exact Hle|].
      eapply Forall_impl; [|exact Hy]. simpl. intros z Hz. lia.
    + constructor; [now apply IH|].
      apply Forall_forall. intros z Hz.
      apply (Permutation_in _ (insert_desc_perm key x l)) in Hz.
      destruct Hz as [<- | Hz]; [lia|].
      rewrite Forall_forall in Hy. now apply Hy.
Qed.

(** [ORDER BY key DESC] gives the rows by falling key. *)
Lemma order_by_desc_sorted {A : Type} (key : A -> Z) (l : list A) :
  StronglySorted (fun a b => key b <= key a) (order_by_desc key l).
Proof.
  induction l as [|x l IH]; simpl; [constructor|].
  now apply insert_desc_sorted.
Qed.

(** [ORDER BY key ASC] gives the rows by rising key. *)
Lemma order_by_asc_sorted {A : Type} (key : A -> Z) (l : list A) :
  StronglySorted (fun a b => key a <= key b) (order_by_asc key l).
Proof.
  unfold order_by_asc.
  pose proof (order_by_desc_sorted (fun x => - key x) l) as H.
  induction H as [|a l' Hl IH Ha]; constructor; [exact IH|].
  eapply Forall_impl; [|exact Ha]. simpl. intros b Hb. lia.
Qed.

Lemma order_by_asc_perm {A : Type} (key : A -> Z) (l : list A) :
  Permutation (order_by_asc key l) l.
Proof. apply order_by_desc_perm. Qed.

End OrderFacts.

(** ** A student's own registrations *)

Module MyRegistrationsFacts.

Import Registration MyRegistrations.

(** X4: an active student with a good token who asks for an event that
    no row places in the student's own college, an event of another
    college included, is answered 404 and nothing is stored. *)
Theorem foreign_event_is_not_found (now : Z) (t : jwt) (e : Z) (d : database)
    (user : payload) (s : student) (rest : list student) :
  jwt_verify now t = Some user ->
  u_role user = "student"%string ->
  select_student (u_id user) d = s :: rest ->
  Js.truthy (s_is_active s) = true ->
  (forall ev, In ev (events d) -> e_id ev = e -> e_college_id ev <> s_college_id s) ->
  route now (Some t) e d = (d, respond_with 404 (Error "Event not found")).
Proof.
  intros Hverify Hrole Hrow Hactive Hforeign. unfold route.
  rewrite (GuardFacts.guards_pass_student now t _ d user s rest
             Hverify Hrole Hrow Hactive).
  unfold post_registration. cbn [u_role with_college u_college_id].
  rewrite Hrole. run_handler.
  destruct (filter (event_in_college e (s_college_id s)) (events d))
    as [|ev l] eqn:Hev; [reflexivity|].
  exfalso. assert (Hin : In ev (ev :: l)) by now left.
  rewrite <- Hev in Hin. apply filter_In in Hin. destruct Hin as [Hin Hm].
  unfold event_in_college in Hm. apply andb_true_iff in Hm.
  destruct Hm as [H1 H2]. apply Z.eqb_eq in H1, H2.
  exact (Hforeign ev Hin H1 H2).
Qed.

(** Student 1 of college 1 asks for event 20 of college 2. *)
Lemma foreign_event_is_not_found_witness :
  route 100 (Sample.token_of (Sample.as_student 1 1)) 20 Sample.campus
    = (Sample.campus, respond_with 404 (Error "Event not found")).
Proof.
  apply (foreign_event_is_not_found 100 _ 20 Sample.campus
           (with_college (Sample.as_student 1 1) 99)
           (Sample.a_student 1 1 "a@c1.edu" (Some 1))
           (tl (select_student 1 Sample.campus))); try reflexivity.
  intros ev [<- | [<- | []]]; simpl; intros H; discriminate.
Defined.

Section Columns.

Variable event_date : event -> Z.

Lemma in_order_by_asc {A : Type} (key : A -> Z) (x : A) (l : list A) :
  In x (order_by_asc key l) <-> In x l.
Proof. apply ReportsFacts.in_order_by_desc. Qed.

Lemma in_my_registrations (user : payload) (d : database) (r : registration)
    (ev : event) :
  In (r, ev) (my_registrations event_date user d) <->
  In r (registrations d) /\ r_student_id r = u_id user
  /\ r_college_id r = u_college_id user
  /\ In ev (events d) /\ e_id ev = r_event_id r.
Proof.
  unfold my_registrations. rewrite in_order_by_asc, in_flat_map. split.
  - intros (r0 & Hr0 & Hin). apply filter_In in Hr0. destruct Hr0 as [Hr0 Hmine].
    unfold with_event in Hin. apply in_map_iff in Hin.
    destruct Hin as (e0 & Heq & He0). injection Heq as -> ->.
    apply filter_In in He0. destruct He0 as [He0 Hid].
    unfold mine in Hmine. apply andb_true_iff in Hmine.
    destruct Hmine as [H1 H2]. apply Z.eqb_eq in H1, H2, Hid. auto.
  - intros (Hr & Hs & Hc & He & Hid). exists r. split.
    + apply filter_In. split; [exact Hr|]. unfold mine.
      now rewrite Hs, Hc, !Z.eqb_refl.
    + unfold with_event. apply in_map. apply filter_In. split; [exact He|].
      rewrite Hid. apply Z.eqb_refl.
Qed.

(** X5: the list of [GET /my] holds exactly the caller's registration
    rows of the caller's college, each with the event row of its event
    id, by rising event date, and the store is only read; whoever is not
    a student is answered 403. *)
Theorem my_registrations_are_mine (user : payload) (d : database) :
  fst (get_my_registrations event_date user d) = d
  /\ (u_role user <> "student"%string ->
      snd (get_my_registrations event_date user d) =
        Refused (respond_with 403
                   (Error "Only students can view their registrations")))
  /\ (u_role user = "student"%string ->
      exists rows,
        snd (get_my_registrations event_date user d) = Served 200 rows
        /\ (forall r ev,
              In (r, ev) rows <->
              In r (registrations d) /\ r_student_id r = u_id user
              /\ r_college_id r = u_college_id user
              /\ In ev (events d) /\ e_id ev = r_event_id r)
        /\ StronglySorted
             (fun p q => event_date (snd p) <= event_date (snd q)) rows).
Proof.
  unfold get_my_registrations.
  destruct (String.eqb_spec (u_role user) "student") as [Hrole|Hrole]; simpl.
  - split; [reflexivity|]. split; [intros H; contradiction|]. intros _.
    exists (my_registrations event_date user d). split; [reflexivity|].
    split; [intros r ev; apply in_my_registrations|].
    apply (OrderFacts.order_by_asc_sorted (fun p => event_date (snd p))).
  - split; [reflexivity|]. split; [reflexivity|]. intros H; contradiction.
Qed.

(** X6: a registration that went through shows up at once in the
    student's list, with the status and the position the response
    announced, next to its event. *)
Theorem registration_shows_in_my_list (user : payload) (e : Z) (d : database)
    (ev : event) (rest : list event) :
  u_role user = "student"%string ->
  filter (event_in_college e (u_college_id user)) (events d) = ev :: rest ->
  existsb (same_pair e (u_id user)) (registrations d) = false ->
  exists st pos rows,
    snd (post_registration user e d) =
      respond_with 200
        (RegistrationMade (String.append "Registration " (status_name st)) pos)
    /\ snd (get_my_registrations event_date user (fst (post_registration user e d)))
       = Served 200 rows
    /\ In (new_registration d (u_college_id user) e (u_id user) st pos, ev) rows.
Proof.
  intros Hrole Hev Hfree.
  assert (Hin : In ev (events d) /\ e_id ev = e).
  { assert (H : In ev (ev :: rest)) by now left.
    rewrite <- Hev in H. apply filter_In in H. destruct H as [H Hm].
    unfold event_in_college in Hm. apply andb_true_iff in Hm.
    destruct Hm as [H1 _]. apply Z.eqb_eq in H1. auto. }
  destruct Hin as [Hin Hid].
  assert (Hrun : exists st pos,
             post_registration user e d =
               (set_registrations d
                  (registrations d ++
                     [new_registration d (u_college_id user) e (u_id user) st pos]),
                respond_with 200
                  (RegistrationMade
                     (String.append "Registration " (status_name st)) pos))).
  { destruct (Js.ge (Sql.count (for_event e registered) (registrations d))
                    (e_max_participants ev)) eqn:Hge.
    - eexists waitlisted, _.
      rewrite (RegistrationFacts.post_registration_run user e d ev rest _ _
                 Hrole Hev (RegistrationFacts.decide_waitlisted _ _ _ Hge)).
      rewrite Hfree. reflexivity.
    - exists registered, None.
      rewrite (RegistrationFacts.post_registration_run user e d ev rest _ _
                 Hrole Hev (RegistrationFacts.decide_registered _ _ _ Hge)).
      rewrite Hfree. reflexivity. }
  destruct Hrun as (st & pos & Hrun). rewrite Hrun. cbn [fst snd].
  exists st, pos. eexists. split; [reflexivity|].
  unfold get_my_registrations. rewrite Hrole. simpl. split; [reflexivity|].
  apply in_my_registrations. simpl. repeat split; auto.
  apply in_or_app. right. now left.
Qed.

End Columns.

(** Student 4 joins the waitlist of the full event 10 and finds the row,
    position 2, in the list. *)
Lemma registration_shows_in_my_list_witness :
  exists st pos rows,
    snd (post_registration (Sample.as_student 4 1) 10 Sample.campus_full) =
      respond_with 200
        (RegistrationMade (String.append "Registration " (status_name st)) pos)
    /\ snd (get_my_registrations (fun ev => e_id ev) (Sample.as_student 4 1)
              (fst (post_registration (Sample.as_student 4 1) 10 Sample.campus_full)))
       = Served 200 rows
    /\ In (new_registration Sample.campus_full 1 10 4 st pos,
           Sample.an_event 10 1 (Some 2) (Some "s3cret"%string)) rows.
Proof.
  apply (registration_shows_in_my_list (fun ev => e_id ev) (Sample.as_student 4 1)
           10 Sample.campus_full
           (Sample.an_event 10 1 (Some 2) (Some "s3cret"%string)) []);
    reflexivity.
Defined.

End MyRegistrationsFacts.

(** ** Marking attendance *)

Module MarkingFacts.

Import Attendance Marking.

Lemma post_manual_run (now : Z) (user : payload) (e s : Z) (d : database) :
  post_manual now user e s d =
    if existsb (registered_pair e s) (registrations d)
    then (set_attendance d
            (attendance d ++
               [{| at_id := Sql.next_id (map at_id (attendance d));
                   at_event_id := e; at_student_id := s;
                   at_college_id := u_college_id user;
                   at_checked_in_at := now |}]),
          respond_with 200 (Message "Attendance marked successfully"))
    else (d, respond_with 400 (Error "Student not registered for event")).
Proof.
  unfold post_manual. run_handler. rewrite existsb_filter_nonempty.
  destruct (filter (registered_pair e s) (registrations d)); reflexivity.
Qed.

(** X7: a student can be marked present by hand only with a row of
    status registered for the event: with none, and so for a student who
    is only waitlisted or has cancelled, the answer is 400 and nothing is
    stored. *)
Theorem manual_mark_needs_registered_row (now : Z) (user : payload) (e s : Z)
    (d : database) :
  (forall r, In r (registrations d) ->
     r_event_id r = e -> r_student_id r = s -> r_status r <> registered) ->
  post_manual now user e s d =
    (d, respond_with 400 (Error "Student not registered for event")).
Proof.
  intros Hnone. rewrite post_manual_run.
  destruct (existsb (registered_pair e s) (registrations d)) eqn:Hex;
    [|reflexivity].
  apply existsb_exists in Hex. destruct Hex as (r & Hin & Hm).
  unfold registered_pair in Hm. rewrite !andb_true_iff, !Z.eqb_eq in Hm.
  destruct Hm as [[He Hs] Hst]. exfalso. apply (Hnone r Hin He Hs).
  destruct (r_status r); try discriminate. reflexivity.
Qed.

(** Student 3 is on the waitlist of event 10. *)
Lemma manual_mark_needs_registered_row_witness :
  post_manual 100 (Sample.as_admin 1 1) 10 3 Sample.campus_full =
    (Sample.campus_full,
     respond_with 400 (Error "Student not registered for event")).
Proof.
  apply manual_mark_needs_registered_row.
  intros r [<- | [<- | [<- | []]]]; simpl; intros He Hs; discriminate.
Defined.

(** X8: marking by hand does not look at the attendance table: every
    mark of a registered student adds a row, so two marks in a row leave
    two more rows for the pair. *)
Theorem manual_mark_adds_a_row_each_time (now later : Z) (user : payload) (e s : Z)
    (d : database) :
  existsb (registered_pair e s) (registrations d) = true ->
  let d1 := fst (post_manual now user e s d) in
  let d2 := fst (post_manual later user e s d1) in
  snd (post_manual now user e s d) =
    respond_with 200 (Message "Attendance marked successfully")
  /\ snd (post_manual later user e s d1) =
       respond_with 200 (Message "Attendance marked successfully")
  /\ Sql.count (attended e s) (attendance d2)
     = Sql.count (attended e s) (attendance d) + 2.
Proof.
  intros Hreg d1 d2. subst d2 d1.
  rewrite (post_manual_run now), Hreg. cbn [fst snd].
  rewrite (post_manual_run later). cbn [registrations set_attendance].
  rewrite Hreg. cbn [fst snd attendance set_attendance].
  split; [reflexivity|]. split; [reflexivity|].
  rewrite !count_app_one. unfold attended. cbn [at_event_id at_student_id].
  rewrite !Z.eqb_refl. simpl. lia.
Qed.

Lemma manual_mark_adds_a_row_each_time_witness :
  let d1 := fst (post_manual 100 (Sample.as_admin 1 1) 10 1 Sample.campus_attended) in
  let d2 := fst (post_manual 101 (Sample.as_admin 1 1) 10 1 d1) in
  Sql.count (attended 10 1) (attendance d2) = 3.
Proof.
  intros d1 d2.
  destruct (manual_mark_adds_a_row_each_time 100 101 (Sample.as_admin 1 1) 10 1
              Sample.campus_attended eq_refl) as (_ & _ & Hcount).
  exact Hcount.
Defined.

Section QrCheckin.

Variable JSON_parse : string -> option qr_payload.

(** X9: with a code that matches an event and no attendance row yet, the
    check-in stores one row, with the student's id and college and the
    event of the code, and every later check-in with that code is answered
    400 and stores nothing: the pair ends with exactly one more row. *)
Theorem qr_checkin_counts_once (now : Z) (user : payload) (qr_data : string)
    (qr : qr_payload) (d : database) :
  u_role user = "student"%string ->
  JSON_parse qr_data = Some qr ->
  existsb (qr_matches qr) (events d) = true ->
  existsb (attended (qr_event_id qr) (u_id user)) (attendance d) = false ->
  let d1 := fst (post_qr_checkin JSON_parse now user qr_data d) in
  snd (post_qr_checkin JSON_parse now user qr_data d) =
    respond_with 200 (Message "Checked in successfully")
  /\ attendance d1 =
       attendance d ++
         [{| at_id := Sql.next_id (map at_id (attendance d));
             at_event_id := qr_event_id qr; at_student_id := u_id user;
             at_college_id := u_college_id user; at_checked_in_at := now |}]
  /\ forall later,
       post_qr_checkin JSON_parse later user qr_data d1 =
         (d1, respond_with 400 (Error "Already checked in")).
Proof.
  intros Hrole Hparse Hvalid Hfresh d1. subst d1.
  rewrite (AttendanceFacts.post_qr_checkin_run JSON_parse now user qr_data qr d
             Hrole Hparse), Hvalid, Hfresh. cbn [fst snd].
  split; [reflexivity|]. split; [reflexivity|]. intros later.
  rewrite (AttendanceFacts.post_qr_checkin_run JSON_parse later user qr_data qr _
             Hrole Hparse).
  cbn [events set_attendance attendance]. rewrite Hvalid.
  rewrite existsb_app. simpl. unfold attended at 2. simpl.
  rewrite !Z.eqb_refl. simpl. rewrite orb_true_r. reflexivity.
Qed.

End QrCheckin.

(** Student 2 scans the code of event 10 at time 100 and again at 200. *)
Lemma qr_checkin_counts_once_witness :
  let d1 := fst (post_qr_checkin Sample.qr_of 100 (Sample.as_student 2 1) "good"
                   Sample.campus) in
  map at_student_id (attendance d1) = [2]
  /\ post_qr_checkin Sample.qr_of 200 (Sample.as_student 2 1) "good" d1
     = (d1, respond_with 400 (Error "Already checked in")).
Proof.
  intros d1.
  destruct (qr_checkin_counts_once Sample.qr_of 100 (Sample.as_student 2 1)
              "good"%string
              {| qr_event_id := 10; qr_secret := "s3cret"; qr_college_id := 1 |}
              Sample.campus eq_refl eq_refl eq_refl eq_refl)
    as (_ & Hrows & Hagain).
  split; [|apply Hagain].
  unfold d1. rewrite Hrows. reflexivity.
Defined.

Lemma in_event_attendance (e college : Z) (d : database) (a : attendance_row)
    (s : student) :
  In (a, s) (event_attendance e college d) <->
  In a (attendance d) /\ at_event_id a = e /\ at_college_id a = college
  /\ In s (students d) /\ s_id s = at_student_id a.
Proof.
  unfold event_attendance.
  rewrite MyRegistrationsFacts.in_order_by_asc, in_flat_map. split.
  - intros (a0 & Ha0 & Hin). apply filter_In in Ha0. destruct Ha0 as [Ha0 Hm].
    unfold with_student in Hin. apply in_map_iff in Hin.
    destruct Hin as (s0 & Heq & Hs0). injection Heq as -> ->.
    apply filter_In in Hs0. destruct Hs0 as [Hs0 Hid].
    apply andb_true_iff in Hm. destruct Hm as [H1 H2].
    apply Z.eqb_eq in H1, H2, Hid. auto.
  - intros (Ha & He & Hc & Hs & Hid). exists a. split.
    + apply filter_In. split; [exact Ha|]. now rewrite He, Hc, !Z.eqb_refl.
    + unfold with_student. apply in_map. apply filter_In. split; [exact Hs|].
      rewrite Hid. apply Z.eqb_refl.
Qed.

(** X10: the attendance list of an event holds exactly the attendance
    rows of that event that were stored under the asking admin's college,
    each with its student, by rising check-in time; the store is only
    read. *)
Theorem event_attendance_is_scoped (user : payload) (e : Z) (d : database) :
  exists rows,
    get_event_attendance user e d = (d, Served 200 rows)
    /\ (forall a s,
          In (a, s) rows <->
          In a (attendance d) /\ at_event_id a = e
          /\ at_college_id a = u_college_id user
          /\ In s (students d) /\ s_id s = at_student_id a)
    /\ StronglySorted
         (fun p q => at_checked_in_at (fst p) <= at_checked_in_at (fst q)) rows.
Proof.
  exists (event_attendance e (u_college_id user) d).
  split; [reflexivity|]. split; [intros a s; apply in_event_attendance|].
  apply (OrderFacts.order_by_asc_sorted (fun p => at_checked_in_at (fst p))).
Qed.

(** X11: a mark by hand shows up at once in the list the same admin gets
    for the event. *)
Theorem manual_mark_shows_in_list (now : Z) (user : payload) (e : Z) (st : student)
    (d : database) :
  existsb (registered_pair e (s_id st)) (registrations d) = true ->
  In st (students d) ->
  exists a rows,
    snd (get_event_attendance user e (fst (post_manual now user e (s_id st) d)))
      = Served 200 rows
    /\ In (a, st) rows
    /\ at_checked_in_at a = now.
Proof.
  intros Hreg Hst. rewrite post_manual_run, Hreg. cbn [fst].
  eexists. eexists. split; [reflexivity|]. split.
  - apply in_event_attendance. cbn [attendance set_attendance students].
    split; [apply in_or_app; right; left; reflexivity|].
    simpl. auto.
  - reflexivity.
Qed.

Lemma manual_mark_shows_in_list_witness :
  exists a rows,
    snd (get_event_attendance (Sample.as_admin 1 1) 10
           (fst (post_manual 100 (Sample.as_admin 1 1) 10 2 Sample.campus_full)))
      = Served 200 rows
    /\ In (a, Sample.a_student 2 1 "b@c1.edu" (Some 1)) rows
    /\ at_checked_in_at a = 100.
Proof.
  apply (manual_mark_shows_in_list 100 (Sample.as_admin 1 1) 10
           (Sample.a_student 2 1 "b@c1.edu" (Some 1)) Sample.campus_full).
  - reflexivity.
  - simpl. auto.
Defined.

End MarkingFacts.

(** ** Feedback over its life *)

Module FeedbackLifeFacts.

Import Attendance Feedback FeedbackUpdate Invariant.

Lemma put_feedback_run (user : payload) (id : Z) (p : patch) (d : database) :
  u_role user = "student"%string ->
  FeedbackUpdate.validation_errors p = [] ->
  put_feedback user id p d =
    if existsb (owned id (u_id user) (u_college_id user)) (feedback d) then
      if no_updates p
      then (d, respond_with 400 (Error "No valid fields to update"))
      else (set_feedback d
              (map (fun f => if f_id f =? id then apply_patch p f else f)
                   (feedback d)),
            respond_with 200 (Message "Feedback updated successfully"))
    else (d, respond_with 404 (Error "Feedback not found")).
Proof.
  intros Hrole Hvalid. unfold put_feedback. rewrite Hrole, Hvalid.
  run_handler. rewrite existsb_filter_nonempty.
  destruct (filter (owned id (u_id user) (u_college_id user)) (feedback d));
    [reflexivity|].
  destruct (no_updates p); reflexivity.
Qed.

(** Whatever the request, a submission stores nothing or appends one row
    with a rating the validator let through. *)
Lemma post_feedback_cases (user : payload) (b : feedback_body) (d : database) :
  fst (post_feedback user b d) = d
  \/ exists row,
       fst (post_feedback user b d) = set_feedback d (feedback d ++ [row])
       /\ 1 <= f_rating row <= 5
       /\ f_event_id row = fb_event_id b /\ f_student_id row = u_id user
       /\ existsb (feedback_of (fb_event_id b) (u_id user)) (feedback d) = false.
Proof.
  destruct (String.eqb_spec (u_role user) "student") as [Hrole|Hrole].
  - destruct (Feedback.validation_errors b) as [|x l] eqn:Hvalid.
    + destruct (existsb (attended_in (fb_event_id b) (u_id user) (u_college_id user))
                        (attendance d)) eqn:Hatt.
      * rewrite (FeedbackNotesFacts.post_feedback_run user b d Hrole Hvalid Hatt).
        destruct (existsb (feedback_of _ _) _) eqn:Hdup; [now left|].
        destruct (fb_comments b), (fb_suggestions b); try now left.
        right. eexists. split; [reflexivity|]. simpl.
        split; [|auto].
        unfold Feedback.validation_errors in Hvalid.
        destruct ((1 <=? fb_rating b) && (fb_rating b <=? 5)) eqn:Hr;
          [|discriminate].
        apply andb_true_iff in Hr. destruct Hr as [H1 H2].
        apply Z.leb_le in H1, H2. lia.
      * left. unfold post_feedback. rewrite Hrole, Hvalid. run_handler.
        rewrite existsb_filter_nonempty in Hatt.
        destruct (filter _ (attendance d)); [reflexivity | discriminate].
    + left. unfold post_feedback. rewrite Hrole, Hvalid. reflexivity.
  - left. unfold post_feedback. apply String.eqb_neq in Hrole.
    now rewrite Hrole.
Qed.

(** Whatever the request, an update stores nothing or rewrites the rows
    with that id, one of which is the caller's, with a validated patch. *)
Lemma put_feedback_cases (user : payload) (id : Z) (p : patch) (d : database) :
  fst (put_feedback user id p d) = d
  \/ (FeedbackUpdate.validation_errors p = []
      /\ existsb (owned id (u_id user) (u_college_id user)) (feedback d) = true
      /\ fst (put_feedback user id p d) =
           set_feedback d
             (map (fun f => if f_id f =? id then apply_patch p f else f)
                  (feedback d))).
Proof.
  destruct (String.eqb_spec (u_role user) "student") as [Hrole|Hrole].
  - destruct (FeedbackUpdate.validation_errors p) as [|x l] eqn:Hvalid.
    + rewrite (put_feedback_run user id p d Hrole Hvalid).
      destruct (existsb _ _); [|now left].
      destruct (no_updates p); [now left|]. right. auto.
    + left. unfold put_feedback. rewrite Hrole, Hvalid. reflexivity.
  - left. unfold put_feedback. apply String.eqb_neq in Hrole.
    now rewrite Hrole.
Qed.

(** X12: feedback that passes validation, from a student with no
    attendance row and no feedback row for the event, is refused with 400
    before the check-in.  Right after the check-in the same request is
    accepted with 201 and stored when the body carries both comments and
    suggestions; when either was left out the insert throws, the answer
    is 500 and nothing is stored. *)
Theorem checkin_opens_feedback (JSON_parse : string -> option qr_payload)
    (now : Z) (user : payload) (qr_data : string) (qr : qr_payload)
    (b : feedback_body) (d : database) :
  u_role user = "student"%string ->
  JSON_parse qr_data = Some qr ->
  existsb (qr_matches qr) (events d) = true ->
  existsb (attended (qr_event_id qr) (u_id user)) (attendance d) = false ->
  Feedback.validation_errors b = [] ->
  fb_event_id b = qr_event_id qr ->
  existsb (feedback_of (fb_event_id b) (u_id user)) (feedback d) = false ->
  post_feedback user b d =
    (d, respond_with 400
          (Error "Can only provide feedback for events you attended"))
  /\ let d1 := fst (post_qr_checkin JSON_parse now user qr_data d) in
     match fb_comments b, fb_suggestions b with
     | Some _, Some _ =>
         exists row,
           post_feedback user b d1 =
             (set_feedback d1 (feedback d1 ++ [row]),
              respond_with 201
                (FeedbackCreated "Feedback submitted successfully" (f_id row)))
           /\ f_event_id row = qr_event_id qr /\ f_student_id row = u_id user
           /\ f_rating row = fb_rating b
     | _, _ =>
         post_feedback user b d1 =
           (d1, respond_with 500 (Error "Failed to submit feedback"))
     end.
Proof.
  intros Hrole Hparse Hcode Hfresh Hvalid Hev Hnone. split.
  - unfold post_feedback. rewrite Hrole, Hvalid. run_handler.
    assert (Hno : filter (attended_in (fb_event_id b) (u_id user)
                            (u_college_id user)) (attendance d) = []).
    { rewrite Hev. rewrite existsb_filter_nonempty in Hfresh.
      induction (attendance d) as [|a l IH]; [reflexivity|].
      simpl in *. unfold attended_in.
      fold (attended (qr_event_id qr) (u_id user) a).
      destruct (attended (qr_event_id qr) (u_id user) a); [discriminate|].
      simpl. apply IH, Hfresh. }
    now rewrite Hno.
  - intros d1. subst d1.
    rewrite (AttendanceFacts.post_qr_checkin_run JSON_parse now user qr_data
               qr d Hrole Hparse), Hcode, Hfresh. cbn [fst].
    set (row := {| at_id := Sql.next_id (map at_id (attendance d));
                   at_event_id := qr_event_id qr; at_student_id := u_id user;
                   at_college_id := u_college_id user;
                   at_checked_in_at := now |}).
    assert (Hatt : existsb (attended_in (fb_event_id b) (u_id user)
                              (u_college_id user))
                     (attendance (set_attendance d (attendance d ++ [row])))
                   = true).
    { cbn [attendance set_attendance]. rewrite existsb_app. cbn [existsb].
      unfold attended_in at 2. unfold row.
      cbn [at_event_id at_student_id at_college_id].
      rewrite Hev, !Z.eqb_refl. cbn [andb orb]. apply orb_true_r. }
    rewrite (FeedbackNotesFacts.post_feedback_run user b _ Hrole Hvalid Hatt).
    cbn [feedback set_attendance]. rewrite Hnone.
    destruct (fb_comments b) as [c|], (fb_suggestions b) as [s|];
      try reflexivity.
    exists {| f_id := Sql.next_id (map f_id (feedback d));
              f_event_id := fb_event_id b; f_student_id := u_id user;
              f_college_id := u_college_id user; f_rating := fb_rating b;
              f_comments := c; f_suggestions := s;
              f_anonymous := match fb_anonymous b with
                             | Some a => a
                             | None => false
                             end |}.
    simpl. auto.
Qed.

(** X13: submissions and updates keep every stored rating between 1 and
    5, whoever sends them and whatever they carry. *)
Theorem ratings_stay_in_range (d : database) :
  ratings_in_range d ->
  (forall user b, ratings_in_range (fst (post_feedback user b d)))
  /\ (forall user id p, ratings_in_range (fst (put_feedback user id p d))).
Proof.
  intros Hd. split.
  - intros user b.
    destruct (post_feedback_cases user b d) as [-> | (row & -> & Hr & _)];
      [exact Hd|].
    intros f Hf. simpl in Hf. apply in_app_or in Hf.
    destruct Hf as [Hf | [<- | []]]; [now apply Hd | exact Hr].
  - intros user id p.
    destruct (put_feedback_cases user id p d) as [-> | (Hvalid & _ & ->)];
      [exact Hd|].
    intros f Hf. simpl in Hf. apply in_map_iff in Hf.
    destruct Hf as (f0 & <- & Hf0). specialize (Hd f0 Hf0).
    destruct (f_id f0 =? id); [|exact Hd].
    unfold apply_patch, or_keep. simpl.
    unfold FeedbackUpdate.validation_errors in Hvalid.
    destruct (p_rating p) as [r|]; [|exact Hd].
    destruct ((1 <=? r) && (r <=? 5)) eqn:Hr; [|discriminate].
    apply andb_true_iff in Hr. destruct Hr as [H1 H2].
    apply Z.leb_le in H1, H2. lia.
Qed.

(** X14: an update never changes which rows there are, nor the id,
    event, student or college of any row, nor any row with another id;
    and it changes the store only if a row with that id belongs to the
    caller. *)
Theorem update_touches_only_own_row (user : payload) (id : Z) (p : patch)
    (d : database) :
  let d' := fst (put_feedback user id p d) in
  map (fun f => (f_id f, f_event_id f, f_student_id f, f_college_id f)) (feedback d')
    = map (fun f => (f_id f, f_event_id f, f_student_id f, f_college_id f))
          (feedback d)
  /\ (forall f, In f (feedback d) -> f_id f <> id -> In f (feedback d'))
  /\ (d' <> d ->
      exists f, In f (feedback d) /\ f_id f = id
                /\ f_student_id f = u_id user
                /\ f_college_id f = u_college_id user).
Proof.
  intros d'. subst d'.
  destruct (put_feedback_cases user id p d) as [-> | (_ & Hown & ->)].
  - split; [reflexivity|]. split; [auto|]. intros H. now contradiction H.
  - cbn [feedback set_feedback]. split; [|split].
    + rewrite map_map. apply map_ext. intros f.
      destruct (f_id f =? id); reflexivity.
    + intros f Hf Hid. apply in_map_iff. exists f. split; [|exact Hf].
      apply Z.eqb_neq in Hid. now rewrite Hid.
    + intros _. apply existsb_exists in Hown. destruct Hown as (f & Hf & Hm).
      unfold owned in Hm. rewrite !andb_true_iff, !Z.eqb_eq in Hm.
      exists f. tauto.
Qed.

Lemma next_id_fresh (ids : list Z) (x : Z) : In x ids -> x < Sql.next_id ids.
Proof.
  unfold Sql.next_id. induction ids as [|y ids IH]; simpl; [intros []|].
  intros [<- | Hx]; [lia|]. specialize (IH Hx). lia.
Qed.

(** X15: the id a submission answers with is the handle of the new row: an
    update of the rating under that id rewrites that row and no other,
    and keeps its comments and suggestions. *)
Theorem submitted_feedback_can_be_updated (user : payload) (b : feedback_body)
    (c s : string) (r : Z) (d : database) :
  u_role user = "student"%string ->
  Feedback.validation_errors b = [] ->
  existsb (attended_in (fb_event_id b) (u_id user) (u_college_id user))
          (attendance d) = true ->
  existsb (feedback_of (fb_event_id b) (u_id user)) (feedback d) = false ->
  fb_comments b = Some c ->
  fb_suggestions b = Some s ->
  1 <= r <= 5 ->
  let new_id := Sql.next_id (map f_id (feedback d)) in
  let only_rating := {| p_rating := Some r; p_comments := None;
                        p_suggestions := None; p_anonymous := None |} in
  snd (post_feedback user b d) =
    respond_with 201 (FeedbackCreated "Feedback submitted successfully" new_id)
  /\ put_feedback user new_id only_rating (fst (post_feedback user b d)) =
       (set_feedback d
          (feedback d ++
             [{| f_id := new_id; f_event_id := fb_event_id b;
                 f_student_id := u_id user; f_college_id := u_college_id user;
                 f_rating := r; f_comments := c; f_suggestions := s;
                 f_anonymous := match fb_anonymous b with
                                | Some a => a
                                | None => false
                                end |}]),
        respond_with 200 (Message "Feedback updated successfully")).
Proof.
  intros Hrole Hvalid Hatt Hnone Hc Hs Hr new_id only_rating.
  rewrite (FeedbackNotesFacts.post_feedback_run user b d Hrole Hvalid Hatt).
  rewrite Hnone, Hc, Hs. cbn [fst snd]. split; [reflexivity|].
  assert (Hp : FeedbackUpdate.validation_errors only_rating = []).
  { unfold FeedbackUpdate.validation_errors, only_rating. simpl.
    destruct Hr as [H1 H2]. apply Z.leb_le in H1, H2. now rewrite H1, H2. }
  rewrite (put_feedback_run user new_id only_rating _ Hrole Hp).
  cbn [feedback set_feedback]. rewrite existsb_app. cbn [existsb].
  unfold owned at 2. cbn [f_id f_student_id f_college_id].
  rewrite !Z.eqb_refl. cbn [andb orb]. rewrite orb_true_r.
  cbn [no_updates only_rating p_rating].
  f_equal. unfold set_feedback. cbn. f_equal.
  rewrite map_app. cbn [map f_id]. rewrite Z.eqb_refl. f_equal.
  rewrite <- (map_id (feedback d)) at 2. apply map_ext_in.
  intros f Hf. assert (Hlt : f_id f < new_id).
  { apply next_id_fresh. now apply in_map. }
  destruct (Z.eqb_spec (f_id f) new_id); [lia | reflexivity].
Qed.

(** Student 2 rates event 10 before and after scanning its code: with
    comments and suggestions, and with the rating alone. *)
Lemma checkin_opens_feedback_witness :
  let user := Sample.as_student 2 1 in
  let bare := {| fb_event_id := 10; fb_rating := 5; fb_comments := None;
                 fb_suggestions := None; fb_anonymous := None |} in
  let d1 := fst (post_qr_checkin Sample.qr_of 100 user "good" Sample.campus) in
  post_feedback user Sample.five_stars Sample.campus =
    (Sample.campus,
     respond_with 400 (Error "Can only provide feedback for events you attended"))
  /\ (exists row,
        post_feedback user Sample.five_stars d1 =
          (set_feedback d1 (feedback d1 ++ [row]),
           respond_with 201
             (FeedbackCreated "Feedback submitted successfully" (f_id row)))
        /\ f_event_id row = 10 /\ f_student_id row = 2 /\ f_rating row = 5)
  /\ post_feedback user bare d1 =
       (d1, respond_with 500 (Error "Failed to submit feedback")).
Proof.
  intros user bare d1.
  pose proof (checkin_opens_feedback Sample.qr_of 100 user "good"%string
                {| qr_event_id := 10; qr_secret := "s3cret"; qr_college_id := 1 |}
                Sample.five_stars Sample.campus
                eq_refl eq_refl eq_refl eq_refl eq_refl eq_refl eq_refl)
    as [Hbefore Hfull].
  pose proof (checkin_opens_feedback Sample.qr_of 100 user "good"%string
                {| qr_event_id := 10; qr_secret := "s3cret"; qr_college_id := 1 |}
                bare Sample.campus
                eq_refl eq_refl eq_refl eq_refl eq_refl eq_refl eq_refl)
    as [_ Hbare].
  split; [exact Hbefore|]. split; [exact Hfull | exact Hbare].
Defined.

Lemma ratings_stay_in_range_witness :
  Invariant.ratings_in_range
    (fst (put_feedback (Sample.as_student 1 1) 1
            {| p_rating := Some 5; p_comments := None; p_suggestions := None;
               p_anonymous := None |}
            Sample.campus_attended)).
Proof.
  apply (ratings_stay_in_range Sample.campus_attended).
  intros f [<- | []]. simpl. lia.
Defined.

(** Student 2 checks in, rates event 10 with 5 and then lowers it to 2. *)
Lemma submitted_feedback_can_be_updated_witness :
  let d1 := fst (post_qr_checkin Sample.qr_of 100 (Sample.as_student 2 1)
                   "good" Sample.campus) in
  let d2 := fst (post_feedback (Sample.as_student 2 1) Sample.five_stars d1) in
  map f_rating
      (feedback (fst (put_feedback (Sample.as_student 2 1) 1
                        {| p_rating := Some 2; p_comments := None;
                           p_suggestions := None; p_anonymous := None |} d2)))
    = [2].
Proof.
  intros d1 d2.
  destruct (submitted_feedback_can_be_updated (Sample.as_student 2 1)
              Sample.five_stars "great"%string "more"%string 2 d1
              eq_refl eq_refl eq_refl eq_refl eq_refl eq_refl)
    as [_ Hput]; [lia|].
  exact (f_equal (fun x => map f_rating (feedback (fst x))) Hput).
Defined.

End FeedbackLifeFacts.

(** ** Notes over their life *)

Module NotesLifeFacts.

Import Registration Notes NotesRead Invariant.

Lemma filter_none {A : Type} (p : A -> bool) (l : list A) :
  existsb p l = false -> filter p l = [].
Proof.
  rewrite existsb_filter_nonempty. destruct (filter p l); [auto | discriminate].
Qed.

(** Whatever the request, a note submission stores nothing, appends a
    note for a pair that had none, or rewrites notes in place. *)
Lemma post_note_cases (now : Z) (user : payload) (e : Z) (content : string)
    (d : database) :
  fst (post_note now user e content d) = d
  \/ (existsb (note_of e (u_id user)) (notes d) = false
      /\ exists row,
           fst (post_note now user e content d) = set_notes d (notes d ++ [row])
           /\ n_event_id row = e /\ n_student_id row = u_id user)
  \/ exists upd,
       fst (post_note now user e content d) = set_notes d (map upd (notes d))
       /\ forall n, n_event_id (upd n) = n_event_id n
                    /\ n_student_id (upd n) = n_student_id n.
Proof.
  destruct (String.eqb_spec (u_role user) "student") as [Hrole|Hrole].
  - destruct (Notes.validation_errors content) as [|x l] eqn:Hvalid.
    + destruct (existsb (registered_in e (u_id user) (u_college_id user))
                        (registrations d)) eqn:Hreg.
      * rewrite (FeedbackNotesFacts.post_note_run now user e content d
                   Hrole Hvalid Hreg).
        destruct (existsb (note_of e (u_id user)) (notes d)) eqn:Hex.
        -- right. right. eexists. split; [reflexivity|].
           intros n. cbv beta. destruct (note_of e (u_id user) n); simpl; auto.
        -- right. left. split; [reflexivity|]. eexists.
           split; [reflexivity|]. auto.
      * left. unfold post_note. rewrite Hrole, Hvalid. run_handler.
        now rewrite (filter_none _ _ Hreg).
    + left. unfold post_note. rewrite Hrole, Hvalid. reflexivity.
  - left. unfold post_note. apply String.eqb_neq in Hrole. now rewrite Hrole.
Qed.

(** X16: a student's note for an event reads back as written: nothing
    before the first submission, the submitted text after it, and after a
    second submission the new text, still in one row. *)
Theorem note_reads_back (now later : Z) (user : payload) (e : Z)
    (c1 c2 : string) (d : database) :
  u_role user = "student"%string ->
  Notes.validation_errors c1 = [] ->
  Notes.validation_errors c2 = [] ->
  existsb (registered_in e (u_id user) (u_college_id user)) (registrations d) = true ->
  existsb (note_of e (u_id user)) (notes d) = false ->
  let d1 := fst (post_note now user e c1 d) in
  let d2 := fst (post_note later user e c2 d1) in
  get_note user e d = (d, Served 200 None)
  /\ (exists n, get_note user e d1 = (d1, Served 200 (Some n))
                /\ n_content n = c1 /\ n_updated_at n = now)
  /\ (exists n, get_note user e d2 = (d2, Served 200 (Some n))
                /\ n_content n = c2 /\ n_updated_at n = later)
  /\ length (notes d2) = S (length (notes d)).
Proof.
  intros Hrole Hv1 Hv2 Hreg Hnone d1 d2.
  pose proof (filter_none _ _ Hnone) as Hfilter.
  assert (Hget : forall d0, get_note user e d0 =
            (d0, Served 200 (hd_error (filter (note_of e (u_id user)) (notes d0))))).
  { intros d0. unfold get_note. rewrite Hrole. reflexivity. }
  assert (Hd1 : d1 = set_notes d
                  (notes d ++
                     [{| n_id := Sql.next_id (map n_id (notes d));
                         n_event_id := e; n_student_id := u_id user;
                         n_content := c1; n_updated_at := now |}])).
  { unfold d1.
    rewrite (FeedbackNotesFacts.post_note_run now user e c1 d Hrole Hv1 Hreg).
    now rewrite Hnone. }
  assert (Hex1 : existsb (note_of e (u_id user)) (notes d1) = true).
  { rewrite Hd1. cbn [notes set_notes]. rewrite existsb_app. cbn [existsb].
    unfold note_of at 2. cbn [n_event_id n_student_id].
    rewrite !Z.eqb_refl. apply orb_true_r. }
  assert (Hd2 : d2 = set_notes d1
                  (map (fun n =>
                          if note_of e (u_id user) n
                          then {| n_id := n_id n; n_event_id := n_event_id n;
                                  n_student_id := n_student_id n;
                                  n_content := c2; n_updated_at := later |}
                          else n)
                       (notes d1))).
  { unfold d2.
    assert (Hreg1 : existsb (registered_in e (u_id user) (u_college_id user))
                      (registrations d1) = true).
    { rewrite Hd1. exact Hreg. }
    rewrite (FeedbackNotesFacts.post_note_run later user e c2 d1 Hrole Hv2 Hreg1).
    now rewrite Hex1. }
  assert (Hkeep : forall l, filter (note_of e (u_id user)) l = [] ->
            map (fun n =>
                   if note_of e (u_id user) n
                   then {| n_id := n_id n; n_event_id := n_event_id n;
                           n_student_id := n_student_id n;
                           n_content := c2; n_updated_at := later |}
                   else n) l = l).
  { induction l as [|n l IH]; [reflexivity|]. simpl.
    destruct (note_of e (u_id user) n); [discriminate|].
    intros H. now rewrite IH. }
  assert (Hmine : forall i c t,
            note_of e (u_id user)
              {| n_id := i; n_event_id := e; n_student_id := u_id user;
                 n_content := c; n_updated_at := t |} = true).
  { intros i c t. unfold note_of. simpl. now rewrite !Z.eqb_refl. }
  split; [rewrite Hget, Hfilter; reflexivity|].
  split; [|split].
  - eexists. rewrite Hget, Hd1. cbn [notes set_notes].
    rewrite filter_app, Hfilter. cbn [filter app]. rewrite Hmine.
    cbn [hd_error]. auto.
  - eexists. rewrite Hget, Hd2, Hd1. cbn [notes set_notes].
    rewrite map_app, (Hkeep _ Hfilter). cbn [map]. rewrite Hmine.
    rewrite filter_app, Hfilter. cbn [filter app n_id n_event_id n_student_id].
    rewrite Hmine. cbn [hd_error]. auto.
  - rewrite Hd2, Hd1. cbn [notes set_notes].
    rewrite length_map, length_app. simpl. lia.
Qed.

(** X17: note submissions, whoever sends them and whatever they carry,
    never leave two notes for one (event, student). *)
Theorem notes_stay_one_per_pair (now : Z) (user : payload) (e : Z)
    (content : string) (d : database) :
  one_note_per_pair d ->
  one_note_per_pair (fst (post_note now user e content d)).
Proof.
  intros Hd. unfold one_note_per_pair in *.
  destruct (post_note_cases now user e content d)
    as [-> | [(Hnone & row & -> & He & Hs) | (upd & -> & Hkeys)]].
  - exact Hd.
  - cbn [notes set_notes]. rewrite map_app. cbn [map].
    apply NoDup_app; [exact Hd | constructor; [intros [] | constructor] |].
    intros p Hp [<- | []]. apply in_map_iff in Hp.
    destruct Hp as (n & Hn & Hin). rewrite He, Hs in Hn. injection Hn as H1 H2.
    assert (H : existsb (note_of e (u_id user)) (notes d) = true).
    { apply existsb_exists. exists n. split; [exact Hin|].
      unfold note_of. now rewrite H1, H2, !Z.eqb_refl. }
    congruence.
  - cbn [notes set_notes]. rewrite map_map.
    erewrite map_ext; [exact Hd|]. intros n. simpl.
    destruct (Hkeys n) as [-> ->]. reflexivity.
Qed.

(** X18: notes on an event are refused to a student without a
    registration row for it and accepted right after the registration
    went through, whether it left the student registered or waitlisted. *)
Theorem registration_opens_notes (now : Z) (user : payload) (e : Z)
    (content : string) (d : database) (ev : event) (rest : list event) :
  u_role user = "student"%string ->
  filter (event_in_college e (u_college_id user)) (events d) = ev :: rest ->
  existsb (same_pair e (u_id user)) (registrations d) = false ->
  Notes.validation_errors content = [] ->
  existsb (note_of e (u_id user)) (notes d) = false ->
  post_note now user e content d =
    (d, respond_with 400
          (Error "Can only create notes for events you are registered for"))
  /\ snd (post_note now user e content (fst (post_registration user e d))) =
       respond_with 200 (Message "Note created successfully").
Proof.
  intros Hrole Hev Hfree Hvalid Hnone. split.
  - unfold post_note. rewrite Hrole, Hvalid. run_handler.
    assert (Hno : filter (registered_in e (u_id user) (u_college_id user))
                    (registrations d) = []).
    { rewrite existsb_filter_nonempty in Hfree.
      induction (registrations d) as [|r l IH]; [reflexivity|].
      simpl in *. unfold registered_in.
      fold (same_pair e (u_id user) r).
      destruct (same_pair e (u_id user) r); [discriminate|].
      simpl. apply IH, Hfree. }
    now rewrite Hno.
  - assert (Hrun : exists st pos,
               fst (post_registration user e d) =
                 set_registrations d
                   (registrations d ++
                      [new_registration d (u_college_id user) e (u_id user)
                         st pos])).
    { destruct (Js.ge (Sql.count (for_event e registered) (registrations d))
                      (e_max_participants ev)) eqn:Hge.
      - eexists waitlisted, _.
        rewrite (RegistrationFacts.post_registration_run user e d ev rest _ _
                   Hrole Hev (RegistrationFacts.decide_waitlisted _ _ _ Hge)).
        now rewrite Hfree.
      - exists registered, None.
        rewrite (RegistrationFacts.post_registration_run user e d ev rest _ _
                   Hrole Hev (RegistrationFacts.decide_registered _ _ _ Hge)).
        now rewrite Hfree. }
    destruct Hrun as (st & pos & ->).
    rewrite (FeedbackNotesFacts.post_note_run now user e content _ Hrole Hvalid).
    + cbn [notes set_registrations]. now rewrite Hnone.
    + cbn [registrations set_registrations]. rewrite existsb_app.
      cbn [existsb]. unfold registered_in at 2, new_registration.
      cbn [r_event_id r_student_id r_college_id].
      rewrite !Z.eqb_refl. apply orb_true_r.
Qed.

(** Student 1, registered for event 10, writes a note and rewrites it. *)
Lemma note_reads_back_witness :
  let user := Sample.as_student 1 1 in
  let d1 := fst (post_note 100 user 10 "bring laptop" Sample.campus_registered) in
  let d2 := fst (post_note 200 user 10 "bring charger" d1) in
  get_note user 10 Sample.campus_registered
    = (Sample.campus_registered, Served 200 None)
  /\ exists n, get_note user 10 d2 = (d2, Served 200 (Some n))
               /\ n_content n = "bring charger"%string.
Proof.
  intros user d1 d2.
  destruct (note_reads_back 100 200 user 10 "bring laptop" "bring charger"
              Sample.campus_registered eq_refl eq_refl eq_refl eq_refl eq_refl)
    as (Hnone & _ & (n & Hget & Hcontent & _) & _).
  split; [exact Hnone|]. exists n. split; [exact Hget | exact Hcontent].
Defined.

Lemma notes_stay_one_per_pair_witness :
  Invariant.one_note_per_pair
    (fst (post_note 100 (Sample.as_student 1 1) 10 "again" Sample.campus_attended)).
Proof.
  apply notes_stay_one_per_pair.
  unfold Invariant.one_note_per_pair. simpl.
  constructor; [intros [] | constructor].
Defined.

(** Student 4 ends on the waitlist of event 10 and may take notes on it. *)
Lemma registration_opens_notes_witness :
  post_note 100 (Sample.as_student 4 1) 10 "agenda" Sample.campus_full =
    (Sample.campus_full,
     respond_with 400
       (Error "Can only create notes for events you are registered for"))
  /\ snd (post_note 100 (Sample.as_student 4 1) 10 "agenda"
            (fst (post_registration (Sample.as_student 4 1) 10 Sample.campus_full)))
     = respond_with 200 (Message "Note created successfully").
Proof.
  apply (registration_opens_notes 100 (Sample.as_student 4 1) 10 "agenda"
           Sample.campus_full
           (Sample.an_event 10 1 (Some 2) (Some "s3cret"%string)) []);
    reflexivity.
Defined.

End NotesLifeFacts.

(** ** Accounts: registering, logging in, passing the guards *)

Module AccountFacts.

Import Login Registering LoginAnswers.

Lemma account_row_student (i c : Z) (d : database) :
  account_row {| u_id := i; u_college_id := c; u_role := "student" |} d =
    match select_student i d with
    | [] => None
    | s :: _ => Some (s_college_id s, s_is_active s)
    end.
Proof. reflexivity. Qed.

Lemma account_row_admin (i c : Z) (d : database) :
  account_row {| u_id := i; u_college_id := c; u_role := "admin" |} d =
    match select_admin i d with
    | [] => None
    | a :: _ => Some (a_college_id a, a_is_active a)
    end.
Proof. reflexivity. Qed.

Section Accounts.

Variable bcrypt_compare : string -> string -> bool.
Variable bcrypt_hash : string -> string.
Variable isEmail : string -> bool.
Variable colleges : list Z.

(** Login, once the validators are passed: the first admin row with the
    address, else the first student row, decides. *)
Lemma post_login_run (now : Z) (email password : string) (d : database) :
  Login.validation_errors isEmail email password = [] ->
  post_login bcrypt_compare isEmail now email password d =
    (d, match admins_by_email email d, students_by_email email d with
        | a :: _, _ =>
            if bcrypt_compare password (row_password_hash a)
            then logged_in now a "admin" else invalid_credentials
        | [], s :: _ =>
            if bcrypt_compare password (row_password_hash s)
            then logged_in now s "student" else invalid_credentials
        | [], [] => invalid_credentials
        end).
Proof.
  intros Hvalid. unfold post_login, find_user. rewrite Hvalid. run_handler.
  destruct (admins_by_email email d) as [|a l]; simpl.
  - destruct (students_by_email email d) as [|s l]; simpl; [reflexivity|].
    destruct (bcrypt_compare password (row_password_hash s)); reflexivity.
  - destruct (bcrypt_compare password (row_password_hash a)); reflexivity.
Qed.

Lemma login_token_form (now : Z) (email password : string) (d : database)
    (message : string) (token : jwt) (i : Z) (em role : string) :
  body (snd (post_login bcrypt_compare isEmail now email password d))
    = LoggedIn message token i em role ->
  exists p, token = jwt_sign now p.
Proof.
  unfold post_login, find_user.
  destruct (Login.validation_errors isEmail email password); [|discriminate].
  run_handler.
  destruct (admins_by_email email d) as [|a l]; simpl.
  - destruct (students_by_email email d) as [|st l]; simpl; [discriminate|].
    destruct (bcrypt_compare password (row_password_hash st)); simpl;
      [|discriminate].
    intros H. injection H as _ <- _ _ _. eexists. reflexivity.
  - destruct (bcrypt_compare password (row_password_hash a)); simpl;
      [|discriminate].
    intros H. injection H as _ <- _ _ _. eexists. reflexivity.
Qed.

(** X19: the token of a login opens [authenticateToken] for one day: at
    every time before the login time plus 86400 seconds the request goes
    on with the payload of the token, and from then on it is answered 403
    without going on. *)
Theorem login_token_lasts_one_day (now : Z) (email password : string)
    (d : database) (message : string) (token : jwt) (i : Z) (em role : string) :
  body (snd (post_login bcrypt_compare isEmail now email password d))
    = LoggedIn message token i em role ->
  forall (later : Z) (next : payload -> Handler) (d' : database),
    (later < now + 86400 ->
     authenticateToken later (Some token) next d' = next (jwt_payload token) d')
    /\ (now + 86400 <= later ->
        authenticateToken later (Some token) next d' =
          (d', respond_with 403 (Error "Invalid or expired token"))).
Proof.
  intros Hbody later next d'.
  destruct (login_token_form _ _ _ _ _ _ _ _ _ Hbody) as [p ->].
  unfold authenticateToken, jwt_verify, jwt_sign. simpl. split; intros H.
  - apply Z.ltb_lt in H. now rewrite H.
  - apply Z.ltb_ge in H. now rewrite H.
Qed.

(** X20: login never writes, and it fails in one way only: an address
    that no account has and a password that does not match the hash of the
    account chosen for the address get the same 401. *)
Theorem login_failures_look_alike (now : Z) (email password : string)
    (d : database) :
  Login.validation_errors isEmail email password = [] ->
  fst (post_login bcrypt_compare isEmail now email password d) = d
  /\ (admins_by_email email d = [] -> students_by_email email d = [] ->
      snd (post_login bcrypt_compare isEmail now email password d)
      = invalid_credentials)
  /\ (forall row,
        hd_error (admins_by_email email d ++ students_by_email email d) = Some row ->
        bcrypt_compare password (row_password_hash row) = false ->
        snd (post_login bcrypt_compare isEmail now email password d)
        = invalid_credentials).
Proof.
  intros Hvalid. rewrite (post_login_run now email password d Hvalid).
  split; [reflexivity|]. split.
  - intros -> ->. reflexivity.
  - intros row Hrow Hpw. cbn [snd].
    destruct (admins_by_email email d) as [|a l]; simpl in Hrow.
    + destruct (students_by_email email d) as [|s l]; [discriminate|].
      injection Hrow as ->. now rewrite Hpw.
    + injection Hrow as ->. now rewrite Hpw.
Qed.

(** X21: login does not look at [is_active]: a deactivated student with
    the right password gets a token, and that token is then turned away
    by the guard of every guarded route. *)
Theorem inactive_student_logs_in_for_nothing (now : Z) (email password : string)
    (d : database) (s : student) (by_email by_id : list student) :
  Login.validation_errors isEmail email password = [] ->
  admins_by_email email d = [] ->
  filter (fun s => String.eqb (s_email s) email) (students d) = s :: by_email ->
  select_student (s_id s) d = s :: by_id ->
  bcrypt_compare password (s_password_hash s) = true ->
  Js.truthy (s_is_active s) = false ->
  snd (post_login bcrypt_compare isEmail now email password d)
    = logged_in now (of_student s) "student"
  /\ forall (later : Z) (next : payload -> Handler),
       later < now + 86400 ->
       authenticateToken later
         (Some (jwt_sign now {| u_id := s_id s; u_college_id := s_college_id s;
                                u_role := "student" |}))
         (fun decoded => requireSameCollege (Some decoded) next) d
       = (d, respond_with 403 (Error "Student account not found or inactive")).
Proof.
  intros Hvalid Hadm Hstu Hid Hpw Hinactive. split.
  - rewrite (post_login_run now email password d Hvalid), Hadm.
    unfold students_by_email. rewrite Hstu. cbn [map snd of_student row_password_hash].
    now rewrite Hpw.
  - intros later next Hlater. unfold authenticateToken, jwt_verify, jwt_sign.
    cbn [jwt_signed jwt_exp jwt_payload]. apply Z.ltb_lt in Hlater.
    rewrite Hlater. cbn [andb].
    rewrite GuardFacts.requireSameCollege_known by (right; right; reflexivity).
    rewrite account_row_student, Hid, Hinactive. reflexivity.
Qed.

Lemma post_register_admin_run (email password first_name last_name : string)
    (college_id : Z) (d : database) :
  Registering.validation_errors isEmail email password first_name last_name = [] ->
  post_register_admin bcrypt_hash isEmail colleges email password first_name
    last_name college_id d =
    if existsb (fun a => String.eqb (a_email a) email) (admins d)
       || negb (existsb (Z.eqb college_id) colleges)
    then (d, Refused (respond_with 500 (Error "Failed to register admin")))
    else (set_admins d
            (admins d ++
               [{| a_id := Sql.next_id (map a_id (admins d));
                   a_college_id := college_id; a_email := email;
                   a_password_hash := bcrypt_hash password; a_role := "admin";
                   a_is_active := Some 1 |}]),
          Served 201 ("Admin registered successfully"%string,
                      Sql.next_id (map a_id (admins d)))).
Proof.
  intros Hvalid. unfold post_register_admin. rewrite Hvalid.
  unfold try_serve, bind, execute, ret, insert_admin.
  destruct (existsb _ (admins d)); [reflexivity|].
  destruct (existsb (Z.eqb college_id) colleges); reflexivity.
Qed.

Lemma register_validation_covers_login (email password first_name last_name : string) :
  Registering.validation_errors isEmail email password first_name last_name = [] ->
  Login.validation_errors isEmail email password = [].
Proof.
  unfold Registering.validation_errors, Login.validation_errors.
  destruct (isEmail email); [|discriminate]. simpl.
  destruct password; [discriminate | reflexivity].
Qed.

(** X22: whoever registers as admin, without any credential, for an
    existing college and an address no admin has, can log in at once with
    that address and password, as an admin of that college, also when a
    student holds the same address. *)
Theorem registered_admin_can_log_in (email password first_name last_name : string)
    (college_id : Z) (d : database) :
  Registering.validation_errors isEmail email password first_name last_name = [] ->
  existsb (fun a => String.eqb (a_email a) email) (admins d) = false ->
  existsb (Z.eqb college_id) colleges = true ->
  bcrypt_compare password (bcrypt_hash password) = true ->
  let new_id := Sql.next_id (map a_id (admins d)) in
  let d1 := fst (post_register_admin bcrypt_hash isEmail colleges email password
                   first_name last_name college_id d) in
  snd (post_register_admin bcrypt_hash isEmail colleges email password
         first_name last_name college_id d)
    = Served 201 ("Admin registered successfully"%string, new_id)
  /\ forall now,
       snd (post_login bcrypt_compare isEmail now email password d1) =
         respond_with 200
           (LoggedIn "Login successful"
              (jwt_sign now {| u_id := new_id; u_college_id := college_id;
                               u_role := "admin" |})
              new_id email "admin").
Proof.
  intros Hvalid Hfree Hcollege Hhash new_id d1. subst d1.
  rewrite (post_register_admin_run _ _ _ _ _ d Hvalid), Hfree, Hcollege.
  cbn [orb negb fst snd]. split; [reflexivity|]. intros now.
  rewrite (post_login_run now email password _
             (register_validation_covers_login _ _ _ _ Hvalid)).
  unfold admins_by_email. cbn [admins set_admins].
  rewrite filter_app, (NotesLifeFacts.filter_none _ _ Hfree).
  cbn [filter app a_email]. rewrite String.eqb_refl.
  cbn [map of_admin row_password_hash a_password_hash snd].
  rewrite Hhash. reflexivity.
Qed.

(** X23: an address registers one admin: once a registration went
    through, every further one with that address, whatever else it
    carries, is answered 500 and leaves the store as it is. *)
Theorem registered_address_is_taken
    (email password first_name last_name : string) (college_id : Z)
    (password' first_name' last_name' : string) (college_id' : Z) (d : database) :
  Registering.validation_errors isEmail email password first_name last_name = [] ->
  Registering.validation_errors isEmail email password' first_name' last_name' = [] ->
  existsb (fun a => String.eqb (a_email a) email) (admins d) = false ->
  existsb (Z.eqb college_id) colleges = true ->
  let d1 := fst (post_register_admin bcrypt_hash isEmail colleges email password
                   first_name last_name college_id d) in
  post_register_admin bcrypt_hash isEmail colleges email password'
    first_name' last_name' college_id' d1
  = (d1, Refused (respond_with 500 (Error "Failed to register admin"))).
Proof.
  intros Hvalid Hvalid' Hfree Hcollege d1. subst d1.
  rewrite (post_register_admin_run _ _ _ _ _ d Hvalid), Hfree, Hcollege.
  cbn [orb negb fst].
  rewrite (post_register_admin_run _ _ _ _ _ _ Hvalid').
  cbn [admins set_admins]. rewrite existsb_app. cbn [existsb a_email].
  rewrite String.eqb_refl. cbn [orb]. rewrite orb_true_r. reflexivity.
Qed.

(** X24: the token of an admin's login, while the account is active,
    takes each report route through its three guards to the handler, with
    the college of the admins row; the role column of that row is not
    looked at. *)
Theorem admin_login_opens_reports (now : Z) (email password : string)
    (d : database) (a : admin) (by_email by_id : list admin) :
  Login.validation_errors isEmail email password = [] ->
  filter (fun a => String.eqb (a_email a) email) (admins d) = a :: by_email ->
  select_admin (a_id a) d = a :: by_id ->
  bcrypt_compare password (a_password_hash a) = true ->
  Js.truthy (a_is_active a) = true ->
  snd (post_login bcrypt_compare isEmail now email password d)
    = logged_in now (of_admin a) "admin"
  /\ forall (ep : Reports.endpoint) (later : Z),
       later < now + 86400 ->
       Reports.route ep later
         (Some (jwt_sign now {| u_id := a_id a; u_college_id := a_college_id a;
                                u_role := "admin" |})) d
       = Reports.handler ep {| u_id := a_id a; u_college_id := a_college_id a;
                               u_role := "admin" |} d.
Proof.
  intros Hvalid Hemail Hid Hpw Hactive. split.
  - rewrite (post_login_run now email password d Hvalid).
    unfold admins_by_email. rewrite Hemail.
    cbn [map snd of_admin row_password_hash]. now rewrite Hpw.
  - intros ep later Hlater. rewrite ReportsFacts.route_run.
    unfold jwt_verify, jwt_sign. cbn [jwt_signed jwt_exp jwt_payload].
    apply Z.ltb_lt in Hlater. rewrite Hlater. cbn [andb u_role].
    change (String.eqb "admin" "admin") with true. cbv iota.
    rewrite account_row_admin, Hid, Hactive. reflexivity.
Qed.

End Accounts.

(** The admin of college 1 logs in at time 100: the token is refused at
    time 86500. *)
Lemma login_token_lasts_one_day_witness :
  let token := jwt_sign 100 {| u_id := 1; u_college_id := 1; u_role := "admin" |} in
  authenticateToken 86499 (Some token)
    (fun u => reply 200 (Message "in")) Sample.campus
    = (Sample.campus, respond_with 200 (Message "in"))
  /\ authenticateToken 86500 (Some token)
       (fun u => reply 200 (Message "in")) Sample.campus
     = (Sample.campus, respond_with 403 (Error "Invalid or expired token")).
Proof.
  intros token.
  pose proof (login_token_lasts_one_day Sample.compare_hash Sample.has_at_sign
                100 "root@c1.edu" "a" Sample.campus "Login successful" token
                1 "root@c1.edu" "admin" eq_refl) as H.
  split.
  - apply (proj1 (H 86499 (fun u => reply 200 (Message "in")) Sample.campus)).
    reflexivity.
  - apply (proj2 (H 86500 (fun u => reply 200 (Message "in")) Sample.campus)).
    discriminate.
Defined.

(** An unknown address, and a known address with a wrong password. *)
Lemma login_failures_look_alike_witness :
  snd (post_login Sample.compare_hash Sample.has_at_sign 100 "nobody@c1.edu" "a"
         Sample.campus)
  = snd (post_login Sample.compare_hash Sample.has_at_sign 100 "root@c1.edu" "b"
           Sample.campus).
Proof.
  destruct (login_failures_look_alike Sample.compare_hash Sample.has_at_sign
              100 "nobody@c1.edu" "a" Sample.campus eq_refl) as (_ & Hnone & _).
  destruct (login_failures_look_alike Sample.compare_hash Sample.has_at_sign
              100 "root@c1.edu" "b" Sample.campus eq_refl) as (_ & _ & Hwrong).
  rewrite (Hnone eq_refl eq_refl).
  rewrite (Hwrong _ eq_refl eq_refl). reflexivity.
Defined.

(** The deactivated student 6 logs in and is turned away. *)
Lemma inactive_student_logs_in_for_nothing_witness :
  status (snd (post_login Sample.compare_hash Sample.has_at_sign 100
                 "f@c1.edu" "s" Sample.campus)) = 200
  /\ Registration.route 200
       (Some (jwt_sign 100 {| u_id := 6; u_college_id := 1; u_role := "student" |}))
       10 Sample.campus
     = (Sample.campus,
        respond_with 403 (Error "Student account not found or inactive")).
Proof.
  destruct (inactive_student_logs_in_for_nothing Sample.compare_hash
              Sample.has_at_sign 100 "f@c1.edu" "s" Sample.campus
              (Sample.a_student 6 1 "f@c1.edu" (Some 0)) [] []
              eq_refl eq_refl eq_refl eq_refl eq_refl eq_refl) as [Hin Hout].
  split; [now rewrite Hin|].
  apply (Hout 200 (fun user => Registration.post_registration user 10)).
  reflexivity.
Defined.

(** A newcomer registers as admin of college 1 and logs in. *)
Lemma registered_admin_can_log_in_witness :
  let d1 := fst (post_register_admin (String.append "hash-") Sample.has_at_sign
                   [1; 2] "new@c1.edu" "secret" "Nia" "Ahn" 1 Sample.campus) in
  snd (post_login Sample.compare_hash Sample.has_at_sign 100 "new@c1.edu" "secret"
         d1)
  = respond_with 200
      (LoggedIn "Login successful"
         (jwt_sign 100 {| u_id := 3; u_college_id := 1; u_role := "admin" |})
         3 "new@c1.edu" "admin").
Proof.
  intros d1.
  destruct (registered_admin_can_log_in Sample.compare_hash
              (String.append "hash-") Sample.has_at_sign [1; 2]
              "new@c1.edu" "secret" "Nia" "Ahn" 1 Sample.campus
              eq_refl eq_refl eq_refl eq_refl) as [_ Hlogin].
  exact (Hlogin 100).
Defined.

Lemma registered_address_is_taken_witness :
  let d1 := fst (post_register_admin (String.append "hash-") Sample.has_at_sign
                   [1; 2] "new@c1.edu" "secret" "Nia" "Ahn" 1 Sample.campus) in
  post_register_admin (String.append "hash-") Sample.has_at_sign [1; 2]
    "new@c1.edu" "another" "Noa" "Ahn" 2 d1
  = (d1, Refused (respond_with 500 (Error "Failed to register admin"))).
Proof.
  apply (registered_address_is_taken (String.append "hash-") Sample.has_at_sign
           [1; 2] "new@c1.edu" "secret" "Nia" "Ahn" 1 "another" "Noa" "Ahn" 2
           Sample.campus); reflexivity.
Defined.

(** The admin of college 1 logs in at time 100 and reads the popularity
    report at time 200. *)
Lemma admin_login_opens_reports_witness :
  Reports.route Reports.EventPopularity 200
    (Some (jwt_sign 100 {| u_id := 1; u_college_id := 1; u_role := "admin" |}))
    Sample.campus_full
  = Reports.handler Reports.EventPopularity
      {| u_id := 1; u_college_id := 1; u_role := "admin" |} Sample.campus_full.
Proof.
  destruct (admin_login_opens_reports Sample.compare_hash Sample.has_at_sign
              100 "root@c1.edu" "a" Sample.campus_full
              (Sample.an_admin 1 1 "root@c1.edu" (Some 1)) [] []
              eq_refl eq_refl eq_refl eq_refl eq_refl) as [_ Hroute].
  apply (Hroute Reports.EventPopularity 200). reflexivity.
Defined.

End AccountFacts.

(** ** The guards at their edges *)

Module GuardEdgeFacts.

(** X25: the routes behind [requireRole(['admin'])], the three reports
    and the marking by hand, answer 403 "Insufficient permissions" to every
    verified credential whose role is not exactly admin, a student's and a
    super_admin's alike, before any account row is read and without
    touching the store. *)
Theorem admin_routes_refuse_other_roles (now : Z) (t : jwt) (user : payload)
    (d : database) :
  jwt_verify now t = Some user ->
  u_role user <> "admin"%string ->
  (forall ep, Reports.route ep now (Some t) d =
                (d, respond_with 403 (Error "Insufficient permissions")))
  /\ (forall e s, Marking.route_manual now (Some t) e s d =
                    (d, respond_with 403 (Error "Insufficient permissions"))).
Proof.
  intros Hverify Hrole. apply String.eqb_neq in Hrole. split.
  - intros ep. rewrite ReportsFacts.route_run, Hverify. now rewrite Hrole.
  - intros e s. unfold Marking.route_manual, authenticateToken.
    rewrite Hverify. unfold requireRole, includes. cbn [existsb].
    rewrite Hrole. reflexivity.
Qed.

(** A super_admin, were a token to say so, is not let in. *)
Lemma admin_routes_refuse_other_roles_witness :
  Reports.route Reports.EventPopularity 100
    (Some (jwt_sign 0 {| u_id := 1; u_college_id := 1; u_role := "super_admin" |}))
    Sample.campus
  = (Sample.campus, respond_with 403 (Error "Insufficient permissions")).
Proof.
  apply (admin_routes_refuse_other_roles 100 _
           {| u_id := 1; u_college_id := 1; u_role := "super_admin" |}
           Sample.campus).
  - reflexivity.
  - discriminate.
Defined.

(** X26: the account check covers the roles admin, super_admin and
    student only: a verified credential of any other role reaches the
    handler unchecked, with the college its own payload claims. *)
Theorem other_roles_skip_the_account_check (now : Z) (t : jwt) (user : payload)
    (next : payload -> Handler) (d : database) :
  jwt_verify now t = Some user ->
  ~ known_role (u_role user) ->
  authenticateToken now (Some t)
    (fun decoded => requireSameCollege (Some decoded) next) d
  = next user d.
Proof.
  intros Hverify Hrole. unfold authenticateToken. rewrite Hverify.
  now apply GuardFacts.requireSameCollege_other_role.
Qed.

(** A token of role guest for a user id that no table has. *)
Lemma other_roles_skip_the_account_check_witness :
  Attendance.route Sample.qr_of 100
    (Some (jwt_sign 0 {| u_id := 77; u_college_id := 2; u_role := "guest" |}))
    "good" Sample.campus
  = (Sample.campus, respond_with 403 (Error "Only students can check in")).
Proof.
  unfold Attendance.route.
  rewrite (other_roles_skip_the_account_check 100 _
             {| u_id := 77; u_college_id := 2; u_role := "guest" |}).
  - reflexivity.
  - reflexivity.
  - intros [H | [H | H]]; discriminate.
Defined.

End GuardEdgeFacts.

(** ** The reports, row by row *)

Module ReportRowsFacts.

Import Reports EventReports.

Lemma left_join_some (d : database) (s : student) :
  left_join d s <> [].
Proof.
  unfold left_join. destruct (filter (joins s) (attendance d)); discriminate.
Qed.

Lemma participation_group_no_period (d : database) (s : student) :
  participation_group no_period d s =
    [{| sc_id := s_id s; sc_first_name := s_first_name s;
        sc_last_name := s_last_name s;
        sc_events_attended := count_ids (left_join d s) |}].
Proof.
  unfold participation_group.
  assert (H : filter (in_period no_period) (left_join d s) = left_join d s).
  { induction (left_join d s) as [|a l IH]; [reflexivity|].
    simpl. now rewrite IH. }
  rewrite H. pose proof (left_join_some d s) as Hne.
  destruct (left_join d s); [contradiction | reflexivity].
Qed.

(** X27: without bounds the participation report has every student of the
    college exactly once, those who never attended with a count of 0; with
    a start or an end date it keeps only students with at least one
    attendance in the period, so that every count is 1 or more. *)
Theorem participation_rows (college : Z) (q : period) (d : database) :
  Permutation
    (map sc_id (student_participation college no_period d))
    (map s_id (filter (fun s => s_college_id s =? college) (students d)))
  /\ (start_date q <> None \/ end_date q <> None ->
      forall row, In row (student_participation college q d) ->
        1 <= sc_events_attended row).
Proof.
  split.
  - unfold student_participation.
    rewrite (OrderFacts.order_by_desc_perm sc_events_attended).
    induction (filter (fun s => s_college_id s =? college) (students d))
      as [|s l IH]; [reflexivity|].
    cbn [flat_map]. rewrite participation_group_no_period.
    cbn [app map sc_id]. now constructor.
  - intros Hbound row Hrow. unfold student_participation in Hrow.
    apply ReportsFacts.in_order_by_desc, in_flat_map in Hrow.
    destruct Hrow as (s & _ & Hrow). unfold participation_group in Hrow.
    destruct (filter (in_period q) (left_join d s)) as [|a l] eqn:Hrows;
      [destruct Hrow|].
    destruct Hrow as [<- | []]. cbn [sc_events_attended].
    assert (Ha : In a (filter (in_period q) (left_join d s))).
    { rewrite Hrows. now left. }
    apply filter_In in Ha. destruct Ha as [_ Ha].
    assert (Hsome : exists row, a = Some row).
    { destruct a as [row|]; [eauto|]. exfalso.
      unfold in_period in Ha. apply andb_true_iff in Ha. destruct Ha as [H1 H2].
      destruct Hbound as [Hb | Hb].
      - destruct (start_date q); [discriminate | contradiction].
      - destruct (end_date q); [discriminate | contradiction]. }
    destruct Hsome as [row ->].
    unfold count_ids, Sql.count. cbn [filter length]. lia.
Qed.

Lemma participation_rows_witness :
  Forall (fun row => 1 <= sc_events_attended row)
    (student_participation 1 {| start_date := Some 10; end_date := None |}
       Sample.campus_attended).
Proof.
  apply Forall_forall.
  apply (participation_rows 1 {| start_date := Some 10; end_date := None |}
           Sample.campus_attended).
  left. discriminate.
Defined.

Lemma sorted_app_le {A : Type} (R : A -> A -> Prop) (l1 l2 : list A) :
  StronglySorted R (l1 ++ l2) ->
  StronglySorted R l1 /\ forall x y, In x l1 -> In y l2 -> R x y.
Proof.
  induction l1 as [|a l1 IH]; simpl; intros H.
  - split; [constructor | intros x y []].
  - apply StronglySorted_inv in H. destruct H as [H Ha].
    destruct (IH H) as [Hl1 Hcross]. rewrite Forall_forall in Ha. split.
    + constructor; [exact Hl1|]. apply Forall_forall. intros x Hx.
      apply Ha, in_or_app. now left.
    + intros x y [<- | Hx] Hy; [|now apply Hcross].
      apply Ha, in_or_app. now right.
Qed.

(** X28: the leaderboard is the head of the participation report: at most
    [limit] rows, 10 when the parameter is missing, not a number or 0, by
    falling count, and no student left out has a higher count than one
    listed; a negative limit is answered 500. *)
Theorem leaderboard_is_the_top (user : payload) (parsed : option Z) (d : database) :
  limit_of None = 10 /\ limit_of (Some 0) = 10
  /\ (limit_of parsed < 0 ->
      get_leaderboard user parsed d =
        (d, respond_with 500 (Error "Failed to generate leaderboard")))
  /\ (0 <= limit_of parsed ->
      exists rows rest,
        get_leaderboard user parsed d = (d, respond_with 200 (Leaderboard rows))
        /\ student_participation (u_college_id user) no_period d = rows ++ rest
        /\ (length rows <= Z.to_nat (limit_of parsed))%nat
        /\ (rest <> [] -> length rows = Z.to_nat (limit_of parsed))
        /\ StronglySorted
             (fun a b => sc_events_attended b <= sc_events_attended a) rows
        /\ forall x y, In x rows -> In y rest ->
             sc_events_attended y <= sc_events_attended x).
Proof.
  split; [reflexivity|]. split; [reflexivity|].
  unfold get_leaderboard, leaderboard. run_handler. split.
  - intros Hneg. apply Z.ltb_lt in Hneg. now rewrite Hneg.
  - intros Hpos. apply Z.ltb_ge in Hpos. rewrite Hpos.
    set (all := student_participation (u_college_id user) no_period d).
    set (n := Z.to_nat (limit_of parsed)).
    exists (firstn n all), (skipn n all).
    split; [reflexivity|]. split; [symmetry; apply firstn_skipn|].
    split; [apply firstn_le_length|].
    assert (Hsorted : StronglySorted
              (fun a b => sc_events_attended b <= sc_events_attended a)
              (firstn n all ++ skipn n all)).
    { rewrite firstn_skipn. apply OrderFacts.order_by_desc_sorted. }
    apply sorted_app_le in Hsorted. destruct Hsorted as [Hs Hcross].
    split; [|split; [exact Hs | exact Hcross]].
    intros Hrest. rewrite length_firstn. apply Nat.min_l.
    destruct (Nat.le_gt_cases n (length all)) as [Hle|Hgt]; [exact Hle|].
    exfalso. apply Hrest. apply skipn_all2. lia.
Qed.

Lemma leaderboard_is_the_top_witness :
  exists rows rest,
    get_leaderboard (Sample.as_admin 1 1) (Some 2) Sample.campus_attended
      = (Sample.campus_attended, respond_with 200 (Leaderboard rows))
    /\ student_participation 1 no_period Sample.campus_attended = rows ++ rest
    /\ (length rows <= 2)%nat.
Proof.
  destruct (leaderboard_is_the_top (Sample.as_admin 1 1) (Some 2)
              Sample.campus_attended) as (_ & _ & _ & H).
  destruct H as (rows & rest & H1 & H2 & H3 & _); [discriminate|].
  exists rows, rest. auto.
Defined.

(** *** The attendance percentage of [routes/events.js] *)

Lemma count_left_rows {A : Type} (l : list A) :
  Sql.count is_some (left_rows l) = Z.of_nat (length l).
Proof.
  unfold Sql.count. destruct l as [|a l]; [reflexivity|].
  unfold left_rows. f_equal.
  generalize (a :: l). intros l'.
  induction l' as [|b l' IH]; simpl; [reflexivity | now rewrite IH].
Qed.

Lemma length_left_rows {A : Type} (l : list A) :
  Z.of_nat (length (left_rows l)) = Z.max (Z.of_nat (length l)) 1.
Proof.
  destruct l as [|a l]; [reflexivity|].
  unfold left_rows. rewrite length_map. simpl length. lia.
Qed.

Lemma filter_fst_pairs {A B : Type} (r : option A) (la : list (option B)) :
  filter (fun p : option A * option B => is_some (fst p)) (map (pair r) la)
  = if is_some r then map (pair r) la else [].
Proof.
  destruct (is_some r) eqn:Hr; induction la as [|a la IH]; try reflexivity;
    cbn [map filter fst]; rewrite Hr; [now rewrite IH | exact IH].
Qed.

Lemma filter_snd_pairs {A B : Type} (r : option A) (la : list (option B)) :
  length (filter (fun p : option A * option B => is_some (snd p))
            (map (pair r) la))
  = length (filter is_some la).
Proof.
  induction la as [|a la IH]; [reflexivity|].
  cbn [map filter snd]. destruct (is_some a); cbn [length]; now rewrite IH.
Qed.

Lemma count_product {A B : Type} (lr : list (option A)) (la : list (option B)) :
  Sql.count (fun p => is_some (fst p))
    (flat_map (fun r => map (pair r) la) lr)
    = Sql.count is_some lr * Z.of_nat (length la)
  /\ Sql.count (fun p => is_some (snd p))
       (flat_map (fun r => map (pair r) la) lr)
     = Z.of_nat (length lr) * Sql.count is_some la.
Proof.
  unfold Sql.count. induction lr as [|r lr [IH1 IH2]]; [split; reflexivity|].
  cbn [flat_map]. rewrite !filter_app, !length_app, !Nat2Z.inj_add, IH1, IH2.
  rewrite filter_fst_pairs, filter_snd_pairs. split.
  - cbn [filter]. destruct (is_some r); cbn [length];
      rewrite ?length_map; lia.
  - cbn [length]. lia.
Qed.

(** X29: the attendance percentage report joins an event with its
    registered rows and, independently, with its attendance rows, so that
    each count is multiplied by the other: with [R] registered rows and [A]
    attendance rows it shows [R * max A 1] and [A * max R 1], and the
    percentage can only be NULL (no registered row), 0 (no attendance row)
    or exactly 100. *)
Theorem attendance_percentage_is_degenerate (college : Z) (d : database)
    (row : percentage_row) :
  In row (attendance_percentage college d) ->
  exists e,
    In e (events d) /\ e_college_id e = college
    /\ pr_id row = e_id e /\ pr_title row = e_title e
    /\ let R := Sql.count (registered_for e) (registrations d) in
       let A := Sql.count (fun a => e_id e =? at_event_id a) (attendance d) in
       pr_registered_count row = R * Z.max A 1
       /\ pr_attended_count row = A * Z.max R 1
       /\ pr_attendance_percentage row =
            if R =? 0 then None
            else if A =? 0 then Some 0 else Some 1000000.
Proof.
  unfold attendance_percentage.
  rewrite ReportsFacts.in_order_by_desc, in_map_iff.
  intros (e & <- & He). apply filter_In in He. destruct He as [Hin Hc].
  apply Z.eqb_eq in Hc. exists e. split; [exact Hin|]. split; [exact Hc|].
  split; [reflexivity|]. split; [reflexivity|].
  set (R := Sql.count (registered_for e) (registrations d)).
  set (A := Sql.count (fun a => e_id e =? at_event_id a) (attendance d)).
  assert (HR : 0 <= R) by apply count_nonneg.
  assert (HA : 0 <= A) by apply count_nonneg.
  assert (Hcounts :
            Sql.count (fun p => is_some (fst p)) (joined d e) = R * Z.max A 1
            /\ Sql.count (fun p => is_some (snd p)) (joined d e) = A * Z.max R 1).
  { unfold joined.
    destruct (count_product
                (left_rows (filter (registered_for e) (registrations d)))
                (left_rows (filter (fun a => e_id e =? at_event_id a)
                                   (attendance d)))) as [-> ->].
    rewrite !count_left_rows, !length_left_rows.
    unfold R, A, Sql.count. split; lia. }
  destruct Hcounts as [H1 H2]. unfold percentage_row_of.
  cbn [pr_registered_count pr_attended_count pr_attendance_percentage].
  rewrite H1, H2.
  split; [reflexivity|]. split; [reflexivity|].
  unfold sql_div.
  destruct (Z.eqb_spec R 0) as [HR0|HR0].
  - rewrite HR0. simpl. reflexivity.
  - assert (Hb : (R * Z.max A 1 =? 0) = false) by (apply Z.eqb_neq; nia).
    rewrite Hb. cbn [option_map].
    destruct (Z.eqb_spec A 0) as [HA0|HA0].
    + rewrite HA0. f_equal.
      replace (2 * (0 * Z.max R 1) * 10000 + R * Z.max 0 1) with R by lia.
      replace (2 * (R * Z.max 0 1)) with (2 * R) by lia.
      rewrite Z.div_small by lia. reflexivity.
    + f_equal.
      replace (Z.max A 1) with A by lia. replace (Z.max R 1) with R by lia.
      replace (2 * (A * R) * 10000 + R * A)
        with (10000 * (2 * (R * A)) + R * A) by lia.
      rewrite Z.div_add_l by nia. rewrite (Z.div_small (R * A)) by nia.
      reflexivity.
Qed.

(** Event 10 with one registered student and one attendance row. *)
Lemma attendance_percentage_is_degenerate_witness :
  exists e,
    In e (events Sample.campus_attended) /\ e_college_id e = 1
    /\ 10 = e_id e /\ "Hackathon"%string = e_title e
    /\ let R := Sql.count (registered_for e) (registrations Sample.campus_attended) in
       let A := Sql.count (fun a => e_id e =? at_event_id a)
                          (attendance Sample.campus_attended) in
       1 = R * Z.max A 1
       /\ 1 = A * Z.max R 1
       /\ Some 1000000 = if R =? 0 then None
                         else if A =? 0 then Some 0 else Some 1000000.
Proof.
  apply (attendance_percentage_is_degenerate 1 Sample.campus_attended
           {| pr_id := 10; pr_title := "Hackathon"; pr_registered_count := 1;
              pr_attended_count := 1; pr_attendance_percentage := Some 1000000 |}).
  left. reflexivity.
Defined.

End ReportRowsFacts.
